(** * Configuration resolution of the sequelize factory

    A shallow embedding of [configuration/model.js] and [core/factory.js]:
    the five configuration classes with their [Default] and [From] loaders,
    the [toObject] serializers and the factory's [create].

    Conventions.
    - A JavaScript value of the configuration tree is a [value]: the data
      that [JSON.parse] produces.  An object is an association list in
      insertion order; a key is looked up at its first binding, so that
      consing a binding in front of an object is assigning that key.
    - A [throw] is the [Err] case of [result]; [try]/[catch] is [try_catch].
    - The file [model.default.json] is read again by every loader; what the
      read and the parse give is the [DefaultFile] every loader takes. *)

From Stdlib Require Import List String ZArith QArith Bool Lia.
Import ListNotations.
Open Scope string_scope.

(** ** Values *)

#[warnings="-register-all"]
Inductive value : Type :=
| VNull
| VBool (b : bool)
| VNum (q : Q)
| VStr (s : string)
| VArr (items : list value)
| VObj (fields : list (string * value)).

Definition VInt (z : Z) : value := VNum (inject_Z z).

(** [Number.isInteger]: the number in lowest terms has denominator one. *)
Definition isInteger (q : Q) : bool := Pos.eqb (Qden (Qred q)) 1.

Fixpoint assoc (name : string) (fields : list (string * value)) : option value :=
  match fields with
  | [] => None
  | (k, v) :: rest => if String.eqb name k then Some v else assoc name rest
  end.

(** [name in v] followed by [v[name]], for the names the loaders use: none of
    them is an index, [length] or a method of an array, nor a member of
    [Object.prototype], so only the own keys of an object are found. *)
Definition property (name : string) (v : value) : option value :=
  match v with
  | VObj fields => assoc name fields
  | _ => None
  end.

(** [v instanceof Object]. *)
Definition instanceOfObject (v : value) : bool :=
  match v with
  | VObj _ | VArr _ => true
  | _ => false
  end.

(** ** Results *)

Inductive result (E A : Type) : Type :=
| Ok (a : A)
| Err (e : E).
Arguments Ok {E A} a.
Arguments Err {E A} e.

Definition bind {E A B} (r : result E A) (k : A -> result E B) : result E B :=
  match r with
  | Ok a => k a
  | Err e => Err e
  end.

Declare Scope result_scope.
Delimit Scope result_scope with result.
Notation "r >>= k" := (bind r k) (at level 50, left associativity) : result_scope.
Notation "'let*' x ':=' r 'in' k" := (bind r (fun x => k))
  (at level 10, x pattern, r at level 100, k at level 200)
  : result_scope.
Open Scope result_scope.

(** ** The traversal package

    [xrtlibrary-traverse] is a dependency of the repository, not part of it.
    The module embeds the nine members the loaders call, after the package's
    documented contract: [sub] raises when the key does not exist,
    [optionalSub] takes the default value when the key does not exist,
    [notNull] raises on [null], and every type check lets [null] through. *)
Module XRTLibTraverse.

Inductive kind : Type := KObject | KBoolean | KInteger | KString.

Inductive TraverseError : Type :=
| ParameterError (at_path : list string)
| TypeError (at_path : list string) (expected : kind)
| KeyNotFoundError (at_path : list string).

Record Traverse : Type := mk { inner : value; path : list string }.

Definition M : Type := result TraverseError Traverse.

Definition WrapObject (v : value) : Traverse := mk v [].

Definition notNull (t : Traverse) : M :=
  match inner t with
  | VNull => Err (ParameterError (path t))
  | _ => Ok t
  end.

Definition has_kind (k : kind) (v : value) : bool :=
  match k, v with
  | KObject, _ => instanceOfObject v
  | KBoolean, VBool _ => true
  | KInteger, VNum q => isInteger q
  | KString, VStr _ => true
  | _, _ => false
  end.

Definition check (k : kind) (t : Traverse) : M :=
  match inner t with
  | VNull => Ok t
  | v => if has_kind k v then Ok t else Err (TypeError (path t) k)
  end.

Definition typeOf_Object : Traverse -> M := check KObject.
Definition boolean : Traverse -> M := check KBoolean.
Definition integer : Traverse -> M := check KInteger.
Definition string_ : Traverse -> M := check KString.

(** The two descents share their guard: the receiver is not [null] and is
    an object. *)
Definition container (t : Traverse) : M :=
  match inner t with
  | VNull => Err (ParameterError (path t))
  | v => if instanceOfObject v then Ok t else Err (TypeError (path t) KObject)
  end.

Definition sub (name : String.string) (t : Traverse) : M :=
  let* _ := container t in
  match property name (inner t) with
  | Some v => Ok (mk v (path t ++ [name]))
  | None => Err (KeyNotFoundError (path t ++ [name]))
  end.

Definition optionalSub (name : String.string) (defaultValue : value)
    (t : Traverse) : M :=
  let* _ := container t in
  match property name (inner t) with
  | Some v => Ok (mk v (path t ++ [name]))
  | None => Ok (mk defaultValue (path t ++ [name]))
  end.

(** [.inner()] at the end of a chain. *)
Definition get (m : M) : result TraverseError value :=
  let* t := m in Ok (inner t).

End XRTLibTraverse.
Import XRTLibTraverse.

(** ** Errors and the default file *)

Inductive error : Type :=
| Error (message : string)
| ModelConfigurationError (context : option string) (cause : TraverseError).

Definition isModelConfigurationError (e : error) : bool :=
  match e with
  | ModelConfigurationError _ _ => true
  | Error _ => false
  end.

(** [try { body } catch (error) { throw new ModelConfigurationError(...) }];
    [context] is the text of the format string in front of the cause. *)
Definition try_catch {A} (context : option string)
    (body : result TraverseError A) : result error A :=
  match body with
  | Ok a => Ok a
  | Err cause => Err (ModelConfigurationError context cause)
  end.

(** What [FS.readFileSync] and [JSON.parse] make of [model.default.json]. *)
Inductive DefaultFile : Type :=
| Unreadable
| Malformed
| Document (doc : value).

Definition ReadDefaultRawConfiguration (file : DefaultFile) : result error value :=
  match file with
  | Unreadable => Err (Error "Read model default configuration file error.")
  | Malformed => Err (Error "Invalid default model configuration.")
  | Document doc => Ok doc
  end.

(** ** The nested configurations *)

Module ModelSyncConfiguration.

Record t : Type := new { getForce : value; getAlter : value }.

Definition toObject (c : t) : value :=
  VObj [("force", getForce c); ("alter", getAlter c)].

Definition Default (file : DefaultFile) : result error t :=
  let* cfg := ReadDefaultRawConfiguration file in
  let* (force, alter) :=
    try_catch (Some "Load default model sync configuration error.")
      (let* root := sub "sync" (WrapObject cfg) >>= notNull >>= typeOf_Object in
       let* force := get (sub "force" root >>= notNull >>= boolean) in
       let* alter := get (sub "alter" root >>= notNull >>= boolean) in
       Ok (force, alter)) in
  Ok (new force alter).

Definition From (file : DefaultFile) (cfg : value) : result error t :=
  let* dcfg := Default file in
  let* (force, alter) :=
    try_catch (Some "Load model sync configuration error.")
      (let* root := notNull (WrapObject cfg) >>= typeOf_Object in
       let* force :=
         get (optionalSub "force" (getForce dcfg) root >>= notNull >>= boolean) in
       let* alter :=
         get (optionalSub "alter" (getAlter dcfg) root >>= notNull >>= boolean) in
       Ok (force, alter)) in
  Ok (new force alter).

End ModelSyncConfiguration.

Module ModelPoolConfiguration.

Record t : Type := new {
  getMax : value;
  getMin : value;
  getIdle : value;
  getAcquire : value;
  getEvict : value
}.

Definition toObject (c : t) : value :=
  VObj [("max", getMax c); ("min", getMin c); ("idle", getIdle c);
        ("acquire", getAcquire c); ("evict", getEvict c)].

Definition Default (file : DefaultFile) : result error t :=
  let* cfg := ReadDefaultRawConfiguration file in
  let* (max, min, idle, acquire, evict) :=
    try_catch (Some "Load default model pool configuration error.")
      (let* root := sub "pool" (WrapObject cfg) >>= notNull >>= typeOf_Object in
       let* max := get (sub "max" root >>= notNull >>= integer) in
       let* min := get (sub "min" root >>= notNull >>= integer) in
       let* idle := get (sub "idle" root >>= notNull >>= integer) in
       let* acquire := get (sub "acquire" root >>= notNull >>= integer) in
       let* evict := get (sub "evict" root >>= notNull >>= integer) in
       Ok (max, min, idle, acquire, evict)) in
  Ok (new max min idle acquire evict).

Definition From (file : DefaultFile) (cfg : value) : result error t :=
  let* dcfg := Default file in
  let* (max, min, idle, acquire, evict) :=
    try_catch (Some "Load model pool configuration error.")
      (let* root := notNull (WrapObject cfg) >>= typeOf_Object in
       let* max :=
         get (optionalSub "max" (getMax dcfg) root >>= notNull >>= integer) in
       let* min :=
         get (optionalSub "min" (getMin dcfg) root >>= notNull >>= integer) in
       let* idle :=
         get (optionalSub "idle" (getIdle dcfg) root >>= notNull >>= integer) in
       let* acquire :=
         get (optionalSub "acquire" (getAcquire dcfg) root
              >>= notNull >>= integer) in
       let* evict :=
         get (optionalSub "evict" (getEvict dcfg) root >>= notNull >>= integer) in
       Ok (max, min, idle, acquire, evict)) in
  Ok (new max min idle acquire evict).

End ModelPoolConfiguration.

Module ModelTransactionConfiguration.

Record t : Type := new { getType : value; getIsolationLevel : value }.

Definition toObject (c : t) : value :=
  VObj [("transactionType", getType c);
        ("isolationLevel", getIsolationLevel c)].

Definition Default (file : DefaultFile) : result error t :=
  let* cfg := ReadDefaultRawConfiguration file in
  let* (type, isolationLevel) :=
    try_catch (Some "Load default model transaction configuration.")
      (let* root :=
         sub "transaction" (WrapObject cfg) >>= notNull >>= typeOf_Object in
       let* type := get (sub "type" root >>= notNull >>= string_) in
       let* isolationLevel :=
         get (sub "isolation-level" root >>= notNull >>= string_) in
       Ok (type, isolationLevel)) in
  Ok (new type isolationLevel).

Definition From (file : DefaultFile) (cfg : value) : result error t :=
  let* dcfg := Default file in
  let* (type, isolationLevel) :=
    try_catch (Some "Load model transaction configuration.")
      (let* root := notNull (WrapObject cfg) >>= typeOf_Object in
       let* type :=
         get (optionalSub "type" (getType dcfg) root >>= notNull >>= string_) in
       let* isolationLevel :=
         get (optionalSub "isolation-level" (getIsolationLevel dcfg) root
              >>= notNull >>= string_) in
       Ok (type, isolationLevel)) in
  Ok (new type isolationLevel).

End ModelTransactionConfiguration.

Module ModelRetryConfiguration.

Record t : Type := new { getMax : value }.

Definition toObject (c : t) : value := VObj [("max", getMax c)].

Definition Default (file : DefaultFile) : result error t :=
  let* cfg := ReadDefaultRawConfiguration file in
  let* max :=
    try_catch (Some "Load model retry configuration error.")
      (let* root := sub "retry" (WrapObject cfg) >>= notNull >>= typeOf_Object in
       get (sub "max" root >>= notNull >>= integer)) in
  Ok (new max).

Definition From (file : DefaultFile) (cfg : value) : result error t :=
  let* dcfg := Default file in
  let* max :=
    try_catch (Some "Load model retry configuration error.")
      (let* root := notNull (WrapObject cfg) >>= typeOf_Object in
       get (optionalSub "max" (getMax dcfg) root >>= notNull >>= integer)) in
  Ok (new max).

End ModelRetryConfiguration.

(** ** The aggregate configuration *)

Module ModelConfiguration.

Record t : Type := new {
  getHost : value;
  getPort : value;
  getUsername : value;
  getPassword : value;
  getDatabase : value;
  getDialect : value;
  getProtocol : value;
  getSyncConfiguration : ModelSyncConfiguration.t;
  getLogging : value;
  getOmitNull : value;
  getPoolConfiguration : ModelPoolConfiguration.t;
  getTransactionConfiguration : ModelTransactionConfiguration.t;
  getRetryConfiguration : ModelRetryConfiguration.t;
  getOperatorsAliases : value
}.

Definition toObject (c : t) : value :=
  VObj [
    ("host", getHost c);
    ("port", getPort c);
    ("username", getUsername c);
    ("password", getPassword c);
    ("database", getDatabase c);
    ("dialect", getDialect c);
    ("protocol", getProtocol c);
    ("sync", ModelSyncConfiguration.toObject (getSyncConfiguration c));
    ("logging", getLogging c);
    ("omitNull", getOmitNull c);
    ("pool", ModelPoolConfiguration.toObject (getPoolConfiguration c));
    ("transactionType",
       ModelTransactionConfiguration.getType (getTransactionConfiguration c));
    ("isolationLevel",
       ModelTransactionConfiguration.getIsolationLevel
         (getTransactionConfiguration c));
    ("retry", ModelRetryConfiguration.toObject (getRetryConfiguration c));
    ("operatorsAliases", getOperatorsAliases c)
  ].

(** The fourteen locals that the [try] block of a loader assigns. *)
Record locals : Type := Locals {
  host : value;
  port : value;
  username : value;
  password : value;
  database : value;
  dialect : value;
  protocol : value;
  sync : value;
  logging : value;
  omitNull : value;
  pool : value;
  transaction : value;
  retry : value;
  operatorsAliases : value
}.

Definition Default_locals (cfg : value) : result TraverseError locals :=
  let* root := notNull (WrapObject cfg) >>= typeOf_Object in
  let* host := get (sub "host" root >>= notNull >>= string_) in
  let* port := get (sub "port" root >>= notNull >>= integer) in
  let* username := get (sub "username" root >>= string_) in
  let* password := get (sub "password" root >>= string_) in
  let* database := get (sub "database" root >>= string_) in
  let* dialect := get (sub "dialect" root >>= notNull >>= string_) in
  let* protocol := get (sub "protocol" root >>= notNull >>= string_) in
  let* sync := get (sub "sync" root >>= notNull >>= typeOf_Object) in
  let* logging := get (sub "logging" root >>= notNull >>= boolean) in
  let* omitNull := get (sub "omit-null" root >>= notNull >>= boolean) in
  let* pool := get (sub "pool" root >>= notNull >>= typeOf_Object) in
  let* transaction :=
    get (sub "transaction" root >>= notNull >>= typeOf_Object) in
  let* retry := get (sub "retry" root >>= notNull >>= typeOf_Object) in
  let* operatorsAliases :=
    get (sub "operators-aliases" root >>= typeOf_Object) in
  Ok (Locals host port username password database dialect protocol sync
        logging omitNull pool transaction retry operatorsAliases).

Definition Default (file : DefaultFile) : result error t :=
  let* cfg := ReadDefaultRawConfiguration file in
  let* l := try_catch None (Default_locals cfg) in
  let* syncCfg := ModelSyncConfiguration.From file (sync l) in
  let* poolCfg := ModelPoolConfiguration.From file (pool l) in
  let* transactionCfg :=
    ModelTransactionConfiguration.From file (transaction l) in
  let* retryCfg := ModelRetryConfiguration.From file (retry l) in
  Ok (new (host l) (port l) (username l) (password l) (database l)
        (dialect l) (protocol l) syncCfg (logging l) (omitNull l) poolCfg
        transactionCfg retryCfg (operatorsAliases l)).

Definition From_locals (dcfg : t) (cfg : value) : result TraverseError locals :=
  let* root := notNull (WrapObject cfg) >>= typeOf_Object in
  let* host :=
    get (optionalSub "host" (getHost dcfg) root >>= notNull >>= string_) in
  let* port :=
    get (optionalSub "port" (getPort dcfg) root >>= notNull >>= integer) in
  let* username :=
    get (optionalSub "username" (getUsername dcfg) root >>= string_) in
  let* password :=
    get (optionalSub "password" (getPassword dcfg) root >>= string_) in
  let* database :=
    get (optionalSub "database" (getDatabase dcfg) root >>= string_) in
  let* dialect :=
    get (optionalSub "dialect" (getDialect dcfg) root >>= notNull >>= string_) in
  let* protocol :=
    get (optionalSub "protocol" (getProtocol dcfg) root
         >>= notNull >>= string_) in
  let* sync :=
    get (optionalSub "sync" (VObj []) root >>= notNull >>= typeOf_Object) in
  let* logging :=
    get (optionalSub "logging" (getLogging dcfg) root >>= notNull >>= boolean) in
  let* omitNull :=
    get (optionalSub "omit-null" (getOmitNull dcfg) root
         >>= notNull >>= boolean) in
  let* pool :=
    get (optionalSub "pool" (VObj []) root >>= notNull >>= typeOf_Object) in
  let* transaction :=
    get (optionalSub "transaction" (VObj []) root
         >>= notNull >>= typeOf_Object) in
  let* retry :=
    get (optionalSub "retry" (VObj []) root >>= notNull >>= typeOf_Object) in
  let* operatorsAliases :=
    get (optionalSub "operators-aliases" (getOperatorsAliases dcfg) root
         >>= typeOf_Object) in
  Ok (Locals host port username password database dialect protocol sync
        logging omitNull pool transaction retry operatorsAliases).

Definition From (file : DefaultFile) (cfg : value) : result error t :=
  let* dcfg := Default file in
  let* l :=
    try_catch (Some "Load model configuration error.") (From_locals dcfg cfg) in
  let* syncCfg := ModelSyncConfiguration.From file (sync l) in
  let* transactionCfg :=
    ModelTransactionConfiguration.From file (transaction l) in
  let* poolCfg := ModelPoolConfiguration.From file (pool l) in
  let* retryCfg := ModelRetryConfiguration.From file (retry l) in
  Ok (new (host l) (port l) (username l) (password l) (database l)
        (dialect l) (protocol l) syncCfg (logging l) (omitNull l) poolCfg
        transactionCfg retryCfg (operatorsAliases l)).

End ModelConfiguration.

(** ** The factory *)

Module SequelizeFactory.

Inductive FactoryError : Type :=
| SequelizeFactoryConfigurationError (cause : error)
| SequelizeFactoryAuthenticateError (message : string).

(** The [sequelize] package, as far as [create] uses it: the constructor and
    [authenticate], each of which may throw. *)
Record Sequelize (client : Type) : Type := {
  construct : value -> result string client;
  authenticate : client -> result string unit
}.
Arguments construct {client} _ _.
Arguments authenticate {client} _ _.

(** The calls into the package, in the order [create] makes them. *)
Inductive event : Type :=
| NewSequelize (options : value)
| Authenticate.

(** What the promise rejects with: one of the factory's own errors, or what
    the constructor threw. *)
Inductive rejection : Type :=
| Factory (e : FactoryError)
| Uncaught (message : string).

Definition create {client} (lib : Sequelize client) (file : DefaultFile)
    (cfg : value) (waitForAuthenticate : bool)
    : list event * result rejection client :=
  match ModelConfiguration.From file cfg with
  | Err e => ([], Err (Factory (SequelizeFactoryConfigurationError e)))
  | Ok modelCfg =>
      let options := ModelConfiguration.toObject modelCfg in
      match construct lib options with
      | Err m => ([NewSequelize options], Err (Uncaught m))
      | Ok sequelize =>
          if waitForAuthenticate then
            match authenticate lib sequelize with
            | Err m =>
                ([NewSequelize options; Authenticate],
                 Err (Factory (SequelizeFactoryAuthenticateError m)))
            | Ok _ => ([NewSequelize options; Authenticate], Ok sequelize)
            end
          else ([NewSequelize options], Ok sequelize)
      end
  end.

End SequelizeFactory.

(** ** A default document *)

(** Modelled from the spec: the bundled [model.default.json] is missing from
    the sources.  The keys are those of section 6 of the specification, the
    values those of the configuration table of the README; [omit-null] and
    [operators-aliases], which the table leaves out, are [false] and [null].
    The theorems quantify over the default file; this one is their example. *)
Definition model_default_json : value :=
  VObj [
    ("host", VStr "localhost");
    ("port", VInt 3306);
    ("username", VNull);
    ("password", VNull);
    ("database", VNull);
    ("dialect", VStr "mysql");
    ("protocol", VStr "tcp");
    ("sync", VObj [("force", VBool false); ("alter", VBool false)]);
    ("logging", VBool false);
    ("omit-null", VBool false);
    ("pool", VObj [("max", VInt 5); ("min", VInt 0); ("idle", VInt 10000);
                   ("acquire", VInt 60000); ("evict", VInt 1000)]);
    ("transaction", VObj [("type", VStr "DEFERRED");
                          ("isolation-level", VStr "READ_COMMITTED")]);
    ("retry", VObj [("max", VInt 4)]);
    ("operators-aliases", VNull)
  ].

Definition bundled : DefaultFile := Document model_default_json.

(** * Properties *)

(** ** Notions of the statements *)

(** The value a lookup with a default settles on. *)
Definition pick (name : string) (defaultValue : value) (v : value) : value :=
  match property name v with
  | Some x => x
  | None => defaultValue
  end.

(** A value that passes [.notNull()] and then the check of kind [k]. *)
Definition accepted (k : kind) (v : value) : bool :=
  match v with
  | VNull => false
  | _ => has_kind k v
  end.

(** A value that passes the check of kind [k] alone. *)
Definition allowed (k : kind) (v : value) : bool :=
  match v with
  | VNull => true
  | _ => has_kind k v
  end.

(** What the chain throws on a value that does not pass: [.notNull()] on
    [null], the check of kind [k] on the others. *)
Definition refusal (k : kind) (v : value) (p : list string) : TraverseError :=
  match v with
  | VNull => ParameterError p
  | _ => TypeError p k
  end.

(** A loader either returns a configuration with the property [P] or throws a
    [ModelConfigurationError]. *)
Definition outcome {A} (r : result error A) (P : A -> Prop) : Prop :=
  match r with
  | Ok a => P a
  | Err e => isModelConfigurationError e = true
  end.

(** [From] once the defaults are loaded: it returns [merge] exactly when the
    raw object is [valid], and throws a [ModelConfigurationError] otherwise. *)
Definition merges {A} (r : result error A) (valid : bool) (merged : A) : Prop :=
  match r with
  | Ok c => valid = true /\ c = merged
  | Err e => valid = false /\ isModelConfigurationError e = true
  end.

(** What [From] of a nested loader returns on the raw object [cfg] when the
    defaults are [d], and the test that it returns at all: the raw object is
    an object and every value settled on passes its chain. *)
Definition sync_merge (d : ModelSyncConfiguration.t) (cfg : value)
    : ModelSyncConfiguration.t :=
  ModelSyncConfiguration.new
    (pick "force" (ModelSyncConfiguration.getForce d) cfg)
    (pick "alter" (ModelSyncConfiguration.getAlter d) cfg).

Definition sync_valid (d : ModelSyncConfiguration.t) (cfg : value) : bool :=
  instanceOfObject cfg
  && accepted KBoolean (pick "force" (ModelSyncConfiguration.getForce d) cfg)
  && accepted KBoolean (pick "alter" (ModelSyncConfiguration.getAlter d) cfg).

Definition pool_merge (d : ModelPoolConfiguration.t) (cfg : value)
    : ModelPoolConfiguration.t :=
  ModelPoolConfiguration.new
    (pick "max" (ModelPoolConfiguration.getMax d) cfg)
    (pick "min" (ModelPoolConfiguration.getMin d) cfg)
    (pick "idle" (ModelPoolConfiguration.getIdle d) cfg)
    (pick "acquire" (ModelPoolConfiguration.getAcquire d) cfg)
    (pick "evict" (ModelPoolConfiguration.getEvict d) cfg).

Definition pool_valid (d : ModelPoolConfiguration.t) (cfg : value) : bool :=
  instanceOfObject cfg
  && accepted KInteger (pick "max" (ModelPoolConfiguration.getMax d) cfg)
  && accepted KInteger (pick "min" (ModelPoolConfiguration.getMin d) cfg)
  && accepted KInteger (pick "idle" (ModelPoolConfiguration.getIdle d) cfg)
  && accepted KInteger (pick "acquire" (ModelPoolConfiguration.getAcquire d) cfg)
  && accepted KInteger (pick "evict" (ModelPoolConfiguration.getEvict d) cfg).

Definition transaction_merge (d : ModelTransactionConfiguration.t) (cfg : value)
    : ModelTransactionConfiguration.t :=
  ModelTransactionConfiguration.new
    (pick "type" (ModelTransactionConfiguration.getType d) cfg)
    (pick "isolation-level"
       (ModelTransactionConfiguration.getIsolationLevel d) cfg).

Definition transaction_valid (d : ModelTransactionConfiguration.t) (cfg : value)
    : bool :=
  instanceOfObject cfg
  && accepted KString (pick "type" (ModelTransactionConfiguration.getType d) cfg)
  && accepted KString
       (pick "isolation-level"
          (ModelTransactionConfiguration.getIsolationLevel d) cfg).

Definition retry_merge (d : ModelRetryConfiguration.t) (cfg : value)
    : ModelRetryConfiguration.t :=
  ModelRetryConfiguration.new
    (pick "max" (ModelRetryConfiguration.getMax d) cfg).

Definition retry_valid (d : ModelRetryConfiguration.t) (cfg : value) : bool :=
  instanceOfObject cfg
  && accepted KInteger (pick "max" (ModelRetryConfiguration.getMax d) cfg).


(** The same for the [try] block of [ModelConfiguration.From]: the locals it
    assigns and the test that it assigns them all.  The three strings and
    [operators-aliases] may be [null]. *)
Definition model_locals (d : ModelConfiguration.t) (cfg : value)
    : ModelConfiguration.locals :=
  ModelConfiguration.Locals
    (pick "host" (ModelConfiguration.getHost d) cfg)
    (pick "port" (ModelConfiguration.getPort d) cfg)
    (pick "username" (ModelConfiguration.getUsername d) cfg)
    (pick "password" (ModelConfiguration.getPassword d) cfg)
    (pick "database" (ModelConfiguration.getDatabase d) cfg)
    (pick "dialect" (ModelConfiguration.getDialect d) cfg)
    (pick "protocol" (ModelConfiguration.getProtocol d) cfg)
    (pick "sync" (VObj []) cfg)
    (pick "logging" (ModelConfiguration.getLogging d) cfg)
    (pick "omit-null" (ModelConfiguration.getOmitNull d) cfg)
    (pick "pool" (VObj []) cfg)
    (pick "transaction" (VObj []) cfg)
    (pick "retry" (VObj []) cfg)
    (pick "operators-aliases" (ModelConfiguration.getOperatorsAliases d) cfg).

Definition model_valid (d : ModelConfiguration.t) (cfg : value) : bool :=
  instanceOfObject cfg
  && accepted KString (pick "host" (ModelConfiguration.getHost d) cfg)
  && accepted KInteger (pick "port" (ModelConfiguration.getPort d) cfg)
  && allowed KString (pick "username" (ModelConfiguration.getUsername d) cfg)
  && allowed KString (pick "password" (ModelConfiguration.getPassword d) cfg)
  && allowed KString (pick "database" (ModelConfiguration.getDatabase d) cfg)
  && accepted KString (pick "dialect" (ModelConfiguration.getDialect d) cfg)
  && accepted KString (pick "protocol" (ModelConfiguration.getProtocol d) cfg)
  && accepted KObject (pick "sync" (VObj []) cfg)
  && accepted KBoolean (pick "logging" (ModelConfiguration.getLogging d) cfg)
  && accepted KBoolean (pick "omit-null" (ModelConfiguration.getOmitNull d) cfg)
  && accepted KObject (pick "pool" (VObj []) cfg)
  && accepted KObject (pick "transaction" (VObj []) cfg)
  && accepted KObject (pick "retry" (VObj []) cfg)
  && allowed KObject
       (pick "operators-aliases" (ModelConfiguration.getOperatorsAliases d) cfg).

(** The configuration that [ModelConfiguration.From] and [Default] build from
    the locals and the four nested configurations. *)
Definition assemble (l : ModelConfiguration.locals)
    (syncCfg : ModelSyncConfiguration.t) (poolCfg : ModelPoolConfiguration.t)
    (transactionCfg : ModelTransactionConfiguration.t)
    (retryCfg : ModelRetryConfiguration.t) : ModelConfiguration.t :=
  ModelConfiguration.new
    (ModelConfiguration.host l) (ModelConfiguration.port l)
    (ModelConfiguration.username l) (ModelConfiguration.password l)
    (ModelConfiguration.database l) (ModelConfiguration.dialect l)
    (ModelConfiguration.protocol l) syncCfg (ModelConfiguration.logging l)
    (ModelConfiguration.omitNull l) poolCfg transactionCfg retryCfg
    (ModelConfiguration.operatorsAliases l).

(** A [try] block returns [merged] exactly when [valid]. *)
Definition settles {E A} (r : result E A) (valid : bool) (merged : A) : Prop :=
  match r with
  | Ok c => valid = true /\ c = merged
  | Err _ => valid = false
  end.

(** The keys that [ModelConfiguration.From] looks up in the raw object. *)
Definition model_keys : list string :=
  ["host"; "port"; "username"; "password"; "database"; "dialect"; "protocol";
   "sync"; "logging"; "omit-null"; "pool"; "transaction"; "retry";
   "operators-aliases"].

(** The keys of an object, in order, and the test that none of its values is
    itself an object. *)
Definition keys (o : value) : list string :=
  match o with
  | VObj fields => map fst fields
  | _ => []
  end.


(** The configuration that the example document gives. *)
Definition default_configuration : ModelConfiguration.t :=
  ModelConfiguration.new
    (VStr "localhost") (VInt 3306) VNull VNull VNull (VStr "mysql") (VStr "tcp")
    (ModelSyncConfiguration.new (VBool false) (VBool false))
    (VBool false) (VBool false)
    (ModelPoolConfiguration.new
       (VInt 5) (VInt 0) (VInt 10000) (VInt 60000) (VInt 1000))
    (ModelTransactionConfiguration.new (VStr "DEFERRED") (VStr "READ_COMMITTED"))
    (ModelRetryConfiguration.new (VInt 4))
    VNull.

(** A raw field that, when given, passes [.notNull()] and the check of its
    kind; and the raw objects of the nested loaders all of whose given fields
    do. *)
Definition provided (k : kind) (name : string) (raw : value) : bool :=
  match property name raw with
  | Some v => accepted k v
  | None => true
  end.

Definition sync_raw_valid (raw : value) : bool :=
  instanceOfObject raw
  && provided KBoolean "force" raw && provided KBoolean "alter" raw.

Definition pool_raw_valid (raw : value) : bool :=
  instanceOfObject raw
  && provided KInteger "max" raw && provided KInteger "min" raw
  && provided KInteger "idle" raw && provided KInteger "acquire" raw
  && provided KInteger "evict" raw.

Definition transaction_raw_valid (raw : value) : bool :=
  instanceOfObject raw
  && provided KString "type" raw && provided KString "isolation-level" raw.

Definition retry_raw_valid (raw : value) : bool :=
  instanceOfObject raw && provided KInteger "max" raw.

(** A default document whose pool group lacks [max], and a raw pool object
    that gives all five fields. *)
Definition document_without_pool_max : value :=
  VObj [
    ("host", VStr "localhost");
    ("port", VInt 3306);
    ("username", VNull);
    ("password", VNull);
    ("database", VNull);
    ("dialect", VStr "mysql");
    ("protocol", VStr "tcp");
    ("sync", VObj [("force", VBool false); ("alter", VBool false)]);
    ("logging", VBool false);
    ("omit-null", VBool false);
    ("pool", VObj [("min", VInt 0); ("idle", VInt 10000);
                   ("acquire", VInt 60000); ("evict", VInt 1000)]);
    ("transaction", VObj [("type", VStr "DEFERRED");
                          ("isolation-level", VStr "READ_COMMITTED")]);
    ("retry", VObj [("max", VInt 4)]);
    ("operators-aliases", VNull)
  ].

Definition full_pool : value :=
  VObj [("max", VInt 5); ("min", VInt 0); ("idle", VInt 10000);
        ("acquire", VInt 60000); ("evict", VInt 1000)].

(** A client package whose constructor and [authenticate] never throw; the
    client is the options it was built from. *)
Definition accepting_client : SequelizeFactory.Sequelize value :=
  {| SequelizeFactory.construct := fun options => Ok options;
     SequelizeFactory.authenticate := fun _ => Ok tt |}.

(** The fields of a configuration are non-null and of their kinds (the three
    strings and the aliases of the aggregate may be [null]). *)
Definition sync_typed (c : ModelSyncConfiguration.t) : bool :=
  accepted KBoolean (ModelSyncConfiguration.getForce c)
  && accepted KBoolean (ModelSyncConfiguration.getAlter c).

Definition pool_typed (c : ModelPoolConfiguration.t) : bool :=
  accepted KInteger (ModelPoolConfiguration.getMax c)
  && accepted KInteger (ModelPoolConfiguration.getMin c)
  && accepted KInteger (ModelPoolConfiguration.getIdle c)
  && accepted KInteger (ModelPoolConfiguration.getAcquire c)
  && accepted KInteger (ModelPoolConfiguration.getEvict c).

Definition transaction_typed (c : ModelTransactionConfiguration.t) : bool :=
  accepted KString (ModelTransactionConfiguration.getType c)
  && accepted KString (ModelTransactionConfiguration.getIsolationLevel c).

Definition retry_typed (c : ModelRetryConfiguration.t) : bool :=
  accepted KInteger (ModelRetryConfiguration.getMax c).

Definition model_typed (c : ModelConfiguration.t) : bool :=
  accepted KString (ModelConfiguration.getHost c)
  && accepted KInteger (ModelConfiguration.getPort c)
  && allowed KString (ModelConfiguration.getUsername c)
  && allowed KString (ModelConfiguration.getPassword c)
  && allowed KString (ModelConfiguration.getDatabase c)
  && accepted KString (ModelConfiguration.getDialect c)
  && accepted KString (ModelConfiguration.getProtocol c)
  && sync_typed (ModelConfiguration.getSyncConfiguration c)
  && accepted KBoolean (ModelConfiguration.getLogging c)
  && accepted KBoolean (ModelConfiguration.getOmitNull c)
  && pool_typed (ModelConfiguration.getPoolConfiguration c)
  && transaction_typed (ModelConfiguration.getTransactionConfiguration c)
  && retry_typed (ModelConfiguration.getRetryConfiguration c)
  && allowed KObject (ModelConfiguration.getOperatorsAliases c).

(** The member [field] of the group [group] of a document. *)
Definition member (group field : string) (doc : value) : option value :=
  match property group doc with
  | Some s => property field s
  | None => None
  end.

(** The keys that each nested [From] looks up. *)
Definition sync_keys : list string := ["force"; "alter"].
Definition pool_keys : list string := ["max"; "min"; "idle"; "acquire"; "evict"].
Definition transaction_keys : list string := ["type"; "isolation-level"].
Definition retry_keys : list string := ["max"].

(** The events of a run of [create]. *)
Definition trace {client} (run : list SequelizeFactory.event
                                 * result SequelizeFactory.rejection client)
    : list SequelizeFactory.event := fst run.

Definition settled {client} (run : list SequelizeFactory.event
                                   * result SequelizeFactory.rejection client)
    : result SequelizeFactory.rejection client := snd run.

(** A client package whose [authenticate] always throws [message]. *)
Definition refusing_client (message : string)
    : SequelizeFactory.Sequelize value :=
  {| SequelizeFactory.construct := fun options => Ok options;
     SequelizeFactory.authenticate := fun _ => Err message |}.

(** The contexts of the errors that the nested loaders throw. *)
Definition nested_contexts : list string :=
  ["Load default model sync configuration error.";
   "Load model sync configuration error.";
   "Load default model pool configuration error.";
   "Load model pool configuration error.";
   "Load default model transaction configuration.";
   "Load model transaction configuration.";
   "Load model retry configuration error."].

(** ** The aggregate default as the specification words it

    Sections 4.2 to 4.4 of the specification, written out on their own: the
    two field primitives, the schema of the fourteen top-level fields, the
    pass of [requireField] and [assertType] over it with its wrapped failure,
    and then the four nested [Default()]. *)

Inductive field_type : Type := TObject | TBoolean | TInteger | TString.

(** The runtime type of a value is one of the four; an array has the
    runtime type object. *)
Definition has_type (expected : field_type) (v : value) : bool :=
  match expected, v with
  | TObject, VObj _ => true
  | TObject, VArr _ => true
  | TBoolean, VBool _ => true
  | TInteger, VNum q => isInteger q
  | TString, VStr _ => true
  | _, _ => false
  end.

Inductive Fault : Type :=
| MissingField (field : string)
| TypeMismatch (field : string) (expected : field_type).

(** [DefaultConfigInvalid] is the wrapped failure of the pass; [Raised] is an
    error of the loader of the document or of a nested [Default()], passed
    on. *)
Inductive ConfigError : Type :=
| DefaultConfigInvalid (fault : Fault)
| Raised (e : error).

Definition requireField (nullable : bool) (obj : value) (name : string)
    : result Fault value :=
  match obj with
  | VObj fields =>
      match assoc name fields with
      | None => Err (MissingField name)
      | Some VNull => if nullable then Ok VNull else Err (MissingField name)
      | Some v => Ok v
      end
  | _ => Err (MissingField name)
  end.

Definition assertType (expected : field_type) (name : string) (v : value)
    : result Fault value :=
  match v with
  | VNull => Ok v
  | _ => if has_type expected v then Ok v else Err (TypeMismatch name expected)
  end.

Record field_spec : Type := Field {
  field_key : string;
  field_nullable : bool;
  field_expected : field_type
}.

Definition model_schema : list field_spec :=
  [Field "host" false TString;
   Field "port" false TInteger;
   Field "username" true TString;
   Field "password" true TString;
   Field "database" true TString;
   Field "dialect" false TString;
   Field "protocol" false TString;
   Field "sync" false TObject;
   Field "logging" false TBoolean;
   Field "omit-null" false TBoolean;
   Field "pool" false TObject;
   Field "transaction" false TObject;
   Field "retry" false TObject;
   Field "operators-aliases" true TObject].

Definition check_field (doc : value) (f : field_spec) : result Fault value :=
  requireField (field_nullable f) doc (field_key f)
  >>= assertType (field_expected f) (field_key f).

Fixpoint check_fields (doc : value) (schema : list field_spec)
    : result Fault (list (string * value)) :=
  match schema with
  | [] => Ok []
  | f :: rest =>
      let* v := check_field doc f in
      let* vs := check_fields doc rest in
      Ok ((field_key f, v) :: vs)
  end.

Definition value_of (name : string) (vs : list (string * value)) : value :=
  match assoc name vs with
  | Some v => v
  | None => VNull
  end.

Definition wrapped {A} (r : result Fault A) : result ConfigError A :=
  match r with
  | Ok a => Ok a
  | Err fault => Err (DefaultConfigInvalid fault)
  end.

Definition raised {A} (r : result error A) : result ConfigError A :=
  match r with
  | Ok a => Ok a
  | Err e => Err (Raised e)
  end.

Definition Default_by_spec (file : DefaultFile)
    : result ConfigError ModelConfiguration.t :=
  let* doc := raised (ReadDefaultRawConfiguration file) in
  let* vs := wrapped (check_fields doc model_schema) in
  let* syncCfg := raised (ModelSyncConfiguration.Default file) in
  let* poolCfg := raised (ModelPoolConfiguration.Default file) in
  let* transactionCfg := raised (ModelTransactionConfiguration.Default file) in
  let* retryCfg := raised (ModelRetryConfiguration.Default file) in
  Ok (ModelConfiguration.new
        (value_of "host" vs) (value_of "port" vs) (value_of "username" vs)
        (value_of "password" vs) (value_of "database" vs)
        (value_of "dialect" vs) (value_of "protocol" vs) syncCfg
        (value_of "logging" vs) (value_of "omit-null" vs) poolCfg
        transactionCfg retryCfg (value_of "operators-aliases" vs)).

(** The specification's result and the code's result are the same: the same
    configuration; or the wrapped failure of the top-level pass on one side
    and the [ModelConfigurationError] of the top-level [try] block, which
    carries no context, on the other; or the same error passed on. *)
Definition agree {A} (spec : result ConfigError A) (code : result error A)
    : Prop :=
  match spec, code with
  | Ok a, Ok b => a = b
  | Err (DefaultConfigInvalid _), Err (ModelConfigurationError None _) => True
  | Err (Raised e), Err e' => e = e'
  | _, _ => False
  end.

(** The kind that the traversal checks for a type of the specification. *)
Definition kind_of (expected : field_type) : kind :=
  match expected with
  | TObject => KObject
  | TBoolean => KBoolean
  | TInteger => KInteger
  | TString => KString
  end.

(** ** The default document, checked on the document itself *)

(** The value under [name] is there and passes the chain of its field:
    [.notNull()] and the kind, or the kind alone for a nullable field. *)
Definition holds (nullable : bool) (k : kind) (name : string) (v : value)
    : bool :=
  match property name v with
  | Some x => if nullable then allowed k x else accepted k x
  | None => false
  end.

(** The document is an object whose group [group] is an object that holds
    every member of [members]. *)
Definition group_valid (group : string) (members : list (string * kind))
    (doc : value) : bool :=
  instanceOfObject doc
  && match property group doc with
     | Some s =>
         accepted KObject s
         && forallb (fun m => holds false (snd m) (fst m) s) members
     | None => false
     end.

Definition sync_members : list (string * kind) :=
  [("force", KBoolean); ("alter", KBoolean)].
Definition pool_members : list (string * kind) :=
  [("max", KInteger); ("min", KInteger); ("idle", KInteger);
   ("acquire", KInteger); ("evict", KInteger)].
Definition transaction_members : list (string * kind) :=
  [("type", KString); ("isolation-level", KString)].
Definition retry_members : list (string * kind) := [("max", KInteger)].

(** The fourteen top-level values of the document pass their chains. *)
Definition top_level_valid (doc : value) : bool :=
  instanceOfObject doc
  && holds false KString "host" doc
  && holds false KInteger "port" doc
  && holds true KString "username" doc
  && holds true KString "password" doc
  && holds true KString "database" doc
  && holds false KString "dialect" doc
  && holds false KString "protocol" doc
  && holds false KObject "sync" doc
  && holds false KBoolean "logging" doc
  && holds false KBoolean "omit-null" doc
  && holds false KObject "pool" doc
  && holds false KObject "transaction" doc
  && holds false KObject "retry" doc
  && holds true KObject "operators-aliases" doc.

Definition document_valid (doc : value) : bool :=
  top_level_valid doc
  && group_valid "sync" sync_members doc
  && group_valid "pool" pool_members doc
  && group_valid "transaction" transaction_members doc
  && group_valid "retry" retry_members doc.

(** What a field of a nested configuration settles on: the raw value when
    the raw object gives the field, the member of the group of the default
    document when it omits it. *)
Definition settle (field : string) (raw : value) (group : string) (doc : value)
    : option value :=
  match property field raw with
  | Some x => Some x
  | None => member group field doc
  end.

(** A default document whose port is a string. *)
Definition document_with_string_port : value :=
  VObj [
    ("host", VStr "localhost");
    ("port", VStr "3306");
    ("username", VNull);
    ("password", VNull);
    ("database", VNull);
    ("dialect", VStr "mysql");
    ("protocol", VStr "tcp");
    ("sync", VObj [("force", VBool false); ("alter", VBool false)]);
    ("logging", VBool false);
    ("omit-null", VBool false);
    ("pool", VObj [("max", VInt 5); ("min", VInt 0); ("idle", VInt 10000);
                   ("acquire", VInt 60000); ("evict", VInt 1000)]);
    ("transaction", VObj [("type", VStr "DEFERRED");
                          ("isolation-level", VStr "READ_COMMITTED")]);
    ("retry", VObj [("max", VInt 4)]);
    ("operators-aliases", VNull)
  ].

(** ** The field chains in closed form *)

Lemma demand_eq k v p :
  get (notNull (mk v p) >>= check k)
  = if accepted k v then Ok v else Err (refusal k v p).
Proof.
  unfold notNull, check, accepted, refusal; destruct v; simpl; try reflexivity;
    match goal with |- context [if ?b then _ else _] => destruct b end;
    reflexivity.
Qed.

Lemma permit_eq k v p :
  get (check k (mk v p))
  = if allowed k v then Ok v else Err (TypeError p k).
Proof.
  unfold check, allowed; destruct v; simpl; try reflexivity;
    match goal with |- context [if ?b then _ else _] => destruct b end;
    reflexivity.
Qed.

Lemma root_eq cfg :
  notNull (mk cfg []) >>= check KObject
  = if instanceOfObject cfg then Ok (mk cfg [])
    else Err (refusal KObject cfg []).
Proof. destruct cfg; reflexivity. Qed.

Lemma container_object v p :
  instanceOfObject v = true -> container (mk v p) = Ok (mk v p).
Proof. destruct v; simpl; congruence || reflexivity. Qed.

Lemma sub_eq name v p :
  instanceOfObject v = true ->
  sub name (mk v p)
  = match property name v with
    | Some x => Ok (mk x (p ++ [name]))
    | None => Err (KeyNotFoundError (p ++ [name]))
    end.
Proof. intros H; unfold sub; rewrite (container_object _ _ H); reflexivity. Qed.

Lemma optionalSub_eq name d v p :
  instanceOfObject v = true ->
  optionalSub name d (mk v p) = Ok (mk (pick name d v) (p ++ [name])).
Proof.
  intros H; unfold optionalSub, pick; rewrite (container_object _ _ H); simpl.
  destruct (property name v); reflexivity.
Qed.

(** [root.sub(name).notNull().<kind>().inner()] *)
Lemma required_eq k name v p :
  instanceOfObject v = true ->
  get (sub name (mk v p) >>= notNull >>= check k)
  = match property name v with
    | Some x => if accepted k x then Ok x else Err (refusal k x (p ++ [name]))
    | None => Err (KeyNotFoundError (p ++ [name]))
    end.
Proof.
  intros H; rewrite (sub_eq _ _ _ H).
  destruct (property name v); [apply demand_eq | reflexivity].
Qed.

(** [root.sub(name).<kind>().inner()] *)
Lemma required_nullable_eq k name v p :
  instanceOfObject v = true ->
  get (sub name (mk v p) >>= check k)
  = match property name v with
    | Some x => if allowed k x then Ok x else Err (TypeError (p ++ [name]) k)
    | None => Err (KeyNotFoundError (p ++ [name]))
    end.
Proof.
  intros H; rewrite (sub_eq _ _ _ H).
  destruct (property name v); [apply permit_eq | reflexivity].
Qed.

(** [root.optionalSub(name, d).notNull().<kind>().inner()] *)
Lemma optional_eq k name d v p :
  instanceOfObject v = true ->
  get (optionalSub name d (mk v p) >>= notNull >>= check k)
  = if accepted k (pick name d v) then Ok (pick name d v)
    else Err (refusal k (pick name d v) (p ++ [name])).
Proof. intros H; rewrite (optionalSub_eq _ _ _ _ H); apply demand_eq. Qed.

(** [root.optionalSub(name, d).<kind>().inner()] *)
Lemma optional_nullable_eq k name d v p :
  instanceOfObject v = true ->
  get (optionalSub name d (mk v p) >>= check k)
  = if allowed k (pick name d v) then Ok (pick name d v)
    else Err (TypeError (p ++ [name]) k).
Proof. intros H; rewrite (optionalSub_eq _ _ _ _ H); apply permit_eq. Qed.

Lemma pick_present name d v x : property name v = Some x -> pick name d v = x.
Proof. unfold pick; intros ->; reflexivity. Qed.

Lemma pick_empty name d : pick name d (VObj []) = d.
Proof. reflexivity. Qed.

Lemma container_eq v p :
  container (mk v p)
  = if instanceOfObject v then Ok (mk v p) else Err (refusal KObject v p).
Proof. destruct v; reflexivity. Qed.

(** [root.sub(name).notNull().typeOf(Object)], from any receiver. *)
Lemma descend_eq name v p :
  sub name (mk v p) >>= notNull >>= check KObject
  = if instanceOfObject v then
      match property name v with
      | Some x =>
          if accepted KObject x then Ok (mk x (p ++ [name]))
          else Err (refusal KObject x (p ++ [name]))
      | None => Err (KeyNotFoundError (p ++ [name]))
      end
    else Err (refusal KObject v p).
Proof.
  unfold sub; rewrite container_eq.
  destruct (instanceOfObject v); [cbn [bind inner path] | reflexivity].
  destruct (property name v) as [x|]; [| reflexivity].
  destruct x; reflexivity.
Qed.

Lemma accepted_object v : accepted KObject v = instanceOfObject v.
Proof. destruct v; reflexivity. Qed.

Ltac chain_names :=
  unfold boolean, integer, string_, typeOf_Object, WrapObject in *.

(** One field of a [try] block: rewrite its chain to the closed form and
    split on whether the value passes. *)
Ltac field_step :=
  first
    [ rewrite optional_eq by assumption
    | rewrite optional_nullable_eq by assumption
    | rewrite required_eq by assumption
    | rewrite required_nullable_eq by assumption ];
  cbn [bind];
  repeat match goal with
    | |- context [match property ?n ?v with _ => _ end] =>
        destruct (property n v) eqn:?; cbn [bind]
    end;
  try match goal with
    | |- context [if accepted ?k ?x then _ else _] =>
        destruct (accepted k x) eqn:?; cbn [bind]
    | |- context [if allowed ?k ?x then _ else _] =>
        destruct (allowed k x) eqn:?; cbn [bind]
    end.

(** ** The nested loaders in closed form *)

Lemma Sync_Default_document doc :
  outcome (ModelSyncConfiguration.Default (Document doc)) (fun d =>
    instanceOfObject doc = true /\
    exists s, property "sync" doc = Some s /\ instanceOfObject s = true /\
      property "force" s = Some (ModelSyncConfiguration.getForce d) /\
      accepted KBoolean (ModelSyncConfiguration.getForce d) = true /\
      property "alter" s = Some (ModelSyncConfiguration.getAlter d) /\
      accepted KBoolean (ModelSyncConfiguration.getAlter d) = true).
Proof.
  unfold ModelSyncConfiguration.Default, outcome; cbn [ReadDefaultRawConfiguration bind].
  chain_names; rewrite descend_eq.
  destruct (instanceOfObject doc) eqn:Hdoc; [| reflexivity].
  destruct (property "sync" doc) as [s|] eqn:Hs; [| reflexivity].
  rewrite accepted_object.
  destruct (instanceOfObject s) eqn:Hobj; [cbn [bind] | reflexivity].
  repeat (field_step; try reflexivity).
  cbn. split; [reflexivity |]. exists s; repeat split; assumption.
Qed.

Lemma Pool_Default_document doc :
  outcome (ModelPoolConfiguration.Default (Document doc)) (fun d =>
    instanceOfObject doc = true /\
    exists s, property "pool" doc = Some s /\ instanceOfObject s = true /\
      property "max" s = Some (ModelPoolConfiguration.getMax d) /\
      accepted KInteger (ModelPoolConfiguration.getMax d) = true /\
      property "min" s = Some (ModelPoolConfiguration.getMin d) /\
      accepted KInteger (ModelPoolConfiguration.getMin d) = true /\
      property "idle" s = Some (ModelPoolConfiguration.getIdle d) /\
      accepted KInteger (ModelPoolConfiguration.getIdle d) = true /\
      property "acquire" s = Some (ModelPoolConfiguration.getAcquire d) /\
      accepted KInteger (ModelPoolConfiguration.getAcquire d) = true /\
      property "evict" s = Some (ModelPoolConfiguration.getEvict d) /\
      accepted KInteger (ModelPoolConfiguration.getEvict d) = true).
Proof.
  unfold ModelPoolConfiguration.Default, outcome; cbn [ReadDefaultRawConfiguration bind].
  chain_names; rewrite descend_eq.
  destruct (instanceOfObject doc) eqn:Hdoc; [| reflexivity].
  destruct (property "pool" doc) as [s|] eqn:Hs; [| reflexivity].
  rewrite accepted_object.
  destruct (instanceOfObject s) eqn:Hobj; [cbn [bind] | reflexivity].
  repeat (field_step; try reflexivity).
  cbn. split; [reflexivity |]. exists s; repeat split; assumption.
Qed.

Lemma Transaction_Default_document doc :
  outcome (ModelTransactionConfiguration.Default (Document doc)) (fun d =>
    instanceOfObject doc = true /\
    exists s, property "transaction" doc = Some s /\ instanceOfObject s = true /\
      property "type" s = Some (ModelTransactionConfiguration.getType d) /\
      accepted KString (ModelTransactionConfiguration.getType d) = true /\
      property "isolation-level" s
        = Some (ModelTransactionConfiguration.getIsolationLevel d) /\
      accepted KString (ModelTransactionConfiguration.getIsolationLevel d)
        = true).
Proof.
  unfold ModelTransactionConfiguration.Default, outcome;
    cbn [ReadDefaultRawConfiguration bind].
  chain_names; rewrite descend_eq.
  destruct (instanceOfObject doc) eqn:Hdoc; [| reflexivity].
  destruct (property "transaction" doc) as [s|] eqn:Hs; [| reflexivity].
  rewrite accepted_object.
  destruct (instanceOfObject s) eqn:Hobj; [cbn [bind] | reflexivity].
  repeat (field_step; try reflexivity).
  cbn. split; [reflexivity |]. exists s; repeat split; assumption.
Qed.

Lemma Retry_Default_document doc :
  outcome (ModelRetryConfiguration.Default (Document doc)) (fun d =>
    instanceOfObject doc = true /\
    exists s, property "retry" doc = Some s /\ instanceOfObject s = true /\
      property "max" s = Some (ModelRetryConfiguration.getMax d) /\
      accepted KInteger (ModelRetryConfiguration.getMax d) = true).
Proof.
  unfold ModelRetryConfiguration.Default, outcome;
    cbn [ReadDefaultRawConfiguration bind].
  chain_names; rewrite descend_eq.
  destruct (instanceOfObject doc) eqn:Hdoc; [| reflexivity].
  destruct (property "retry" doc) as [s|] eqn:Hs; [| reflexivity].
  rewrite accepted_object.
  destruct (instanceOfObject s) eqn:Hobj; [cbn [bind] | reflexivity].
  repeat (field_step; try reflexivity).
  cbn. split; [reflexivity |]. exists s; repeat split; assumption.
Qed.

(** A loaded default has passed its own chains. *)
Lemma Sync_Default_accepted file d :
  ModelSyncConfiguration.Default file = Ok d ->
  accepted KBoolean (ModelSyncConfiguration.getForce d) = true /\
  accepted KBoolean (ModelSyncConfiguration.getAlter d) = true.
Proof.
  destruct file; try discriminate; intros H.
  pose proof (Sync_Default_document doc) as S; rewrite H in S; cbn in S.
  destruct S as (_ & s & _ & _ & _ & ? & _ & ?); split; assumption.
Qed.

Lemma Pool_Default_accepted file d :
  ModelPoolConfiguration.Default file = Ok d ->
  accepted KInteger (ModelPoolConfiguration.getMax d) = true /\
  accepted KInteger (ModelPoolConfiguration.getMin d) = true /\
  accepted KInteger (ModelPoolConfiguration.getIdle d) = true /\
  accepted KInteger (ModelPoolConfiguration.getAcquire d) = true /\
  accepted KInteger (ModelPoolConfiguration.getEvict d) = true.
Proof.
  destruct file; try discriminate; intros H.
  pose proof (Pool_Default_document doc) as S; rewrite H in S; cbn in S.
  destruct S as (_ & s & _ & _ & _ & ? & _ & ? & _ & ? & _ & ? & _ & ?).
  repeat split; assumption.
Qed.

Lemma Transaction_Default_accepted file d :
  ModelTransactionConfiguration.Default file = Ok d ->
  accepted KString (ModelTransactionConfiguration.getType d) = true /\
  accepted KString (ModelTransactionConfiguration.getIsolationLevel d) = true.
Proof.
  destruct file; try discriminate; intros H.
  pose proof (Transaction_Default_document doc) as S; rewrite H in S; cbn in S.
  destruct S as (_ & s & _ & _ & _ & ? & _ & ?); split; assumption.
Qed.

Lemma Retry_Default_accepted file d :
  ModelRetryConfiguration.Default file = Ok d ->
  accepted KInteger (ModelRetryConfiguration.getMax d) = true.
Proof.
  destruct file; try discriminate; intros H.
  pose proof (Retry_Default_document doc) as S; rewrite H in S; cbn in S.
  destruct S as (_ & s & _ & _ & _ & ?); assumption.
Qed.

Ltac close_merge :=
  cbn [try_catch bind merges];
  repeat match goal with H : _ = true |- _ => rewrite H; clear H end;
  repeat match goal with H : _ = false |- _ => rewrite H; clear H end;
  cbn [andb isModelConfigurationError]; split; reflexivity.

Ltac merge_steps :=
  chain_names; rewrite root_eq;
  match goal with
  | |- context [if instanceOfObject ?v then _ else _] =>
      destruct (instanceOfObject v) eqn:?; cbn [bind andb];
      [| split; reflexivity]
  end;
  repeat (field_step; try close_merge).

Lemma Sync_From_merges file d cfg :
  ModelSyncConfiguration.Default file = Ok d ->
  merges (ModelSyncConfiguration.From file cfg) (sync_valid d cfg)
    (sync_merge d cfg).
Proof.
  intros H; unfold ModelSyncConfiguration.From, sync_valid, sync_merge.
  rewrite H; cbn [bind]. merge_steps.
Qed.

Lemma Pool_From_merges file d cfg :
  ModelPoolConfiguration.Default file = Ok d ->
  merges (ModelPoolConfiguration.From file cfg) (pool_valid d cfg)
    (pool_merge d cfg).
Proof.
  intros H; unfold ModelPoolConfiguration.From, pool_valid, pool_merge.
  rewrite H; cbn [bind]. merge_steps.
Qed.

Lemma Transaction_From_merges file d cfg :
  ModelTransactionConfiguration.Default file = Ok d ->
  merges (ModelTransactionConfiguration.From file cfg)
    (transaction_valid d cfg) (transaction_merge d cfg).
Proof.
  intros H;
    unfold ModelTransactionConfiguration.From, transaction_valid,
      transaction_merge.
  rewrite H; cbn [bind]. merge_steps.
Qed.

Lemma Retry_From_merges file d cfg :
  ModelRetryConfiguration.Default file = Ok d ->
  merges (ModelRetryConfiguration.From file cfg) (retry_valid d cfg)
    (retry_merge d cfg).
Proof.
  intros H; unfold ModelRetryConfiguration.From, retry_valid, retry_merge.
  rewrite H; cbn [bind]. merge_steps.
Qed.

Lemma merges_valid {A} (r : result error A) valid merged :
  merges r valid merged -> valid = true -> r = Ok merged.
Proof.
  destruct r; cbn; intros [Hv Hc] Ht; [subst; reflexivity | congruence].
Qed.

Lemma merges_Ok {A} (r : result error A) valid merged c :
  merges r valid merged -> r = Ok c -> valid = true /\ c = merged.
Proof. intros H ->; exact H. Qed.

(** *** A failing [Default] is the failure of [From] *)

Lemma Sync_From_default_error file e cfg :
  ModelSyncConfiguration.Default file = Err e ->
  ModelSyncConfiguration.From file cfg = Err e.
Proof. intros H; unfold ModelSyncConfiguration.From; rewrite H; reflexivity. Qed.

Lemma Pool_From_default_error file e cfg :
  ModelPoolConfiguration.Default file = Err e ->
  ModelPoolConfiguration.From file cfg = Err e.
Proof. intros H; unfold ModelPoolConfiguration.From; rewrite H; reflexivity. Qed.

Lemma Transaction_From_default_error file e cfg :
  ModelTransactionConfiguration.Default file = Err e ->
  ModelTransactionConfiguration.From file cfg = Err e.
Proof.
  intros H; unfold ModelTransactionConfiguration.From; rewrite H; reflexivity.
Qed.

Lemma Retry_From_default_error file e cfg :
  ModelRetryConfiguration.Default file = Err e ->
  ModelRetryConfiguration.From file cfg = Err e.
Proof. intros H; unfold ModelRetryConfiguration.From; rewrite H; reflexivity. Qed.

(** *** [From] on a raw object that settles on the defaults *)

Lemma Sync_From_defaults file cfg :
  instanceOfObject cfg = true ->
  (forall d, ModelSyncConfiguration.Default file = Ok d -> sync_merge d cfg = d) ->
  ModelSyncConfiguration.From file cfg = ModelSyncConfiguration.Default file.
Proof.
  intros Hobj Hm.
  destruct (ModelSyncConfiguration.Default file) as [d|e] eqn:HD;
    [| apply Sync_From_default_error; exact HD].
  specialize (Hm d eq_refl).
  destruct (Sync_Default_accepted _ _ HD) as (Hf & Ha).
  rewrite <- Hm at 1.
  apply (merges_valid _ _ _ (Sync_From_merges file d cfg HD)).
  unfold sync_valid. unfold sync_merge in Hm. destruct d as [f a].
  cbn [ModelSyncConfiguration.getForce ModelSyncConfiguration.getAlter] in *.
  injection Hm as -> ->. rewrite Hobj, Hf, Ha. reflexivity.
Qed.

Lemma Pool_From_defaults file cfg :
  instanceOfObject cfg = true ->
  (forall d, ModelPoolConfiguration.Default file = Ok d -> pool_merge d cfg = d) ->
  ModelPoolConfiguration.From file cfg = ModelPoolConfiguration.Default file.
Proof.
  intros Hobj Hm.
  destruct (ModelPoolConfiguration.Default file) as [d|e] eqn:HD;
    [| apply Pool_From_default_error; exact HD].
  specialize (Hm d eq_refl).
  destruct (Pool_Default_accepted _ _ HD) as (H1 & H2 & H3 & H4 & H5).
  rewrite <- Hm at 1.
  apply (merges_valid _ _ _ (Pool_From_merges file d cfg HD)).
  unfold pool_valid. unfold pool_merge in Hm. destruct d as [a b c e f].
  cbn [ModelPoolConfiguration.getMax ModelPoolConfiguration.getMin
       ModelPoolConfiguration.getIdle ModelPoolConfiguration.getAcquire
       ModelPoolConfiguration.getEvict] in *.
  injection Hm as -> -> -> -> ->.
  rewrite Hobj, H1, H2, H3, H4, H5. reflexivity.
Qed.

Lemma Transaction_From_defaults file cfg :
  instanceOfObject cfg = true ->
  (forall d, ModelTransactionConfiguration.Default file = Ok d ->
             transaction_merge d cfg = d) ->
  ModelTransactionConfiguration.From file cfg
  = ModelTransactionConfiguration.Default file.
Proof.
  intros Hobj Hm.
  destruct (ModelTransactionConfiguration.Default file) as [d|e] eqn:HD;
    [| apply Transaction_From_default_error; exact HD].
  specialize (Hm d eq_refl).
  destruct (Transaction_Default_accepted _ _ HD) as (H1 & H2).
  rewrite <- Hm at 1.
  apply (merges_valid _ _ _ (Transaction_From_merges file d cfg HD)).
  unfold transaction_valid. unfold transaction_merge in Hm. destruct d as [a b].
  cbn [ModelTransactionConfiguration.getType
       ModelTransactionConfiguration.getIsolationLevel] in *.
  injection Hm as -> ->. rewrite Hobj, H1, H2. reflexivity.
Qed.

Lemma Retry_From_defaults file cfg :
  instanceOfObject cfg = true ->
  (forall d, ModelRetryConfiguration.Default file = Ok d -> retry_merge d cfg = d) ->
  ModelRetryConfiguration.From file cfg = ModelRetryConfiguration.Default file.
Proof.
  intros Hobj Hm.
  destruct (ModelRetryConfiguration.Default file) as [d|e] eqn:HD;
    [| apply Retry_From_default_error; exact HD].
  specialize (Hm d eq_refl).
  pose proof (Retry_Default_accepted _ _ HD) as H1.
  rewrite <- Hm at 1.
  apply (merges_valid _ _ _ (Retry_From_merges file d cfg HD)).
  unfold retry_valid. unfold retry_merge in Hm. destruct d as [a].
  cbn [ModelRetryConfiguration.getMax] in *.
  injection Hm as ->. rewrite Hobj, H1. reflexivity.
Qed.

Lemma Sync_From_empty file :
  ModelSyncConfiguration.From file (VObj [])
  = ModelSyncConfiguration.Default file.
Proof. apply Sync_From_defaults; [reflexivity | intros [] _; reflexivity]. Qed.

Lemma Pool_From_empty file :
  ModelPoolConfiguration.From file (VObj [])
  = ModelPoolConfiguration.Default file.
Proof. apply Pool_From_defaults; [reflexivity | intros [] _; reflexivity]. Qed.

Lemma Transaction_From_empty file :
  ModelTransactionConfiguration.From file (VObj [])
  = ModelTransactionConfiguration.Default file.
Proof.
  apply Transaction_From_defaults; [reflexivity | intros [] _; reflexivity].
Qed.

Lemma Retry_From_empty file :
  ModelRetryConfiguration.From file (VObj [])
  = ModelRetryConfiguration.Default file.
Proof. apply Retry_From_defaults; [reflexivity | intros [] _; reflexivity]. Qed.

(** *** [From] on the sub-tree of the default document *)

Lemma Sync_From_subtree doc s :
  property "sync" doc = Some s -> instanceOfObject s = true ->
  ModelSyncConfiguration.From (Document doc) s
  = ModelSyncConfiguration.Default (Document doc).
Proof.
  intros Hs Hobj; apply Sync_From_defaults; [exact Hobj |].
  intros d HD. pose proof (Sync_Default_document doc) as S.
  rewrite HD in S; cbn [outcome] in S.
  destruct S as (_ & s' & Hs' & _ & Hf & _ & Ha & _).
  rewrite Hs in Hs'; injection Hs' as <-.
  unfold sync_merge; rewrite (pick_present _ _ _ _ Hf), (pick_present _ _ _ _ Ha).
  destruct d; reflexivity.
Qed.

Lemma Pool_From_subtree doc s :
  property "pool" doc = Some s -> instanceOfObject s = true ->
  ModelPoolConfiguration.From (Document doc) s
  = ModelPoolConfiguration.Default (Document doc).
Proof.
  intros Hs Hobj; apply Pool_From_defaults; [exact Hobj |].
  intros d HD. pose proof (Pool_Default_document doc) as S.
  rewrite HD in S; cbn [outcome] in S.
  destruct S as (_ & s' & Hs' & _ & H1 & _ & H2 & _ & H3 & _ & H4 & _ & H5 & _).
  rewrite Hs in Hs'; injection Hs' as <-.
  unfold pool_merge.
  rewrite (pick_present _ _ _ _ H1), (pick_present _ _ _ _ H2),
    (pick_present _ _ _ _ H3), (pick_present _ _ _ _ H4),
    (pick_present _ _ _ _ H5).
  destruct d; reflexivity.
Qed.

Lemma Transaction_From_subtree doc s :
  property "transaction" doc = Some s -> instanceOfObject s = true ->
  ModelTransactionConfiguration.From (Document doc) s
  = ModelTransactionConfiguration.Default (Document doc).
Proof.
  intros Hs Hobj; apply Transaction_From_defaults; [exact Hobj |].
  intros d HD. pose proof (Transaction_Default_document doc) as S.
  rewrite HD in S; cbn [outcome] in S.
  destruct S as (_ & s' & Hs' & _ & H1 & _ & H2 & _).
  rewrite Hs in Hs'; injection Hs' as <-.
  unfold transaction_merge.
  rewrite (pick_present _ _ _ _ H1), (pick_present _ _ _ _ H2).
  destruct d; reflexivity.
Qed.

Lemma Retry_From_subtree doc s :
  property "retry" doc = Some s -> instanceOfObject s = true ->
  ModelRetryConfiguration.From (Document doc) s
  = ModelRetryConfiguration.Default (Document doc).
Proof.
  intros Hs Hobj; apply Retry_From_defaults; [exact Hobj |].
  intros d HD. pose proof (Retry_Default_document doc) as S.
  rewrite HD in S; cbn [outcome] in S.
  destruct S as (_ & s' & Hs' & _ & H1 & _).
  rewrite Hs in Hs'; injection Hs' as <-.
  unfold retry_merge. rewrite (pick_present _ _ _ _ H1).
  destruct d; reflexivity.
Qed.

(** ** The aggregate loader in closed form *)

Ltac close_settle :=
  cbn [bind settles];
  repeat match goal with H : _ = true |- _ => rewrite H; clear H end;
  repeat match goal with H : _ = false |- _ => rewrite H; clear H end;
  cbn [andb]; reflexivity.

Lemma From_locals_settles d cfg :
  settles (ModelConfiguration.From_locals d cfg) (model_valid d cfg)
    (model_locals d cfg).
Proof.
  unfold ModelConfiguration.From_locals, model_valid, model_locals.
  chain_names; rewrite root_eq.
  destruct (instanceOfObject cfg) eqn:Hobj; cbn [bind andb]; [| reflexivity].
  repeat (field_step; try close_settle).
  cbn [settles].
  repeat match goal with H : _ = true |- _ => rewrite H; clear H end.
  split; reflexivity.
Qed.

Lemma Default_locals_document doc :
  match ModelConfiguration.Default_locals doc with
  | Ok l =>
      instanceOfObject doc = true /\
      (property "host" doc = Some (ModelConfiguration.host l) /\
       accepted KString (ModelConfiguration.host l) = true) /\
      (property "port" doc = Some (ModelConfiguration.port l) /\
       accepted KInteger (ModelConfiguration.port l) = true) /\
      (property "username" doc = Some (ModelConfiguration.username l) /\
       allowed KString (ModelConfiguration.username l) = true) /\
      (property "password" doc = Some (ModelConfiguration.password l) /\
       allowed KString (ModelConfiguration.password l) = true) /\
      (property "database" doc = Some (ModelConfiguration.database l) /\
       allowed KString (ModelConfiguration.database l) = true) /\
      (property "dialect" doc = Some (ModelConfiguration.dialect l) /\
       accepted KString (ModelConfiguration.dialect l) = true) /\
      (property "protocol" doc = Some (ModelConfiguration.protocol l) /\
       accepted KString (ModelConfiguration.protocol l) = true) /\
      (property "sync" doc = Some (ModelConfiguration.sync l) /\
       accepted KObject (ModelConfiguration.sync l) = true) /\
      (property "logging" doc = Some (ModelConfiguration.logging l) /\
       accepted KBoolean (ModelConfiguration.logging l) = true) /\
      (property "omit-null" doc = Some (ModelConfiguration.omitNull l) /\
       accepted KBoolean (ModelConfiguration.omitNull l) = true) /\
      (property "pool" doc = Some (ModelConfiguration.pool l) /\
       accepted KObject (ModelConfiguration.pool l) = true) /\
      (property "transaction" doc = Some (ModelConfiguration.transaction l) /\
       accepted KObject (ModelConfiguration.transaction l) = true) /\
      (property "retry" doc = Some (ModelConfiguration.retry l) /\
       accepted KObject (ModelConfiguration.retry l) = true) /\
      (property "operators-aliases" doc
         = Some (ModelConfiguration.operatorsAliases l) /\
       allowed KObject (ModelConfiguration.operatorsAliases l) = true)
  | Err _ => True
  end.
Proof.
  unfold ModelConfiguration.Default_locals.
  chain_names; rewrite root_eq.
  destruct (instanceOfObject doc) eqn:Hobj; cbn [bind]; [| exact I].
  repeat (field_step; try exact I).
  cbn. repeat split; assumption.
Qed.

Lemma Model_Default_inv file d :
  ModelConfiguration.Default file = Ok d ->
  exists doc l sc pc tc rc,
    file = Document doc /\
    ModelConfiguration.Default_locals doc = Ok l /\
    ModelSyncConfiguration.From file (ModelConfiguration.sync l) = Ok sc /\
    ModelPoolConfiguration.From file (ModelConfiguration.pool l) = Ok pc /\
    ModelTransactionConfiguration.From file (ModelConfiguration.transaction l)
      = Ok tc /\
    ModelRetryConfiguration.From file (ModelConfiguration.retry l) = Ok rc /\
    d = assemble l sc pc tc rc.
Proof.
  unfold ModelConfiguration.Default.
  destruct file as [| | doc]; try discriminate.
  cbn [ReadDefaultRawConfiguration bind].
  destruct (ModelConfiguration.Default_locals doc) as [l|] eqn:Hl;
    [| discriminate].
  cbn [try_catch bind].
  destruct (ModelSyncConfiguration.From _ _) as [sc|] eqn:Hs; [| discriminate].
  cbn [bind].
  destruct (ModelPoolConfiguration.From _ _) as [pc|] eqn:Hp; [| discriminate].
  cbn [bind].
  destruct (ModelTransactionConfiguration.From _ _) as [tc|] eqn:Ht;
    [| discriminate].
  cbn [bind].
  destruct (ModelRetryConfiguration.From _ _) as [rc|] eqn:Hr; [| discriminate].
  cbn [bind]. intros [= <-].
  exists doc, l, sc, pc, tc, rc. repeat split; assumption || reflexivity.
Qed.

Lemma Model_From_inv file cfg c :
  ModelConfiguration.From file cfg = Ok c ->
  exists d sc pc tc rc,
    ModelConfiguration.Default file = Ok d /\
    model_valid d cfg = true /\
    ModelSyncConfiguration.From file (pick "sync" (VObj []) cfg) = Ok sc /\
    ModelPoolConfiguration.From file (pick "pool" (VObj []) cfg) = Ok pc /\
    ModelTransactionConfiguration.From file (pick "transaction" (VObj []) cfg)
      = Ok tc /\
    ModelRetryConfiguration.From file (pick "retry" (VObj []) cfg) = Ok rc /\
    c = assemble (model_locals d cfg) sc pc tc rc.
Proof.
  unfold ModelConfiguration.From.
  destruct (ModelConfiguration.Default file) as [d|] eqn:HD; [| discriminate].
  cbn [bind]. pose proof (From_locals_settles d cfg) as S.
  destruct (ModelConfiguration.From_locals d cfg) as [l|]; [| discriminate].
  destruct S as [Hv ->]. cbn [try_catch bind model_locals ModelConfiguration.sync
    ModelConfiguration.pool ModelConfiguration.transaction
    ModelConfiguration.retry].
  destruct (ModelSyncConfiguration.From _ _) as [sc|] eqn:Hs; [| discriminate].
  cbn [bind].
  destruct (ModelTransactionConfiguration.From _ _) as [tc|] eqn:Ht;
    [| discriminate].
  cbn [bind].
  destruct (ModelPoolConfiguration.From _ _) as [pc|] eqn:Hp; [| discriminate].
  cbn [bind].
  destruct (ModelRetryConfiguration.From _ _) as [rc|] eqn:Hr; [| discriminate].
  cbn [bind]. intros [= <-].
  exists d, sc, pc, tc, rc. repeat split; assumption || reflexivity.
Qed.

(** The converse: the aggregate is assembled when every part is there. *)
Lemma Model_From_intro file cfg d sc pc tc rc :
  ModelConfiguration.Default file = Ok d ->
  model_valid d cfg = true ->
  ModelSyncConfiguration.From file (pick "sync" (VObj []) cfg) = Ok sc ->
  ModelPoolConfiguration.From file (pick "pool" (VObj []) cfg) = Ok pc ->
  ModelTransactionConfiguration.From file (pick "transaction" (VObj []) cfg)
    = Ok tc ->
  ModelRetryConfiguration.From file (pick "retry" (VObj []) cfg) = Ok rc ->
  ModelConfiguration.From file cfg
  = Ok (assemble (model_locals d cfg) sc pc tc rc).
Proof.
  intros HD Hv Hs Hp Ht Hr. unfold ModelConfiguration.From.
  rewrite HD; cbn [bind]. pose proof (From_locals_settles d cfg) as S.
  destruct (ModelConfiguration.From_locals d cfg) as [l|];
    cbn [settles] in S; [| congruence].
  destruct S as [_ ->]. cbn [try_catch bind model_locals ModelConfiguration.sync
    ModelConfiguration.pool ModelConfiguration.transaction
    ModelConfiguration.retry].
  rewrite Hs; cbn [bind]. rewrite Ht; cbn [bind]. rewrite Hp; cbn [bind].
  rewrite Hr; reflexivity.
Qed.

(** ** The claims *)

(** C1. At every level (sync, pool, transaction, retry and the aggregate),
    [From] of the empty object [{}] is what [Default()] of that level is: the
    same configuration when the default file loads, and the same error when
    it does not. *)
Theorem From_empty_is_Default :
  (forall file,
     ModelSyncConfiguration.From file (VObj [])
     = ModelSyncConfiguration.Default file) /\
  (forall file,
     ModelPoolConfiguration.From file (VObj [])
     = ModelPoolConfiguration.Default file) /\
  (forall file,
     ModelTransactionConfiguration.From file (VObj [])
     = ModelTransactionConfiguration.Default file) /\
  (forall file,
     ModelRetryConfiguration.From file (VObj [])
     = ModelRetryConfiguration.Default file) /\
  (forall file,
     ModelConfiguration.From file (VObj [])
     = ModelConfiguration.Default file).
Proof.
  split; [exact Sync_From_empty |].
  split; [exact Pool_From_empty |].
  split; [exact Transaction_From_empty |].
  split; [exact Retry_From_empty |].
  intros file.
  destruct (ModelConfiguration.Default file) as [d|e] eqn:HD;
    [| unfold ModelConfiguration.From; rewrite HD; reflexivity].
  destruct (Model_Default_inv _ _ HD)
    as (doc & l & sc & pc & tc & rc & -> & Hl & Hs & Hp & Ht & Hr & Hd).
  pose proof (Default_locals_document doc) as L; rewrite Hl in L.
  destruct L as (_ & (_ & A1) & (_ & A2) & (_ & A3) & (_ & A4) & (_ & A5)
    & (_ & A6) & (_ & A7) & (P8 & A8) & (_ & A9) & (_ & A10) & (P11 & A11)
    & (P12 & A12) & (P13 & A13) & (_ & A14)).
  rewrite accepted_object in A8, A11, A12, A13.
  rewrite (Sync_From_subtree _ _ P8 A8) in Hs.
  rewrite (Pool_From_subtree _ _ P11 A11) in Hp.
  rewrite (Transaction_From_subtree _ _ P12 A12) in Ht.
  rewrite (Retry_From_subtree _ _ P13 A13) in Hr.
  rewrite (Model_From_intro (Document doc) (VObj []) d sc pc tc rc HD).
  - rewrite Hd; reflexivity.
  - rewrite Hd; unfold model_valid, assemble; cbn.
    rewrite A1, A2, A3, A4, A5, A6, A7, A9, A10, A14; reflexivity.
  - rewrite pick_empty, Sync_From_empty; exact Hs.
  - rewrite pick_empty, Pool_From_empty; exact Hp.
  - rewrite pick_empty, Transaction_From_empty; exact Ht.
  - rewrite pick_empty, Retry_From_empty; exact Hr.
Qed.



(** C4 (as stated, refuted). A field that is present with the value [null] is
    not replaced by the default: the lookup gives [null], and the pool loader,
    whose chain goes on with [.notNull()], throws. *)
Lemma optionalSub_keeps_null :
  get (optionalSub "max" (VInt 5) (WrapObject (VObj [("max", VNull)])))
    <> Ok (VInt 5) /\
  get (optionalSub "max" (VInt 5) (WrapObject (VObj [("max", VNull)])))
    = Ok VNull /\
  ModelPoolConfiguration.From bundled (VObj [("max", VNull)])
    = Err (ModelConfigurationError (Some "Load model pool configuration error.")
             (ParameterError ["max"])).
Proof. repeat split; try reflexivity. cbn. discriminate. Qed.

Lemma provided_accepted k name d raw :
  accepted k d = true -> provided k name raw = true ->
  accepted k (pick name d raw) = true.
Proof.
  unfold provided, pick; destruct (property name raw); intros; assumption.
Qed.

(** A valid raw object loads, whatever defaults [d] have loaded, and gives
    the merge of [d] and the raw object. *)
Lemma From_of_valid_raw :
  (forall file d raw,
     ModelSyncConfiguration.Default file = Ok d ->
     sync_raw_valid raw = true ->
     ModelSyncConfiguration.From file raw = Ok (sync_merge d raw)) /\
  (forall file d raw,
     ModelPoolConfiguration.Default file = Ok d ->
     pool_raw_valid raw = true ->
     ModelPoolConfiguration.From file raw = Ok (pool_merge d raw)) /\
  (forall file d raw,
     ModelTransactionConfiguration.Default file = Ok d ->
     transaction_raw_valid raw = true ->
     ModelTransactionConfiguration.From file raw
     = Ok (transaction_merge d raw)) /\
  (forall file d raw,
     ModelRetryConfiguration.Default file = Ok d ->
     retry_raw_valid raw = true ->
     ModelRetryConfiguration.From file raw = Ok (retry_merge d raw)).
Proof.
  repeat split; intros file d raw HD Hv.
  - apply (merges_valid _ _ _ (Sync_From_merges file d raw HD)).
    destruct (Sync_Default_accepted _ _ HD) as (A1 & A2).
    unfold sync_raw_valid in Hv; unfold sync_valid.
    repeat (apply andb_true_iff in Hv; destruct Hv as [Hv ?]).
    rewrite Hv; repeat (rewrite provided_accepted by assumption); reflexivity.
  - apply (merges_valid _ _ _ (Pool_From_merges file d raw HD)).
    destruct (Pool_Default_accepted _ _ HD) as (A1 & A2 & A3 & A4 & A5).
    unfold pool_raw_valid in Hv; unfold pool_valid.
    repeat (apply andb_true_iff in Hv; destruct Hv as [Hv ?]).
    rewrite Hv; repeat (rewrite provided_accepted by assumption); reflexivity.
  - apply (merges_valid _ _ _ (Transaction_From_merges file d raw HD)).
    destruct (Transaction_Default_accepted _ _ HD) as (A1 & A2).
    unfold transaction_raw_valid in Hv; unfold transaction_valid.
    repeat (apply andb_true_iff in Hv; destruct Hv as [Hv ?]).
    rewrite Hv; repeat (rewrite provided_accepted by assumption); reflexivity.
  - apply (merges_valid _ _ _ (Retry_From_merges file d raw HD)).
    pose proof (Retry_Default_accepted _ _ HD) as A1.
    unfold retry_raw_valid in Hv; unfold retry_valid.
    repeat (apply andb_true_iff in Hv; destruct Hv as [Hv ?]).
    rewrite Hv; repeat (rewrite provided_accepted by assumption); reflexivity.
Qed.

Lemma pick_cons name d k v fields :
  pick name d (VObj ((k, v) :: fields))
  = if String.eqb name k then v else pick name d (VObj fields).
Proof. unfold pick; cbn [property assoc]; destruct (String.eqb name k); reflexivity. Qed.

(** Assigning [null] to one of the four nullable keys of a raw object that
    loads gives a raw object that loads. *)
Lemma Model_From_null_key file fields c k :
  In k ["username"; "password"; "database"; "operators-aliases"] ->
  ModelConfiguration.From file (VObj fields) = Ok c ->
  exists d sc pc tc rc,
    ModelConfiguration.Default file = Ok d /\
    ModelConfiguration.From file (VObj ((k, VNull) :: fields))
    = Ok (assemble (model_locals d (VObj ((k, VNull) :: fields))) sc pc tc rc).
Proof.
  intros Hk H.
  destruct (Model_From_inv _ _ _ H)
    as (d & sc & pc & tc & rc & HD & Hv & Hs & Hp & Ht & Hr & _).
  exists d, sc, pc, tc, rc; split; [exact HD |].
  unfold model_valid in Hv.
  repeat (apply andb_true_iff in Hv; destruct Hv as [Hv ?]).
  cbn [In] in Hk.
  destruct Hk as [<- | [<- | [<- | [<- | []]]]];
    (apply Model_From_intro;
     [ exact HD
     | unfold model_valid; rewrite !pick_cons; cbn;
       repeat (apply andb_true_iff; split); assumption || reflexivity
     | rewrite pick_cons; exact Hs
     | rewrite pick_cons; exact Hp
     | rewrite pick_cons; exact Ht
     | rewrite pick_cons; exact Hr ]).
Qed.

(** C6. A raw configuration that loads still loads when [username] is set to
    [null], and the configuration then has the username [null]; the same holds
    for [password], [database] and [operators-aliases].  A raw configuration
    that sets [host] to [null] makes [From] throw a [ModelConfigurationError],
    whatever else it holds, when the defaults load. *)
Theorem nullable_fields :
  (forall file fields c,
     ModelConfiguration.From file (VObj fields) = Ok c ->
     (exists c', ModelConfiguration.From file (VObj (("username", VNull) :: fields))
                 = Ok c' /\ ModelConfiguration.getUsername c' = VNull) /\
     (exists c', ModelConfiguration.From file (VObj (("password", VNull) :: fields))
                 = Ok c' /\ ModelConfiguration.getPassword c' = VNull) /\
     (exists c', ModelConfiguration.From file (VObj (("database", VNull) :: fields))
                 = Ok c' /\ ModelConfiguration.getDatabase c' = VNull) /\
     (exists c', ModelConfiguration.From file
                   (VObj (("operators-aliases", VNull) :: fields))
                 = Ok c' /\ ModelConfiguration.getOperatorsAliases c' = VNull)) /\
  (forall file d fields,
     ModelConfiguration.Default file = Ok d ->
     assoc "host" fields = Some VNull ->
     exists cause,
       ModelConfiguration.From file (VObj fields)
       = Err (ModelConfigurationError (Some "Load model configuration error.")
                cause)).
Proof.
  split.
  - intros file fields c H.
    repeat split;
      match goal with
      | |- exists _, ModelConfiguration.From _ (VObj ((?k, _) :: _)) = _ /\ _ =>
          destruct (Model_From_null_key file fields c k) as
            (d & sc & pc & tc & rc & _ & H');
          [ cbn; tauto | exact H
          | eexists; split; [exact H' | reflexivity] ]
      end.
  - intros file d fields HD Hhost.
    unfold ModelConfiguration.From; rewrite HD; cbn [bind].
    unfold ModelConfiguration.From_locals. chain_names; rewrite root_eq.
    cbn [instanceOfObject bind].
    rewrite !optional_eq, !optional_nullable_eq by reflexivity.
    rewrite (pick_present "host" _ (VObj fields) VNull Hhost).
    eexists; reflexivity.
Qed.

Lemma nullable_fields_witness :
  (exists c', ModelConfiguration.From bundled
                (VObj [("username", VNull); ("port", VInt 5432)])
              = Ok c' /\ ModelConfiguration.getUsername c' = VNull) /\
  (exists cause,
     ModelConfiguration.From bundled (VObj [("host", VNull)])
     = Err (ModelConfigurationError (Some "Load model configuration error.")
              cause)).
Proof.
  destruct nullable_fields as [Hnull Hhost]. split.
  - refine (proj1 (Hnull bundled [("port", VInt 5432)] _ _)).
    vm_compute; reflexivity.
  - refine (Hhost bundled default_configuration [("host", VNull)] _ _);
      reflexivity.
Defined.

(** *** What the loaders throw on a default file that parses *)

Lemma outcome_error {A} (r : result error A) P e :
  outcome r P -> r = Err e -> isModelConfigurationError e = true.
Proof. intros H ->; exact H. Qed.

Lemma Sync_From_document doc cfg :
  outcome (ModelSyncConfiguration.From (Document doc) cfg) (fun _ => True).
Proof.
  pose proof (Sync_Default_document doc) as D.
  destruct (ModelSyncConfiguration.Default (Document doc)) as [d|e] eqn:HD.
  - pose proof (Sync_From_merges _ d cfg HD) as M.
    destruct (ModelSyncConfiguration.From (Document doc) cfg); cbn in *; tauto.
  - rewrite (Sync_From_default_error _ _ cfg HD); exact D.
Qed.

Lemma Pool_From_document doc cfg :
  outcome (ModelPoolConfiguration.From (Document doc) cfg) (fun _ => True).
Proof.
  pose proof (Pool_Default_document doc) as D.
  destruct (ModelPoolConfiguration.Default (Document doc)) as [d|e] eqn:HD.
  - pose proof (Pool_From_merges _ d cfg HD) as M.
    destruct (ModelPoolConfiguration.From (Document doc) cfg); cbn in *; tauto.
  - rewrite (Pool_From_default_error _ _ cfg HD); exact D.
Qed.

Lemma Transaction_From_document doc cfg :
  outcome (ModelTransactionConfiguration.From (Document doc) cfg)
    (fun _ => True).
Proof.
  pose proof (Transaction_Default_document doc) as D.
  destruct (ModelTransactionConfiguration.Default (Document doc)) as [d|e] eqn:HD.
  - pose proof (Transaction_From_merges _ d cfg HD) as M.
    destruct (ModelTransactionConfiguration.From (Document doc) cfg);
      cbn in *; tauto.
  - rewrite (Transaction_From_default_error _ _ cfg HD); exact D.
Qed.

Lemma Retry_From_document doc cfg :
  outcome (ModelRetryConfiguration.From (Document doc) cfg) (fun _ => True).
Proof.
  pose proof (Retry_Default_document doc) as D.
  destruct (ModelRetryConfiguration.Default (Document doc)) as [d|e] eqn:HD.
  - pose proof (Retry_From_merges _ d cfg HD) as M.
    destruct (ModelRetryConfiguration.From (Document doc) cfg); cbn in *; tauto.
  - rewrite (Retry_From_default_error _ _ cfg HD); exact D.
Qed.

Lemma Model_Default_document doc :
  outcome (ModelConfiguration.Default (Document doc)) (fun _ => True).
Proof.
  unfold ModelConfiguration.Default; cbn [ReadDefaultRawConfiguration bind].
  destruct (ModelConfiguration.Default_locals doc) as [l|]; [| reflexivity].
  cbn [try_catch bind].
  pose proof (Sync_From_document doc (ModelConfiguration.sync l)) as S.
  destruct (ModelSyncConfiguration.From _ _); [cbn [bind] | exact S].
  pose proof (Pool_From_document doc (ModelConfiguration.pool l)) as P.
  destruct (ModelPoolConfiguration.From _ _); [cbn [bind] | exact P].
  pose proof (Transaction_From_document doc (ModelConfiguration.transaction l))
    as T.
  destruct (ModelTransactionConfiguration.From _ _); [cbn [bind] | exact T].
  pose proof (Retry_From_document doc (ModelConfiguration.retry l)) as R.
  destruct (ModelRetryConfiguration.From _ _); [exact I | exact R].
Qed.

Lemma Model_From_default_error file e cfg :
  ModelConfiguration.Default file = Err e ->
  ModelConfiguration.From file cfg = Err e.
Proof. intros H; unfold ModelConfiguration.From; rewrite H; reflexivity. Qed.

Lemma Model_From_document doc cfg :
  outcome (ModelConfiguration.From (Document doc) cfg) (fun _ => True).
Proof.
  pose proof (Model_Default_document doc) as D.
  destruct (ModelConfiguration.Default (Document doc)) as [d|e] eqn:HD;
    [| rewrite (Model_From_default_error _ _ cfg HD); exact D].
  unfold ModelConfiguration.From; rewrite HD; cbn [bind].
  destruct (ModelConfiguration.From_locals d cfg) as [l|]; [| reflexivity].
  cbn [try_catch bind].
  pose proof (Sync_From_document doc (ModelConfiguration.sync l)) as S.
  destruct (ModelSyncConfiguration.From _ _); [cbn [bind] | exact S].
  pose proof (Transaction_From_document doc (ModelConfiguration.transaction l))
    as T.
  destruct (ModelTransactionConfiguration.From _ _); [cbn [bind] | exact T].
  pose proof (Pool_From_document doc (ModelConfiguration.pool l)) as P.
  destruct (ModelPoolConfiguration.From _ _); [cbn [bind] | exact P].
  pose proof (Retry_From_document doc (ModelConfiguration.retry l)) as R.
  destruct (ModelRetryConfiguration.From _ _); [exact I | exact R].
Qed.

(** C8. When [ModelConfiguration.From] throws on the raw configuration,
    [create] rejects with a [SequelizeFactoryConfigurationError] that wraps
    the error, and it has made no call into the client package: no client is
    constructed and [authenticate] is not attempted. *)
Theorem create_rejects_invalid_configuration :
  forall (client : Type) (lib : SequelizeFactory.Sequelize client)
         (file : DefaultFile) (raw : value) (waitForAuthenticate : bool)
         (e : error),
    ModelConfiguration.From file raw = Err e ->
    SequelizeFactory.create lib file raw waitForAuthenticate
    = ([], Err (SequelizeFactory.Factory
                  (SequelizeFactory.SequelizeFactoryConfigurationError e))).
Proof.
  intros client lib file raw w e H.
  unfold SequelizeFactory.create; rewrite H; reflexivity.
Qed.

Lemma create_rejects_invalid_configuration_witness :
  SequelizeFactory.create accepting_client bundled
    (VObj [("port", VStr "not-a-number")]) true
  = ([], Err (SequelizeFactory.Factory
                (SequelizeFactory.SequelizeFactoryConfigurationError
                   (ModelConfigurationError
                      (Some "Load model configuration error.")
                      (TypeError ["port"] KInteger))))).
Proof.
  apply (create_rejects_invalid_configuration value accepting_client bundled
           (VObj [("port", VStr "not-a-number")]) true).
  reflexivity.
Defined.

(** *** Keys that the loaders do not look up *)

Lemma eqb_outside (keys : list string) name k :
  In name keys -> ~ In k keys -> String.eqb name k = false.
Proof.
  intros Hin Hout; apply String.eqb_neq; intros ->; contradiction.
Qed.

Ltac other_keys keys k :=
  rewrite !pick_cons;
  repeat match goal with
    | |- context [String.eqb ?name k] =>
        rewrite (eqb_outside keys name k) by (assumption || (cbn; tauto))
    end.

Lemma Model_From_ignores file k v fields :
  ~ In k model_keys ->
  ModelConfiguration.From file (VObj ((k, v) :: fields))
  = ModelConfiguration.From file (VObj fields).
Proof.
  intros Hk. unfold ModelConfiguration.From.
  destruct (ModelConfiguration.Default file) as [d|]; [| reflexivity].
  cbn [bind]. unfold ModelConfiguration.From_locals. chain_names.
  rewrite !root_eq; cbn [instanceOfObject bind].
  rewrite !optional_eq, !optional_nullable_eq by reflexivity.
  other_keys model_keys k. reflexivity.
Qed.

Lemma Transaction_From_ignores file k v fields :
  ~ In k ["type"; "isolation-level"] ->
  ModelTransactionConfiguration.From file (VObj ((k, v) :: fields))
  = ModelTransactionConfiguration.From file (VObj fields).
Proof.
  intros Hk. unfold ModelTransactionConfiguration.From.
  destruct (ModelTransactionConfiguration.Default file) as [d|]; [| reflexivity].
  cbn [bind]. chain_names.
  rewrite !root_eq; cbn [instanceOfObject bind].
  rewrite !optional_eq by reflexivity.
  other_keys ["type"; "isolation-level"] k. reflexivity.
Qed.

Lemma not_in_keys (keys : list string) k :
  forallb (fun name => negb (String.eqb name k)) keys = true -> ~ In k keys.
Proof.
  intros H Hin. rewrite forallb_forall in H. specialize (H k Hin).
  rewrite String.eqb_refl in H; discriminate.
Qed.

(** C9. The aggregate loader looks up [omit-null] and [operators-aliases],
    and the transaction loader [isolation-level]: the value loaded is the one
    under the hyphenated key when the raw object has it and the default
    otherwise.  A binding of the camel-case key [omitNull], [operatorsAliases]
    or [isolationLevel] in the raw object changes nothing in what [From]
    returns or throws. *)
Theorem hyphenated_keys :
  (forall file fields v,
     ModelConfiguration.From file (VObj (("omitNull", v) :: fields))
     = ModelConfiguration.From file (VObj fields)) /\
  (forall file fields v,
     ModelConfiguration.From file (VObj (("operatorsAliases", v) :: fields))
     = ModelConfiguration.From file (VObj fields)) /\
  (forall file fields v,
     ModelTransactionConfiguration.From file
       (VObj (("isolationLevel", v) :: fields))
     = ModelTransactionConfiguration.From file (VObj fields)) /\
  (forall file raw c,
     ModelConfiguration.From file raw = Ok c ->
     exists d,
       ModelConfiguration.Default file = Ok d /\
       ModelConfiguration.getOmitNull c
       = pick "omit-null" (ModelConfiguration.getOmitNull d) raw /\
       ModelConfiguration.getOperatorsAliases c
       = pick "operators-aliases" (ModelConfiguration.getOperatorsAliases d)
           raw) /\
  (forall file raw c,
     ModelTransactionConfiguration.From file raw = Ok c ->
     exists d,
       ModelTransactionConfiguration.Default file = Ok d /\
       ModelTransactionConfiguration.getIsolationLevel c
       = pick "isolation-level"
           (ModelTransactionConfiguration.getIsolationLevel d) raw).
Proof.
  split; [| split; [| split; [| split]]].
  - intros; apply Model_From_ignores, not_in_keys; reflexivity.
  - intros; apply Model_From_ignores, not_in_keys; reflexivity.
  - intros; apply Transaction_From_ignores, not_in_keys; reflexivity.
  - intros file raw c H.
    destruct (Model_From_inv _ _ _ H)
      as (d & sc & pc & tc & rc & HD & _ & _ & _ & _ & _ & ->).
    exists d; repeat split; assumption.
  - intros file raw c H.
    destruct (ModelTransactionConfiguration.Default file) as [d|e] eqn:HD.
    + destruct (merges_Ok _ _ _ _ (Transaction_From_merges file d raw HD) H)
        as [_ ->].
      exists d; split; reflexivity.
    + rewrite (Transaction_From_default_error _ _ raw HD) in H; discriminate.
Qed.

Lemma hyphenated_keys_witness :
  (exists d,
     ModelConfiguration.Default bundled = Ok d /\
     ModelConfiguration.getOmitNull default_configuration
     = pick "omit-null" (ModelConfiguration.getOmitNull d)
         (VObj [("omitNull", VBool true)]) /\
     ModelConfiguration.getOperatorsAliases default_configuration
     = pick "operators-aliases" (ModelConfiguration.getOperatorsAliases d)
         (VObj [("omitNull", VBool true)])) /\
  (exists d,
     ModelTransactionConfiguration.Default bundled = Ok d /\
     ModelTransactionConfiguration.getIsolationLevel
       (ModelTransactionConfiguration.new (VStr "DEFERRED") (VStr "SERIALIZABLE"))
     = pick "isolation-level"
         (ModelTransactionConfiguration.getIsolationLevel d)
         (VObj [("isolation-level", VStr "SERIALIZABLE")])).
Proof.
  destruct hyphenated_keys as (_ & _ & _ & Hm & Ht). split.
  - exact (Hm bundled (VObj [("omitNull", VBool true)]) default_configuration
             eq_refl).
  - exact (Ht bundled (VObj [("isolation-level", VStr "SERIALIZABLE")])
             (ModelTransactionConfiguration.new
                (VStr "DEFERRED") (VStr "SERIALIZABLE")) eq_refl).
Defined.

(** *** A loader returns only on an object *)

Ltac first_conjunct H :=
  repeat (apply andb_true_iff in H; destruct H as [H _]); exact H.

Lemma Sync_From_object file raw c :
  ModelSyncConfiguration.From file raw = Ok c -> instanceOfObject raw = true.
Proof.
  intros H. destruct (ModelSyncConfiguration.Default file) as [d|e] eqn:HD.
  - destruct (merges_Ok _ _ _ _ (Sync_From_merges file d raw HD) H) as [Hv _].
    unfold sync_valid in Hv. first_conjunct Hv.
  - rewrite (Sync_From_default_error _ _ raw HD) in H; discriminate.
Qed.

Lemma Pool_From_object file raw c :
  ModelPoolConfiguration.From file raw = Ok c -> instanceOfObject raw = true.
Proof.
  intros H. destruct (ModelPoolConfiguration.Default file) as [d|e] eqn:HD.
  - destruct (merges_Ok _ _ _ _ (Pool_From_merges file d raw HD) H) as [Hv _].
    unfold pool_valid in Hv. first_conjunct Hv.
  - rewrite (Pool_From_default_error _ _ raw HD) in H; discriminate.
Qed.

Lemma Transaction_From_object file raw c :
  ModelTransactionConfiguration.From file raw = Ok c ->
  instanceOfObject raw = true.
Proof.
  intros H. destruct (ModelTransactionConfiguration.Default file) as [d|e] eqn:HD.
  - destruct (merges_Ok _ _ _ _ (Transaction_From_merges file d raw HD) H)
      as [Hv _].
    unfold transaction_valid in Hv. first_conjunct Hv.
  - rewrite (Transaction_From_default_error _ _ raw HD) in H; discriminate.
Qed.

Lemma Retry_From_object file raw c :
  ModelRetryConfiguration.From file raw = Ok c -> instanceOfObject raw = true.
Proof.
  intros H. destruct (ModelRetryConfiguration.Default file) as [d|e] eqn:HD.
  - destruct (merges_Ok _ _ _ _ (Retry_From_merges file d raw HD) H) as [Hv _].
    unfold retry_valid in Hv. first_conjunct Hv.
  - rewrite (Retry_From_default_error _ _ raw HD) in H; discriminate.
Qed.

Lemma Model_From_object file raw c :
  ModelConfiguration.From file raw = Ok c -> instanceOfObject raw = true.
Proof.
  intros H. destruct (Model_From_inv _ _ _ H)
    as (d & sc & pc & tc & rc & _ & Hv & _).
  unfold model_valid in Hv. first_conjunct Hv.
Qed.

Lemma outcome_not_object {A} (r : result error A) :
  outcome r (fun _ => True) -> (forall c, r <> Ok c) ->
  exists e, r = Err e /\ isModelConfigurationError e = true.
Proof.
  destruct r as [c|e]; intros H Hn; [destruct (Hn c eq_refl) | eauto].
Qed.

(** When the default file cannot be read or parsed, every loader throws the
    plain [Error] of [ReadDefaultRawConfiguration], on every raw input. *)
Lemma From_without_default_file file raw :
  file = Unreadable \/ file = Malformed ->
  exists message,
    ModelSyncConfiguration.From file raw = Err (Error message) /\
    ModelPoolConfiguration.From file raw = Err (Error message) /\
    ModelTransactionConfiguration.From file raw = Err (Error message) /\
    ModelRetryConfiguration.From file raw = Err (Error message) /\
    ModelConfiguration.From file raw = Err (Error message).
Proof. intros [-> | ->]; eexists; repeat split. Qed.

(** C10. On a default document that parses, [ModelConfiguration.From] and the
    four nested [From] throw a [ModelConfigurationError] on every raw input
    that is [null] or not an object: they neither return a configuration nor
    let another error through. *)
Theorem From_rejects_non_objects :
  (forall doc raw,
     instanceOfObject raw = false ->
     exists e, ModelSyncConfiguration.From (Document doc) raw = Err e /\
               isModelConfigurationError e = true) /\
  (forall doc raw,
     instanceOfObject raw = false ->
     exists e, ModelPoolConfiguration.From (Document doc) raw = Err e /\
               isModelConfigurationError e = true) /\
  (forall doc raw,
     instanceOfObject raw = false ->
     exists e, ModelTransactionConfiguration.From (Document doc) raw = Err e /\
               isModelConfigurationError e = true) /\
  (forall doc raw,
     instanceOfObject raw = false ->
     exists e, ModelRetryConfiguration.From (Document doc) raw = Err e /\
               isModelConfigurationError e = true) /\
  (forall doc raw,
     instanceOfObject raw = false ->
     exists e, ModelConfiguration.From (Document doc) raw = Err e /\
               isModelConfigurationError e = true).
Proof.
  repeat split; intros doc raw Hraw; apply outcome_not_object.
  - apply Sync_From_document.
  - intros c H; apply Sync_From_object in H; congruence.
  - apply Pool_From_document.
  - intros c H; apply Pool_From_object in H; congruence.
  - apply Transaction_From_document.
  - intros c H; apply Transaction_From_object in H; congruence.
  - apply Retry_From_document.
  - intros c H; apply Retry_From_object in H; congruence.
  - apply Model_From_document.
  - intros c H; apply Model_From_object in H; congruence.
Qed.

Lemma From_rejects_non_objects_witness :
  (exists e, ModelPoolConfiguration.From bundled (VInt 3) = Err e /\
             isModelConfigurationError e = true) /\
  (exists e, ModelConfiguration.From bundled VNull = Err e /\
             isModelConfigurationError e = true) /\
  (exists e, ModelConfiguration.From bundled (VStr "mysql") = Err e /\
             isModelConfigurationError e = true).
Proof.
  destruct From_rejects_non_objects as (_ & Hp & _ & _ & Hm).
  split; [| split].
  - exact (Hp model_default_json (VInt 3) eq_refl).
  - exact (Hm model_default_json VNull eq_refl).
  - exact (Hm model_default_json (VStr "mysql") eq_refl).
Defined.

(** ** Further properties of the loaders *)

(** *** The context of what a loader throws *)

Lemma Sync_Default_context doc e :
  ModelSyncConfiguration.Default (Document doc) = Err e ->
  exists cause,
    e = ModelConfigurationError
          (Some "Load default model sync configuration error.") cause.
Proof.
  unfold ModelSyncConfiguration.Default; cbn [ReadDefaultRawConfiguration bind].
  match goal with |- context [try_catch _ ?b] => destruct b as [[? ?]|cause] end;
    cbn [try_catch bind]; [discriminate | intros [= <-]; eauto].
Qed.

Lemma Pool_Default_context doc e :
  ModelPoolConfiguration.Default (Document doc) = Err e ->
  exists cause,
    e = ModelConfigurationError
          (Some "Load default model pool configuration error.") cause.
Proof.
  unfold ModelPoolConfiguration.Default; cbn [ReadDefaultRawConfiguration bind].
  match goal with
  | |- context [try_catch _ ?b] => destruct b as [[[[[? ?] ?] ?] ?]|cause]
  end; cbn [try_catch bind]; [discriminate | intros [= <-]; eauto].
Qed.

Lemma Transaction_Default_context doc e :
  ModelTransactionConfiguration.Default (Document doc) = Err e ->
  exists cause,
    e = ModelConfigurationError
          (Some "Load default model transaction configuration.") cause.
Proof.
  unfold ModelTransactionConfiguration.Default;
    cbn [ReadDefaultRawConfiguration bind].
  match goal with |- context [try_catch _ ?b] => destruct b as [[? ?]|cause] end;
    cbn [try_catch bind]; [discriminate | intros [= <-]; eauto].
Qed.

Lemma Retry_Default_context doc e :
  ModelRetryConfiguration.Default (Document doc) = Err e ->
  exists cause,
    e = ModelConfigurationError
          (Some "Load model retry configuration error.") cause.
Proof.
  unfold ModelRetryConfiguration.Default; cbn [ReadDefaultRawConfiguration bind].
  match goal with |- context [try_catch _ ?b] => destruct b as [?|cause] end;
    cbn [try_catch bind]; [discriminate | intros [= <-]; eauto].
Qed.

Lemma Sync_From_context file d raw e :
  ModelSyncConfiguration.Default file = Ok d ->
  ModelSyncConfiguration.From file raw = Err e ->
  exists cause,
    e = ModelConfigurationError (Some "Load model sync configuration error.")
          cause.
Proof.
  intros HD; unfold ModelSyncConfiguration.From; rewrite HD; cbn [bind].
  match goal with |- context [try_catch _ ?b] => destruct b as [[? ?]|cause] end;
    cbn [try_catch bind]; [discriminate | intros [= <-]; eauto].
Qed.

Lemma Pool_From_context file d raw e :
  ModelPoolConfiguration.Default file = Ok d ->
  ModelPoolConfiguration.From file raw = Err e ->
  exists cause,
    e = ModelConfigurationError (Some "Load model pool configuration error.")
          cause.
Proof.
  intros HD; unfold ModelPoolConfiguration.From; rewrite HD; cbn [bind].
  match goal with
  | |- context [try_catch _ ?b] => destruct b as [[[[[? ?] ?] ?] ?]|cause]
  end; cbn [try_catch bind]; [discriminate | intros [= <-]; eauto].
Qed.

Lemma Transaction_From_context file d raw e :
  ModelTransactionConfiguration.Default file = Ok d ->
  ModelTransactionConfiguration.From file raw = Err e ->
  exists cause,
    e = ModelConfigurationError (Some "Load model transaction configuration.")
          cause.
Proof.
  intros HD; unfold ModelTransactionConfiguration.From; rewrite HD; cbn [bind].
  match goal with |- context [try_catch _ ?b] => destruct b as [[? ?]|cause] end;
    cbn [try_catch bind]; [discriminate | intros [= <-]; eauto].
Qed.

Lemma Retry_From_context file d raw e :
  ModelRetryConfiguration.Default file = Ok d ->
  ModelRetryConfiguration.From file raw = Err e ->
  exists cause,
    e = ModelConfigurationError (Some "Load model retry configuration error.")
          cause.
Proof.
  intros HD; unfold ModelRetryConfiguration.From; rewrite HD; cbn [bind].
  match goal with |- context [try_catch _ ?b] => destruct b as [?|cause] end;
    cbn [try_catch bind]; [discriminate | intros [= <-]; eauto].
Qed.

Lemma accepted_pick k name d raw :
  accepted k d = true -> accepted k (pick name d raw) = provided k name raw.
Proof.
  unfold pick, provided; destruct (property name raw); intros; auto.
Qed.

Lemma sync_valid_raw file d raw :
  ModelSyncConfiguration.Default file = Ok d ->
  sync_valid d raw = sync_raw_valid raw.
Proof.
  intros HD; destruct (Sync_Default_accepted _ _ HD) as (A1 & A2).
  unfold sync_valid, sync_raw_valid.
  rewrite !accepted_pick by assumption; reflexivity.
Qed.

Lemma pool_valid_raw file d raw :
  ModelPoolConfiguration.Default file = Ok d ->
  pool_valid d raw = pool_raw_valid raw.
Proof.
  intros HD; destruct (Pool_Default_accepted _ _ HD) as (A1 & A2 & A3 & A4 & A5).
  unfold pool_valid, pool_raw_valid.
  rewrite !accepted_pick by assumption; reflexivity.
Qed.

Lemma transaction_valid_raw file d raw :
  ModelTransactionConfiguration.Default file = Ok d ->
  transaction_valid d raw = transaction_raw_valid raw.
Proof.
  intros HD; destruct (Transaction_Default_accepted _ _ HD) as (A1 & A2).
  unfold transaction_valid, transaction_raw_valid.
  rewrite !accepted_pick by assumption; reflexivity.
Qed.

Lemma retry_valid_raw file d raw :
  ModelRetryConfiguration.Default file = Ok d ->
  retry_valid d raw = retry_raw_valid raw.
Proof.
  intros HD; pose proof (Retry_Default_accepted _ _ HD) as A1.
  unfold retry_valid, retry_raw_valid.
  rewrite !accepted_pick by assumption; reflexivity.
Qed.

(** X1. With loadable defaults, a nested [From] throws on every raw input
    that is not valid (not an object, or with a given field that is [null] or
    not of its kind: no coercion from strings), and what it throws is the
    [ModelConfigurationError] of its own [try] block. *)
Theorem nested_From_rejects_invalid :
  (forall file d raw,
     ModelSyncConfiguration.Default file = Ok d ->
     sync_raw_valid raw = false ->
     exists cause,
       ModelSyncConfiguration.From file raw
       = Err (ModelConfigurationError
                (Some "Load model sync configuration error.") cause)) /\
  (forall file d raw,
     ModelPoolConfiguration.Default file = Ok d ->
     pool_raw_valid raw = false ->
     exists cause,
       ModelPoolConfiguration.From file raw
       = Err (ModelConfigurationError
                (Some "Load model pool configuration error.") cause)) /\
  (forall file d raw,
     ModelTransactionConfiguration.Default file = Ok d ->
     transaction_raw_valid raw = false ->
     exists cause,
       ModelTransactionConfiguration.From file raw
       = Err (ModelConfigurationError
                (Some "Load model transaction configuration.") cause)) /\
  (forall file d raw,
     ModelRetryConfiguration.Default file = Ok d ->
     retry_raw_valid raw = false ->
     exists cause,
       ModelRetryConfiguration.From file raw
       = Err (ModelConfigurationError
                (Some "Load model retry configuration error.") cause)).
Proof.
  repeat split; intros file d raw HD Hv.
  - destruct (ModelSyncConfiguration.From file raw) as [c|e] eqn:H.
    + destruct (merges_Ok _ _ _ _ (Sync_From_merges file d raw HD) H) as [V _].
      rewrite (sync_valid_raw _ _ _ HD) in V; congruence.
    + destruct (Sync_From_context _ _ _ _ HD H) as [cause ->]; eauto.
  - destruct (ModelPoolConfiguration.From file raw) as [c|e] eqn:H.
    + destruct (merges_Ok _ _ _ _ (Pool_From_merges file d raw HD) H) as [V _].
      rewrite (pool_valid_raw _ _ _ HD) in V; congruence.
    + destruct (Pool_From_context _ _ _ _ HD H) as [cause ->]; eauto.
  - destruct (ModelTransactionConfiguration.From file raw) as [c|e] eqn:H.
    + destruct (merges_Ok _ _ _ _ (Transaction_From_merges file d raw HD) H)
        as [V _].
      rewrite (transaction_valid_raw _ _ _ HD) in V; congruence.
    + destruct (Transaction_From_context _ _ _ _ HD H) as [cause ->]; eauto.
  - destruct (ModelRetryConfiguration.From file raw) as [c|e] eqn:H.
    + destruct (merges_Ok _ _ _ _ (Retry_From_merges file d raw HD) H) as [V _].
      rewrite (retry_valid_raw _ _ _ HD) in V; congruence.
    + destruct (Retry_From_context _ _ _ _ HD H) as [cause ->]; eauto.
Qed.

Lemma nested_From_rejects_invalid_witness :
  (exists cause,
     ModelPoolConfiguration.From bundled (VObj [("max", VStr "5")])
     = Err (ModelConfigurationError
              (Some "Load model pool configuration error.") cause)) /\
  (exists cause,
     ModelSyncConfiguration.From bundled (VObj [("force", VStr "true")])
     = Err (ModelConfigurationError
              (Some "Load model sync configuration error.") cause)).
Proof.
  destruct nested_From_rejects_invalid as (Hs & Hp & _). split.
  - exact (Hp bundled
             (ModelPoolConfiguration.new
                (VInt 5) (VInt 0) (VInt 10000) (VInt 60000) (VInt 1000))
             (VObj [("max", VStr "5")]) eq_refl eq_refl).
  - exact (Hs bundled (ModelSyncConfiguration.new (VBool false) (VBool false))
             (VObj [("force", VStr "true")]) eq_refl eq_refl).
Defined.

(** *** Which loader an error comes from *)

Lemma Sync_From_contexts doc raw e :
  ModelSyncConfiguration.From (Document doc) raw = Err e ->
  exists ctx cause,
    e = ModelConfigurationError (Some ctx) cause /\ In ctx nested_contexts.
Proof.
  intros H.
  destruct (ModelSyncConfiguration.Default (Document doc)) as [d|e'] eqn:HD.
  - destruct (Sync_From_context _ _ _ _ HD H) as [cause ->].
    do 2 eexists; split; [reflexivity | cbn; tauto].
  - rewrite (Sync_From_default_error _ _ raw HD) in H; injection H as <-.
    destruct (Sync_Default_context _ _ HD) as [cause ->].
    do 2 eexists; split; [reflexivity | cbn; tauto].
Qed.

Lemma Pool_From_contexts doc raw e :
  ModelPoolConfiguration.From (Document doc) raw = Err e ->
  exists ctx cause,
    e = ModelConfigurationError (Some ctx) cause /\ In ctx nested_contexts.
Proof.
  intros H.
  destruct (ModelPoolConfiguration.Default (Document doc)) as [d|e'] eqn:HD.
  - destruct (Pool_From_context _ _ _ _ HD H) as [cause ->].
    do 2 eexists; split; [reflexivity | cbn; tauto].
  - rewrite (Pool_From_default_error _ _ raw HD) in H; injection H as <-.
    destruct (Pool_Default_context _ _ HD) as [cause ->].
    do 2 eexists; split; [reflexivity | cbn; tauto].
Qed.

Lemma Transaction_From_contexts doc raw e :
  ModelTransactionConfiguration.From (Document doc) raw = Err e ->
  exists ctx cause,
    e = ModelConfigurationError (Some ctx) cause /\ In ctx nested_contexts.
Proof.
  intros H.
  destruct (ModelTransactionConfiguration.Default (Document doc))
    as [d|e'] eqn:HD.
  - destruct (Transaction_From_context _ _ _ _ HD H) as [cause ->].
    do 2 eexists; split; [reflexivity | cbn; tauto].
  - rewrite (Transaction_From_default_error _ _ raw HD) in H; injection H as <-.
    destruct (Transaction_Default_context _ _ HD) as [cause ->].
    do 2 eexists; split; [reflexivity | cbn; tauto].
Qed.

Lemma Retry_From_contexts doc raw e :
  ModelRetryConfiguration.From (Document doc) raw = Err e ->
  exists ctx cause,
    e = ModelConfigurationError (Some ctx) cause /\ In ctx nested_contexts.
Proof.
  intros H.
  destruct (ModelRetryConfiguration.Default (Document doc)) as [d|e'] eqn:HD.
  - destruct (Retry_From_context _ _ _ _ HD H) as [cause ->].
    do 2 eexists; split; [reflexivity | cbn; tauto].
  - rewrite (Retry_From_default_error _ _ raw HD) in H; injection H as <-.
    destruct (Retry_Default_context _ _ HD) as [cause ->].
    do 2 eexists; split; [reflexivity | cbn; tauto].
Qed.

(** What [ModelConfiguration.Default] throws on a document that parses: the
    error of its own [try] block, which has no context, or the error of a
    nested loader, unwrapped. *)
Lemma Model_Default_contexts doc e :
  ModelConfiguration.Default (Document doc) = Err e ->
  (exists cause, e = ModelConfigurationError None cause) \/
  (exists ctx cause,
     e = ModelConfigurationError (Some ctx) cause /\ In ctx nested_contexts).
Proof.
  unfold ModelConfiguration.Default; cbn [ReadDefaultRawConfiguration bind].
  destruct (ModelConfiguration.Default_locals doc) as [l|cause];
    cbn [try_catch bind]; [| intros [= <-]; left; eauto].
  destruct (ModelSyncConfiguration.From _ _) eqn:Hs; cbn [bind];
    [| intros [= <-]; right; eapply Sync_From_contexts; eassumption].
  destruct (ModelPoolConfiguration.From _ _) eqn:Hp; cbn [bind];
    [| intros [= <-]; right; eapply Pool_From_contexts; eassumption].
  destruct (ModelTransactionConfiguration.From _ _) eqn:Ht; cbn [bind];
    [| intros [= <-]; right; eapply Transaction_From_contexts; eassumption].
  destruct (ModelRetryConfiguration.From _ _) eqn:Hr; cbn [bind];
    [discriminate
    | intros [= <-]; right; eapply Retry_From_contexts; eassumption].
Qed.

Ltac other_context :=
  match goal with
  | H : Error _ = ModelConfigurationError _ _ |- _ => discriminate H
  | H : ModelConfigurationError _ _ = ModelConfigurationError _ _ |- _ =>
      injection H as ? ?; subst; try discriminate
  end.

(** X2. The context of an error tells whose fault it is.  When the sync, pool
    or transaction loader, or the aggregate loader, throws the error of the
    [try] block of its [From], the defaults had loaded: the fault is in the
    raw input, not in the default file. *)
Theorem From_context_blames_raw_input :
  (forall file raw cause,
     ModelSyncConfiguration.From file raw
     = Err (ModelConfigurationError
              (Some "Load model sync configuration error.") cause) ->
     exists d, ModelSyncConfiguration.Default file = Ok d) /\
  (forall file raw cause,
     ModelPoolConfiguration.From file raw
     = Err (ModelConfigurationError
              (Some "Load model pool configuration error.") cause) ->
     exists d, ModelPoolConfiguration.Default file = Ok d) /\
  (forall file raw cause,
     ModelTransactionConfiguration.From file raw
     = Err (ModelConfigurationError
              (Some "Load model transaction configuration.") cause) ->
     exists d, ModelTransactionConfiguration.Default file = Ok d) /\
  (forall file raw cause,
     ModelConfiguration.From file raw
     = Err (ModelConfigurationError
              (Some "Load model configuration error.") cause) ->
     exists d, ModelConfiguration.Default file = Ok d).
Proof.
  repeat split; intros file raw cause H.
  - destruct (ModelSyncConfiguration.Default file) as [d|e] eqn:HD; [eauto |].
    rewrite (Sync_From_default_error _ _ raw HD) in H; injection H as ->.
    destruct file as [| | doc]; try discriminate HD.
    destruct (Sync_Default_context _ _ HD) as [c E]; other_context.
  - destruct (ModelPoolConfiguration.Default file) as [d|e] eqn:HD; [eauto |].
    rewrite (Pool_From_default_error _ _ raw HD) in H; injection H as ->.
    destruct file as [| | doc]; try discriminate HD.
    destruct (Pool_Default_context _ _ HD) as [c E]; other_context.
  - destruct (ModelTransactionConfiguration.Default file) as [d|e] eqn:HD;
      [eauto |].
    rewrite (Transaction_From_default_error _ _ raw HD) in H; injection H as ->.
    destruct file as [| | doc]; try discriminate HD.
    destruct (Transaction_Default_context _ _ HD) as [c E]; other_context.
  - destruct (ModelConfiguration.Default file) as [d|e] eqn:HD; [eauto |].
    rewrite (Model_From_default_error _ _ raw HD) in H; injection H as ->.
    destruct file as [| | doc]; try discriminate HD.
    destruct (Model_Default_contexts _ _ HD)
      as [[c E] | (ctx & c & E & Hin)]; [discriminate E |].
    injection E as <- <-.
    cbn in Hin; repeat destruct Hin as [Hin | Hin]; try discriminate Hin.
    destruct Hin.
Qed.

Lemma From_context_blames_raw_input_witness :
  exists d, ModelPoolConfiguration.Default bundled = Ok d.
Proof.
  destruct From_context_blames_raw_input as (_ & Hp & _).
  exact (Hp bundled (VObj [("max", VStr "5")]) (TypeError ["max"] KInteger)
           eq_refl).
Defined.

(** *** What a loaded configuration holds *)

Lemma Sync_From_typed file raw c :
  ModelSyncConfiguration.From file raw = Ok c -> sync_typed c = true.
Proof.
  intros H. destruct (ModelSyncConfiguration.Default file) as [d|e] eqn:HD.
  - destruct (merges_Ok _ _ _ _ (Sync_From_merges file d raw HD) H) as [V ->].
    unfold sync_valid in V; unfold sync_typed, sync_merge;
      cbn [ModelSyncConfiguration.getForce ModelSyncConfiguration.getAlter].
    repeat (apply andb_true_iff in V; destruct V as [V ?]).
    repeat (apply andb_true_iff; split); assumption.
  - rewrite (Sync_From_default_error _ _ raw HD) in H; discriminate.
Qed.

Lemma Pool_From_typed file raw c :
  ModelPoolConfiguration.From file raw = Ok c -> pool_typed c = true.
Proof.
  intros H. destruct (ModelPoolConfiguration.Default file) as [d|e] eqn:HD.
  - destruct (merges_Ok _ _ _ _ (Pool_From_merges file d raw HD) H) as [V ->].
    unfold pool_valid in V; unfold pool_typed, pool_merge;
      cbn [ModelPoolConfiguration.getMax ModelPoolConfiguration.getMin
           ModelPoolConfiguration.getIdle ModelPoolConfiguration.getAcquire
           ModelPoolConfiguration.getEvict].
    repeat (apply andb_true_iff in V; destruct V as [V ?]).
    repeat (apply andb_true_iff; split); assumption.
  - rewrite (Pool_From_default_error _ _ raw HD) in H; discriminate.
Qed.

Lemma Transaction_From_typed file raw c :
  ModelTransactionConfiguration.From file raw = Ok c ->
  transaction_typed c = true.
Proof.
  intros H. destruct (ModelTransactionConfiguration.Default file) as [d|e] eqn:HD.
  - destruct (merges_Ok _ _ _ _ (Transaction_From_merges file d raw HD) H)
      as [V ->].
    unfold transaction_valid in V; unfold transaction_typed, transaction_merge;
      cbn [ModelTransactionConfiguration.getType
           ModelTransactionConfiguration.getIsolationLevel].
    repeat (apply andb_true_iff in V; destruct V as [V ?]).
    repeat (apply andb_true_iff; split); assumption.
  - rewrite (Transaction_From_default_error _ _ raw HD) in H; discriminate.
Qed.

Lemma Retry_From_typed file raw c :
  ModelRetryConfiguration.From file raw = Ok c -> retry_typed c = true.
Proof.
  intros H. destruct (ModelRetryConfiguration.Default file) as [d|e] eqn:HD.
  - destruct (merges_Ok _ _ _ _ (Retry_From_merges file d raw HD) H) as [V ->].
    unfold retry_valid in V; unfold retry_typed, retry_merge;
      cbn [ModelRetryConfiguration.getMax].
    repeat (apply andb_true_iff in V; destruct V as [V ?]).
    assumption.
  - rewrite (Retry_From_default_error _ _ raw HD) in H; discriminate.
Qed.

Lemma Model_From_typed file raw c :
  ModelConfiguration.From file raw = Ok c -> model_typed c = true.
Proof.
  intros H. destruct (Model_From_inv _ _ _ H)
    as (d & sc & pc & tc & rc & _ & V & Hs & Hp & Ht & Hr & ->).
  apply Sync_From_typed in Hs. apply Pool_From_typed in Hp.
  apply Transaction_From_typed in Ht. apply Retry_From_typed in Hr.
  unfold model_valid in V.
  repeat (apply andb_true_iff in V; destruct V as [V ?]).
  unfold model_typed, assemble, model_locals;
    cbn -[sync_typed pool_typed transaction_typed retry_typed accepted allowed
          pick].
  rewrite Hs, Hp, Ht, Hr.
  repeat match goal with A : _ = true |- _ => rewrite A; clear A end.
  reflexivity.
Qed.

Lemma Model_Default_typed file c :
  ModelConfiguration.Default file = Ok c -> model_typed c = true.
Proof.
  intros H. destruct (Model_Default_inv _ _ H)
    as (doc & l & sc & pc & tc & rc & -> & Hl & Hs & Hp & Ht & Hr & ->).
  apply Sync_From_typed in Hs. apply Pool_From_typed in Hp.
  apply Transaction_From_typed in Ht. apply Retry_From_typed in Hr.
  pose proof (Default_locals_document doc) as L; rewrite Hl in L.
  destruct L as (_ & (_ & A1) & (_ & A2) & (_ & A3) & (_ & A4) & (_ & A5)
    & (_ & A6) & (_ & A7) & _ & (_ & A9) & (_ & A10) & _ & _ & _ & (_ & A14)).
  unfold model_typed, assemble;
    cbn -[sync_typed pool_typed transaction_typed retry_typed accepted allowed].
  rewrite Hs, Hp, Ht, Hr, A1, A2, A3, A4, A5, A6, A7, A9, A10, A14.
  reflexivity.
Qed.

(** X3. Whatever the raw input and the default file, a configuration that a
    loader returns ([From] or [Default], nested or aggregate) is typed: the
    pool and retry fields and the port are non-null integers, the sync fields,
    [logging] and [omitNull] non-null booleans, the transaction fields, host,
    dialect and protocol non-null strings; username, password and database
    are strings or [null], and the aliases an object or [null]. *)
Theorem loaded_configurations_are_typed :
  (forall file raw c,
     ModelSyncConfiguration.From file raw = Ok c -> sync_typed c = true) /\
  (forall file raw c,
     ModelPoolConfiguration.From file raw = Ok c -> pool_typed c = true) /\
  (forall file raw c,
     ModelTransactionConfiguration.From file raw = Ok c ->
     transaction_typed c = true) /\
  (forall file raw c,
     ModelRetryConfiguration.From file raw = Ok c -> retry_typed c = true) /\
  (forall file raw c,
     ModelConfiguration.From file raw = Ok c -> model_typed c = true) /\
  (forall file c,
     ModelConfiguration.Default file = Ok c -> model_typed c = true).
Proof.
  split; [exact Sync_From_typed |].
  split; [exact Pool_From_typed |].
  split; [exact Transaction_From_typed |].
  split; [exact Retry_From_typed |].
  split; [exact Model_From_typed |].
  exact Model_Default_typed.
Qed.

Lemma loaded_configurations_are_typed_witness :
  model_typed default_configuration = true.
Proof.
  destruct loaded_configurations_are_typed as (_ & _ & _ & _ & H & _).
  exact (H bundled (VObj []) default_configuration eq_refl).
Defined.

(** X4. When the aggregate [From] returns, the defaults had loaded and every
    top-level field of the result is the raw value under its key when the raw
    object has the key, and the default otherwise; the keys are [host],
    [port], [username], [password], [database], [dialect], [protocol],
    [logging], [omit-null] and [operators-aliases]. *)
Theorem Model_From_round_trips :
  forall file raw c,
    ModelConfiguration.From file raw = Ok c ->
    exists d,
      ModelConfiguration.Default file = Ok d /\
      ModelConfiguration.getHost c
        = pick "host" (ModelConfiguration.getHost d) raw /\
      ModelConfiguration.getPort c
        = pick "port" (ModelConfiguration.getPort d) raw /\
      ModelConfiguration.getUsername c
        = pick "username" (ModelConfiguration.getUsername d) raw /\
      ModelConfiguration.getPassword c
        = pick "password" (ModelConfiguration.getPassword d) raw /\
      ModelConfiguration.getDatabase c
        = pick "database" (ModelConfiguration.getDatabase d) raw /\
      ModelConfiguration.getDialect c
        = pick "dialect" (ModelConfiguration.getDialect d) raw /\
      ModelConfiguration.getProtocol c
        = pick "protocol" (ModelConfiguration.getProtocol d) raw /\
      ModelConfiguration.getLogging c
        = pick "logging" (ModelConfiguration.getLogging d) raw /\
      ModelConfiguration.getOmitNull c
        = pick "omit-null" (ModelConfiguration.getOmitNull d) raw /\
      ModelConfiguration.getOperatorsAliases c
        = pick "operators-aliases" (ModelConfiguration.getOperatorsAliases d)
            raw.
Proof.
  intros file raw c H. destruct (Model_From_inv _ _ _ H)
    as (d & sc & pc & tc & rc & HD & _ & _ & _ & _ & _ & ->).
  exists d; repeat split; assumption.
Qed.

Lemma Model_From_round_trips_witness :
  exists d,
    ModelConfiguration.Default bundled = Ok d /\
    VStr "db.internal" = pick "host" (ModelConfiguration.getHost d)
                           (VObj [("host", VStr "db.internal")]) /\
    VInt 3306 = pick "port" (ModelConfiguration.getPort d)
                  (VObj [("host", VStr "db.internal")]).
Proof.
  destruct (Model_From_round_trips bundled (VObj [("host", VStr "db.internal")])
              (ModelConfiguration.new (VStr "db.internal") (VInt 3306) VNull
                 VNull VNull (VStr "mysql") (VStr "tcp")
                 (ModelSyncConfiguration.new (VBool false) (VBool false))
                 (VBool false) (VBool false)
                 (ModelPoolConfiguration.new (VInt 5) (VInt 0) (VInt 10000)
                    (VInt 60000) (VInt 1000))
                 (ModelTransactionConfiguration.new (VStr "DEFERRED")
                    (VStr "READ_COMMITTED"))
                 (ModelRetryConfiguration.new (VInt 4)) VNull) eq_refl)
    as (d & HD & Hh & Hp & _).
  exists d; repeat split; assumption.
Defined.

Lemma pick_absent name d v : property name v = None -> pick name d v = d.
Proof. unfold pick; intros ->; reflexivity. Qed.

(** X5. The nested groups of the aggregate result: each is the nested
    defaults overridden by the fields of the raw group under [sync], [pool],
    [transaction] or [retry], and the nested defaults themselves when the raw
    object has no such key (an absent group is read as the empty object). *)
Theorem Model_From_nested_groups :
  forall file raw c,
    ModelConfiguration.From file raw = Ok c ->
    (exists d, ModelSyncConfiguration.Default file = Ok d /\
       ModelConfiguration.getSyncConfiguration c
       = sync_merge d (pick "sync" (VObj []) raw) /\
       (property "sync" raw = None ->
        ModelConfiguration.getSyncConfiguration c = d)) /\
    (exists d, ModelPoolConfiguration.Default file = Ok d /\
       ModelConfiguration.getPoolConfiguration c
       = pool_merge d (pick "pool" (VObj []) raw) /\
       (property "pool" raw = None ->
        ModelConfiguration.getPoolConfiguration c = d)) /\
    (exists d, ModelTransactionConfiguration.Default file = Ok d /\
       ModelConfiguration.getTransactionConfiguration c
       = transaction_merge d (pick "transaction" (VObj []) raw) /\
       (property "transaction" raw = None ->
        ModelConfiguration.getTransactionConfiguration c = d)) /\
    (exists d, ModelRetryConfiguration.Default file = Ok d /\
       ModelConfiguration.getRetryConfiguration c
       = retry_merge d (pick "retry" (VObj []) raw) /\
       (property "retry" raw = None ->
        ModelConfiguration.getRetryConfiguration c = d)).
Proof.
  intros file raw c H. destruct (Model_From_inv _ _ _ H)
    as (d & sc & pc & tc & rc & _ & _ & Hs & Hp & Ht & Hr & ->).
  cbn [assemble ModelConfiguration.getSyncConfiguration
       ModelConfiguration.getPoolConfiguration
       ModelConfiguration.getTransactionConfiguration
       ModelConfiguration.getRetryConfiguration].
  split; [| split; [| split]].
  - destruct (ModelSyncConfiguration.Default file) as [ds|e] eqn:HD;
      [| rewrite (Sync_From_default_error _ _ _ HD) in Hs; discriminate].
    destruct (merges_Ok _ _ _ _ (Sync_From_merges file ds _ HD) Hs) as [_ ->].
    exists ds; repeat split. intros Habs; rewrite (pick_absent _ _ _ Habs).
    destruct ds; reflexivity.
  - destruct (ModelPoolConfiguration.Default file) as [dp|e] eqn:HD;
      [| rewrite (Pool_From_default_error _ _ _ HD) in Hp; discriminate].
    destruct (merges_Ok _ _ _ _ (Pool_From_merges file dp _ HD) Hp) as [_ ->].
    exists dp; repeat split. intros Habs; rewrite (pick_absent _ _ _ Habs).
    destruct dp; reflexivity.
  - destruct (ModelTransactionConfiguration.Default file) as [dt|e] eqn:HD;
      [| rewrite (Transaction_From_default_error _ _ _ HD) in Ht; discriminate].
    destruct (merges_Ok _ _ _ _ (Transaction_From_merges file dt _ HD) Ht)
      as [_ ->].
    exists dt; repeat split. intros Habs; rewrite (pick_absent _ _ _ Habs).
    destruct dt; reflexivity.
  - destruct (ModelRetryConfiguration.Default file) as [dr|e] eqn:HD;
      [| rewrite (Retry_From_default_error _ _ _ HD) in Hr; discriminate].
    destruct (merges_Ok _ _ _ _ (Retry_From_merges file dr _ HD) Hr) as [_ ->].
    exists dr; repeat split. intros Habs; rewrite (pick_absent _ _ _ Habs).
    destruct dr; reflexivity.
Qed.

Lemma Model_From_nested_groups_witness :
  exists d,
    ModelPoolConfiguration.Default bundled = Ok d /\
    ModelPoolConfiguration.new (VInt 9) (VInt 0) (VInt 10000) (VInt 60000)
      (VInt 1000)
    = pool_merge d (pick "pool" (VObj []) (VObj [("pool", VObj [("max", VInt 9)])])).
Proof.
  destruct (Model_From_nested_groups bundled
              (VObj [("pool", VObj [("max", VInt 9)])])
              (ModelConfiguration.new (VStr "localhost") (VInt 3306) VNull
                 VNull VNull (VStr "mysql") (VStr "tcp")
                 (ModelSyncConfiguration.new (VBool false) (VBool false))
                 (VBool false) (VBool false)
                 (ModelPoolConfiguration.new (VInt 9) (VInt 0) (VInt 10000)
                    (VInt 60000) (VInt 1000))
                 (ModelTransactionConfiguration.new (VStr "DEFERRED")
                    (VStr "READ_COMMITTED"))
                 (ModelRetryConfiguration.new (VInt 4)) VNull) eq_refl)
    as (_ & (d & HD & Hm & _) & _).
  exists d; split; assumption.
Defined.

(** *** [Default] and the default document *)

Lemma member_Some group field doc s x :
  property group doc = Some s -> property field s = Some x ->
  member group field doc = Some x.
Proof. unfold member; intros -> ->; reflexivity. Qed.

Lemma Sync_Default_members doc d :
  ModelSyncConfiguration.Default (Document doc) = Ok d ->
  member "sync" "force" doc = Some (ModelSyncConfiguration.getForce d) /\
  member "sync" "alter" doc = Some (ModelSyncConfiguration.getAlter d).
Proof.
  intros H. pose proof (Sync_Default_document doc) as S; rewrite H in S.
  destruct S as (_ & s & Hs & _ & H1 & _ & H2 & _).
  split; eapply member_Some; eassumption.
Qed.

Lemma Pool_Default_members doc d :
  ModelPoolConfiguration.Default (Document doc) = Ok d ->
  member "pool" "max" doc = Some (ModelPoolConfiguration.getMax d) /\
  member "pool" "min" doc = Some (ModelPoolConfiguration.getMin d) /\
  member "pool" "idle" doc = Some (ModelPoolConfiguration.getIdle d) /\
  member "pool" "acquire" doc = Some (ModelPoolConfiguration.getAcquire d) /\
  member "pool" "evict" doc = Some (ModelPoolConfiguration.getEvict d).
Proof.
  intros H. pose proof (Pool_Default_document doc) as S; rewrite H in S.
  destruct S as (_ & s & Hs & _ & H1 & _ & H2 & _ & H3 & _ & H4 & _ & H5 & _).
  repeat split; eapply member_Some; eassumption.
Qed.

Lemma Transaction_Default_members doc d :
  ModelTransactionConfiguration.Default (Document doc) = Ok d ->
  member "transaction" "type" doc
    = Some (ModelTransactionConfiguration.getType d) /\
  member "transaction" "isolation-level" doc
    = Some (ModelTransactionConfiguration.getIsolationLevel d).
Proof.
  intros H. pose proof (Transaction_Default_document doc) as S; rewrite H in S.
  destruct S as (_ & s & Hs & _ & H1 & _ & H2 & _).
  split; eapply member_Some; eassumption.
Qed.

Lemma Retry_Default_members doc d :
  ModelRetryConfiguration.Default (Document doc) = Ok d ->
  member "retry" "max" doc = Some (ModelRetryConfiguration.getMax d).
Proof.
  intros H. pose proof (Retry_Default_document doc) as S; rewrite H in S.
  destruct S as (_ & s & Hs & _ & H1 & _).
  eapply member_Some; eassumption.
Qed.

(** X6. [Default] returns what the default document holds: the fields of a
    nested default are the members of its group of the document, the
    top-level fields of the aggregate default are the values under the
    document's top-level keys, and the nested parts of the aggregate default
    are the nested defaults. *)
Theorem Default_reads_document :
  (forall doc d,
     ModelSyncConfiguration.Default (Document doc) = Ok d ->
     member "sync" "force" doc = Some (ModelSyncConfiguration.getForce d) /\
     member "sync" "alter" doc = Some (ModelSyncConfiguration.getAlter d)) /\
  (forall doc d,
     ModelPoolConfiguration.Default (Document doc) = Ok d ->
     member "pool" "max" doc = Some (ModelPoolConfiguration.getMax d) /\
     member "pool" "min" doc = Some (ModelPoolConfiguration.getMin d) /\
     member "pool" "idle" doc = Some (ModelPoolConfiguration.getIdle d) /\
     member "pool" "acquire" doc = Some (ModelPoolConfiguration.getAcquire d) /\
     member "pool" "evict" doc = Some (ModelPoolConfiguration.getEvict d)) /\
  (forall doc d,
     ModelTransactionConfiguration.Default (Document doc) = Ok d ->
     member "transaction" "type" doc
       = Some (ModelTransactionConfiguration.getType d) /\
     member "transaction" "isolation-level" doc
       = Some (ModelTransactionConfiguration.getIsolationLevel d)) /\
  (forall doc d,
     ModelRetryConfiguration.Default (Document doc) = Ok d ->
     member "retry" "max" doc = Some (ModelRetryConfiguration.getMax d)) /\
  (forall doc d,
     ModelConfiguration.Default (Document doc) = Ok d ->
     property "host" doc = Some (ModelConfiguration.getHost d) /\
     property "port" doc = Some (ModelConfiguration.getPort d) /\
     property "username" doc = Some (ModelConfiguration.getUsername d) /\
     property "password" doc = Some (ModelConfiguration.getPassword d) /\
     property "database" doc = Some (ModelConfiguration.getDatabase d) /\
     property "dialect" doc = Some (ModelConfiguration.getDialect d) /\
     property "protocol" doc = Some (ModelConfiguration.getProtocol d) /\
     property "logging" doc = Some (ModelConfiguration.getLogging d) /\
     property "omit-null" doc = Some (ModelConfiguration.getOmitNull d) /\
     property "operators-aliases" doc
       = Some (ModelConfiguration.getOperatorsAliases d) /\
     ModelSyncConfiguration.Default (Document doc)
       = Ok (ModelConfiguration.getSyncConfiguration d) /\
     ModelPoolConfiguration.Default (Document doc)
       = Ok (ModelConfiguration.getPoolConfiguration d) /\
     ModelTransactionConfiguration.Default (Document doc)
       = Ok (ModelConfiguration.getTransactionConfiguration d) /\
     ModelRetryConfiguration.Default (Document doc)
       = Ok (ModelConfiguration.getRetryConfiguration d)).
Proof.
  split; [exact Sync_Default_members |].
  split; [exact Pool_Default_members |].
  split; [exact Transaction_Default_members |].
  split; [exact Retry_Default_members |].
  intros doc d H. destruct (Model_Default_inv _ _ H)
    as (doc' & l & sc & pc & tc & rc & [= <-] & Hl & Hs & Hp & Ht & Hr & ->).
  pose proof (Default_locals_document doc) as L; rewrite Hl in L.
  destruct L as (_ & (P1 & _) & (P2 & _) & (P3 & _) & (P4 & _) & (P5 & _)
    & (P6 & _) & (P7 & _) & (P8 & A8) & (P9 & _) & (P10 & _) & (P11 & A11)
    & (P12 & A12) & (P13 & A13) & (P14 & _)).
  rewrite accepted_object in A8, A11, A12, A13.
  rewrite (Sync_From_subtree _ _ P8 A8) in Hs.
  rewrite (Pool_From_subtree _ _ P11 A11) in Hp.
  rewrite (Transaction_From_subtree _ _ P12 A12) in Ht.
  rewrite (Retry_From_subtree _ _ P13 A13) in Hr.
  cbn [assemble ModelConfiguration.getHost ModelConfiguration.getPort
       ModelConfiguration.getUsername ModelConfiguration.getPassword
       ModelConfiguration.getDatabase ModelConfiguration.getDialect
       ModelConfiguration.getProtocol ModelConfiguration.getLogging
       ModelConfiguration.getOmitNull ModelConfiguration.getOperatorsAliases
       ModelConfiguration.getSyncConfiguration
       ModelConfiguration.getPoolConfiguration
       ModelConfiguration.getTransactionConfiguration
       ModelConfiguration.getRetryConfiguration].
  repeat split; assumption.
Qed.

Lemma Default_reads_document_witness :
  member "pool" "max" model_default_json = Some (VInt 5) /\
  member "retry" "max" model_default_json = Some (VInt 4).
Proof.
  destruct Default_reads_document as (_ & Hp & _ & Hr & _). split.
  - exact (proj1 (Hp model_default_json
                    (ModelPoolConfiguration.new (VInt 5) (VInt 0) (VInt 10000)
                       (VInt 60000) (VInt 1000)) eq_refl)).
  - exact (Hr model_default_json (ModelRetryConfiguration.new (VInt 4)) eq_refl).
Defined.

(** X7. The default document must hold every key that [Default] reads, the
    nullable ones included.  When one of the fourteen top-level keys is
    missing, the aggregate [Default] throws the [ModelConfigurationError] of
    its [try] block (which carries no context); when a member of a group is
    missing, the nested [Default] throws that of its own. *)
Theorem Default_requires_every_key :
  (forall doc k,
     In k model_keys -> property k doc = None ->
     exists cause,
       ModelConfiguration.Default (Document doc)
       = Err (ModelConfigurationError None cause)) /\
  (forall doc f,
     In f sync_keys -> member "sync" f doc = None ->
     exists cause,
       ModelSyncConfiguration.Default (Document doc)
       = Err (ModelConfigurationError
                (Some "Load default model sync configuration error.") cause)) /\
  (forall doc f,
     In f pool_keys -> member "pool" f doc = None ->
     exists cause,
       ModelPoolConfiguration.Default (Document doc)
       = Err (ModelConfigurationError
                (Some "Load default model pool configuration error.") cause)) /\
  (forall doc f,
     In f transaction_keys -> member "transaction" f doc = None ->
     exists cause,
       ModelTransactionConfiguration.Default (Document doc)
       = Err (ModelConfigurationError
                (Some "Load default model transaction configuration.") cause)) /\
  (forall doc f,
     In f retry_keys -> member "retry" f doc = None ->
     exists cause,
       ModelRetryConfiguration.Default (Document doc)
       = Err (ModelConfigurationError
                (Some "Load model retry configuration error.") cause)).
Proof.
  split; [| split; [| split; [| split]]].
  - intros doc k Hk Habs.
    unfold ModelConfiguration.Default; cbn [ReadDefaultRawConfiguration bind].
    pose proof (Default_locals_document doc) as L.
    destruct (ModelConfiguration.Default_locals doc) as [l|cause];
      [| eexists; reflexivity].
    destruct L as (_ & (P1 & _) & (P2 & _) & (P3 & _) & (P4 & _) & (P5 & _)
      & (P6 & _) & (P7 & _) & (P8 & _) & (P9 & _) & (P10 & _) & (P11 & _)
      & (P12 & _) & (P13 & _) & (P14 & _)).
    cbn in Hk; repeat destruct Hk as [<- | Hk]; try congruence. destruct Hk.
  - intros doc f Hf Habs.
    destruct (ModelSyncConfiguration.Default (Document doc)) as [d|e] eqn:HD.
    + destruct (Sync_Default_members _ _ HD) as (M1 & M2).
      cbn in Hf; repeat destruct Hf as [<- | Hf]; try congruence. destruct Hf.
    + destruct (Sync_Default_context _ _ HD) as [cause ->]; eauto.
  - intros doc f Hf Habs.
    destruct (ModelPoolConfiguration.Default (Document doc)) as [d|e] eqn:HD.
    + destruct (Pool_Default_members _ _ HD) as (M1 & M2 & M3 & M4 & M5).
      cbn in Hf; repeat destruct Hf as [<- | Hf]; try congruence. destruct Hf.
    + destruct (Pool_Default_context _ _ HD) as [cause ->]; eauto.
  - intros doc f Hf Habs.
    destruct (ModelTransactionConfiguration.Default (Document doc))
      as [d|e] eqn:HD.
    + destruct (Transaction_Default_members _ _ HD) as (M1 & M2).
      cbn in Hf; repeat destruct Hf as [<- | Hf]; try congruence. destruct Hf.
    + destruct (Transaction_Default_context _ _ HD) as [cause ->]; eauto.
  - intros doc f Hf Habs.
    destruct (ModelRetryConfiguration.Default (Document doc)) as [d|e] eqn:HD.
    + pose proof (Retry_Default_members _ _ HD) as M1.
      cbn in Hf; repeat destruct Hf as [<- | Hf]; try congruence. destruct Hf.
    + destruct (Retry_Default_context _ _ HD) as [cause ->]; eauto.
Qed.

Lemma Default_requires_every_key_witness :
  (exists cause,
     ModelConfiguration.Default
       (Document (VObj [("host", VStr "localhost"); ("port", VInt 3306)]))
     = Err (ModelConfigurationError None cause)) /\
  (exists cause,
     ModelPoolConfiguration.Default (Document document_without_pool_max)
     = Err (ModelConfigurationError
              (Some "Load default model pool configuration error.") cause)).
Proof.
  destruct Default_requires_every_key as (Hm & _ & Hp & _). split.
  - apply (Hm _ "username"); [cbn; tauto | reflexivity].
  - apply (Hp _ "max"); [cbn; tauto | reflexivity].
Defined.

(** *** [From] and [toObject] *)

(** X8. For the sync, pool and retry configurations [From] reads back what
    [toObject] writes: with loadable defaults, [From] of the serialization of
    a typed configuration is that configuration. *)
Theorem From_toObject_round_trip :
  (forall file d c,
     ModelSyncConfiguration.Default file = Ok d -> sync_typed c = true ->
     ModelSyncConfiguration.From file (ModelSyncConfiguration.toObject c)
     = Ok c) /\
  (forall file d c,
     ModelPoolConfiguration.Default file = Ok d -> pool_typed c = true ->
     ModelPoolConfiguration.From file (ModelPoolConfiguration.toObject c)
     = Ok c) /\
  (forall file d c,
     ModelRetryConfiguration.Default file = Ok d -> retry_typed c = true ->
     ModelRetryConfiguration.From file (ModelRetryConfiguration.toObject c)
     = Ok c).
Proof.
  repeat split; intros file d c HD Ht.
  - rewrite (merges_valid _ _ _ (Sync_From_merges file d _ HD));
      destruct c; [reflexivity | exact Ht].
  - rewrite (merges_valid _ _ _ (Pool_From_merges file d _ HD));
      destruct c; [reflexivity | exact Ht].
  - rewrite (merges_valid _ _ _ (Retry_From_merges file d _ HD));
      destruct c; [reflexivity | exact Ht].
Qed.

Lemma From_toObject_round_trip_witness :
  ModelPoolConfiguration.From bundled
    (ModelPoolConfiguration.toObject
       (ModelPoolConfiguration.new (VInt 20) (VInt 2) (VInt 500) (VInt 900)
          (VInt 70)))
  = Ok (ModelPoolConfiguration.new (VInt 20) (VInt 2) (VInt 500) (VInt 900)
          (VInt 70)).
Proof.
  destruct From_toObject_round_trip as (_ & Hp & _).
  exact (Hp bundled
           (ModelPoolConfiguration.new (VInt 5) (VInt 0) (VInt 10000)
              (VInt 60000) (VInt 1000))
           (ModelPoolConfiguration.new (VInt 20) (VInt 2) (VInt 500) (VInt 900)
              (VInt 70)) eq_refl eq_refl).
Defined.


Lemma Model_Default_parts file d :
  ModelConfiguration.Default file = Ok d ->
  ModelSyncConfiguration.Default file
    = Ok (ModelConfiguration.getSyncConfiguration d) /\
  ModelPoolConfiguration.Default file
    = Ok (ModelConfiguration.getPoolConfiguration d) /\
  ModelTransactionConfiguration.Default file
    = Ok (ModelConfiguration.getTransactionConfiguration d) /\
  ModelRetryConfiguration.Default file
    = Ok (ModelConfiguration.getRetryConfiguration d).
Proof.
  intros H. destruct (Model_Default_inv _ _ H)
    as (doc & l & sc & pc & tc & rc & -> & Hl & Hs & Hp & Ht & Hr & ->).
  pose proof (Default_locals_document doc) as L; rewrite Hl in L.
  destruct L as (_ & _ & _ & _ & _ & _ & _ & _ & (P8 & A8) & _ & _
    & (P11 & A11) & (P12 & A12) & (P13 & A13) & _).
  rewrite accepted_object in A8, A11, A12, A13.
  rewrite (Sync_From_subtree _ _ P8 A8) in Hs.
  rewrite (Pool_From_subtree _ _ P11 A11) in Hp.
  rewrite (Transaction_From_subtree _ _ P12 A12) in Ht.
  rewrite (Retry_From_subtree _ _ P13 A13) in Hr.
  repeat split; assumption.
Qed.

(** X10. The aggregate serialization is read back only in part.  With
    loadable defaults [d], [From] of [toObject] of a typed configuration [c]
    keeps the seven connection fields, [logging] and the sync, pool and retry
    groups of [c], and falls back to [d] for [omitNull], the transaction group
    and the aliases, whose keys [toObject] writes in another spelling than
    [From] reads. *)
Theorem Model_From_toObject :
  forall file d c,
    ModelConfiguration.Default file = Ok d ->
    model_typed c = true ->
    ModelConfiguration.From file (ModelConfiguration.toObject c)
    = Ok (ModelConfiguration.new
            (ModelConfiguration.getHost c) (ModelConfiguration.getPort c)
            (ModelConfiguration.getUsername c)
            (ModelConfiguration.getPassword c)
            (ModelConfiguration.getDatabase c)
            (ModelConfiguration.getDialect c)
            (ModelConfiguration.getProtocol c)
            (ModelConfiguration.getSyncConfiguration c)
            (ModelConfiguration.getLogging c)
            (ModelConfiguration.getOmitNull d)
            (ModelConfiguration.getPoolConfiguration c)
            (ModelConfiguration.getTransactionConfiguration d)
            (ModelConfiguration.getRetryConfiguration c)
            (ModelConfiguration.getOperatorsAliases d)).
Proof.
  intros file d c HD Hc.
  destruct (Model_Default_parts _ _ HD) as (Ds & Dp & Dt & Dr).
  pose proof (Model_Default_typed _ _ HD) as Hd.
  unfold model_typed in Hc, Hd.
  repeat (apply andb_true_iff in Hc; destruct Hc as [Hc ?]).
  repeat (apply andb_true_iff in Hd; destruct Hd as [Hd ?]).
  destruct c as [h p u pw db di pr sy lo om po tr re oa].
  cbn [ModelConfiguration.getHost ModelConfiguration.getPort
       ModelConfiguration.getUsername ModelConfiguration.getPassword
       ModelConfiguration.getDatabase ModelConfiguration.getDialect
       ModelConfiguration.getProtocol ModelConfiguration.getLogging
       ModelConfiguration.getOmitNull ModelConfiguration.getOperatorsAliases
       ModelConfiguration.getSyncConfiguration
       ModelConfiguration.getPoolConfiguration
       ModelConfiguration.getTransactionConfiguration
       ModelConfiguration.getRetryConfiguration] in *.
  rewrite (Model_From_intro file _ d sy po
             (ModelConfiguration.getTransactionConfiguration d) re HD).
  - reflexivity.
  - unfold model_valid;
      cbn -[accepted allowed ModelConfiguration.getOmitNull
            ModelConfiguration.getOperatorsAliases].
    repeat match goal with A : _ = true |- _ => rewrite A; clear A end.
    destruct sy, po, re; reflexivity.
  - change (pick "sync" (VObj []) _) with (ModelSyncConfiguration.toObject sy).
    rewrite (merges_valid _ _ _ (Sync_From_merges file _ _ Ds));
      destruct sy; [reflexivity | assumption].
  - change (pick "pool" (VObj []) _) with (ModelPoolConfiguration.toObject po).
    rewrite (merges_valid _ _ _ (Pool_From_merges file _ _ Dp));
      destruct po; [reflexivity | assumption].
  - change (pick "transaction" (VObj []) _) with (VObj []).
    rewrite Transaction_From_empty; exact Dt.
  - change (pick "retry" (VObj []) _) with (ModelRetryConfiguration.toObject re).
    rewrite (merges_valid _ _ _ (Retry_From_merges file _ _ Dr));
      destruct re; [reflexivity | assumption].
Qed.

Lemma Model_From_toObject_witness :
  ModelConfiguration.From bundled
    (ModelConfiguration.toObject
       (ModelConfiguration.new (VStr "db") (VInt 5432) (VStr "root") VNull
          VNull (VStr "postgres") (VStr "tcp")
          (ModelSyncConfiguration.new (VBool true) (VBool false))
          (VBool true) (VBool true)
          (ModelPoolConfiguration.new (VInt 9) (VInt 1) (VInt 2) (VInt 3)
             (VInt 4))
          (ModelTransactionConfiguration.new (VStr "EXCLUSIVE")
             (VStr "SERIALIZABLE"))
          (ModelRetryConfiguration.new (VInt 0)) (VObj [])))
  = Ok (ModelConfiguration.new (VStr "db") (VInt 5432) (VStr "root") VNull
          VNull (VStr "postgres") (VStr "tcp")
          (ModelSyncConfiguration.new (VBool true) (VBool false))
          (VBool true) (VBool false)
          (ModelPoolConfiguration.new (VInt 9) (VInt 1) (VInt 2) (VInt 3)
             (VInt 4))
          (ModelTransactionConfiguration.new (VStr "DEFERRED")
             (VStr "READ_COMMITTED"))
          (ModelRetryConfiguration.new (VInt 0)) VNull).
Proof.
  apply (Model_From_toObject bundled default_configuration); reflexivity.
Defined.

(** *** Keys of the raw object *)

Lemma Sync_From_ignores file k v fields :
  ~ In k sync_keys ->
  ModelSyncConfiguration.From file (VObj ((k, v) :: fields))
  = ModelSyncConfiguration.From file (VObj fields).
Proof.
  intros Hk. unfold ModelSyncConfiguration.From.
  destruct (ModelSyncConfiguration.Default file) as [d|]; [| reflexivity].
  cbn [bind]. chain_names.
  rewrite !root_eq; cbn [instanceOfObject bind].
  rewrite !optional_eq by reflexivity.
  other_keys sync_keys k. reflexivity.
Qed.

Lemma Pool_From_ignores file k v fields :
  ~ In k pool_keys ->
  ModelPoolConfiguration.From file (VObj ((k, v) :: fields))
  = ModelPoolConfiguration.From file (VObj fields).
Proof.
  intros Hk. unfold ModelPoolConfiguration.From.
  destruct (ModelPoolConfiguration.Default file) as [d|]; [| reflexivity].
  cbn [bind]. chain_names.
  rewrite !root_eq; cbn [instanceOfObject bind].
  rewrite !optional_eq by reflexivity.
  other_keys pool_keys k. reflexivity.
Qed.

Lemma Retry_From_ignores file k v fields :
  ~ In k retry_keys ->
  ModelRetryConfiguration.From file (VObj ((k, v) :: fields))
  = ModelRetryConfiguration.From file (VObj fields).
Proof.
  intros Hk. unfold ModelRetryConfiguration.From.
  destruct (ModelRetryConfiguration.Default file) as [d|]; [| reflexivity].
  cbn [bind]. chain_names.
  rewrite !root_eq; cbn [instanceOfObject bind].
  rewrite !optional_eq by reflexivity.
  other_keys retry_keys k. reflexivity.
Qed.

(** X11. A loader looks at its own keys only.  A binding of any other key in
    the raw object, whatever its value, changes neither what [From] returns
    nor what it throws: a misspelt key is no error, it is not seen. *)
Theorem From_ignores_other_keys :
  (forall file k v fields,
     ~ In k sync_keys ->
     ModelSyncConfiguration.From file (VObj ((k, v) :: fields))
     = ModelSyncConfiguration.From file (VObj fields)) /\
  (forall file k v fields,
     ~ In k pool_keys ->
     ModelPoolConfiguration.From file (VObj ((k, v) :: fields))
     = ModelPoolConfiguration.From file (VObj fields)) /\
  (forall file k v fields,
     ~ In k transaction_keys ->
     ModelTransactionConfiguration.From file (VObj ((k, v) :: fields))
     = ModelTransactionConfiguration.From file (VObj fields)) /\
  (forall file k v fields,
     ~ In k retry_keys ->
     ModelRetryConfiguration.From file (VObj ((k, v) :: fields))
     = ModelRetryConfiguration.From file (VObj fields)) /\
  (forall file k v fields,
     ~ In k model_keys ->
     ModelConfiguration.From file (VObj ((k, v) :: fields))
     = ModelConfiguration.From file (VObj fields)).
Proof.
  split; [exact Sync_From_ignores |].
  split; [exact Pool_From_ignores |].
  split; [exact Transaction_From_ignores |].
  split; [exact Retry_From_ignores |].
  exact Model_From_ignores.
Qed.

Lemma From_ignores_other_keys_witness :
  ModelPoolConfiguration.From bundled
    (VObj [("maximum", VStr "many"); ("min", VInt 1)])
  = ModelPoolConfiguration.From bundled (VObj [("min", VInt 1)]) /\
  ModelConfiguration.From bundled (VObj [("user", VInt 0)])
  = ModelConfiguration.From bundled (VObj []).
Proof.
  destruct From_ignores_other_keys as (_ & Hp & _ & _ & Hm). split.
  - apply Hp. apply not_in_keys. reflexivity.
  - apply Hm. apply not_in_keys. reflexivity.
Defined.

(** X12. Giving one more field to a raw object that loads: when the value is
    non-null and of the field's kind, [From] returns the former configuration
    with that one field replaced by the value. *)
Theorem From_overrides_one_field :
  (forall file fields c k v,
     ModelSyncConfiguration.From file (VObj fields) = Ok c ->
     In k sync_keys -> accepted KBoolean v = true ->
     ModelSyncConfiguration.From file (VObj ((k, v) :: fields))
     = Ok (sync_merge c (VObj [(k, v)]))) /\
  (forall file fields c k v,
     ModelPoolConfiguration.From file (VObj fields) = Ok c ->
     In k pool_keys -> accepted KInteger v = true ->
     ModelPoolConfiguration.From file (VObj ((k, v) :: fields))
     = Ok (pool_merge c (VObj [(k, v)]))) /\
  (forall file fields c k v,
     ModelTransactionConfiguration.From file (VObj fields) = Ok c ->
     In k transaction_keys -> accepted KString v = true ->
     ModelTransactionConfiguration.From file (VObj ((k, v) :: fields))
     = Ok (transaction_merge c (VObj [(k, v)]))) /\
  (forall file fields c k v,
     ModelRetryConfiguration.From file (VObj fields) = Ok c ->
     In k retry_keys -> accepted KInteger v = true ->
     ModelRetryConfiguration.From file (VObj ((k, v) :: fields))
     = Ok (retry_merge c (VObj [(k, v)]))).
Proof.
  repeat split; intros file fields c k v H Hk Hv.
  - destruct (ModelSyncConfiguration.Default file) as [d|e] eqn:HD;
      [| rewrite (Sync_From_default_error _ _ _ HD) in H; discriminate].
    destruct (merges_Ok _ _ _ _ (Sync_From_merges file d _ HD) H) as [V ->].
    rewrite (merges_valid _ _ _ (Sync_From_merges file d _ HD));
      unfold sync_valid in V;
      repeat (apply andb_true_iff in V; destruct V as [V ?]);
      cbn in Hk; repeat destruct Hk as [<- | Hk]; try destruct Hk;
      unfold sync_merge, sync_valid; rewrite ?pick_cons, ?pick_empty;
      cbn -[pick accepted];
      repeat match goal with A : _ = true |- _ => rewrite A; clear A end;
      reflexivity.
  - destruct (ModelPoolConfiguration.Default file) as [d|e] eqn:HD;
      [| rewrite (Pool_From_default_error _ _ _ HD) in H; discriminate].
    destruct (merges_Ok _ _ _ _ (Pool_From_merges file d _ HD) H) as [V ->].
    rewrite (merges_valid _ _ _ (Pool_From_merges file d _ HD));
      unfold pool_valid in V;
      repeat (apply andb_true_iff in V; destruct V as [V ?]);
      cbn in Hk; repeat destruct Hk as [<- | Hk]; try destruct Hk;
      unfold pool_merge, pool_valid; rewrite ?pick_cons, ?pick_empty;
      cbn -[pick accepted];
      repeat match goal with A : _ = true |- _ => rewrite A; clear A end;
      reflexivity.
  - destruct (ModelTransactionConfiguration.Default file) as [d|e] eqn:HD;
      [| rewrite (Transaction_From_default_error _ _ _ HD) in H; discriminate].
    destruct (merges_Ok _ _ _ _ (Transaction_From_merges file d _ HD) H)
      as [V ->].
    rewrite (merges_valid _ _ _ (Transaction_From_merges file d _ HD));
      unfold transaction_valid in V;
      repeat (apply andb_true_iff in V; destruct V as [V ?]);
      cbn in Hk; repeat destruct Hk as [<- | Hk]; try destruct Hk;
      unfold transaction_merge, transaction_valid;
      rewrite ?pick_cons, ?pick_empty;
      cbn -[pick accepted];
      repeat match goal with A : _ = true |- _ => rewrite A; clear A end;
      reflexivity.
  - destruct (ModelRetryConfiguration.Default file) as [d|e] eqn:HD;
      [| rewrite (Retry_From_default_error _ _ _ HD) in H; discriminate].
    destruct (merges_Ok _ _ _ _ (Retry_From_merges file d _ HD) H) as [V ->].
    rewrite (merges_valid _ _ _ (Retry_From_merges file d _ HD));
      unfold retry_valid in V;
      repeat (apply andb_true_iff in V; destruct V as [V ?]);
      cbn in Hk; repeat destruct Hk as [<- | Hk]; try destruct Hk;
      unfold retry_merge, retry_valid; rewrite ?pick_cons, ?pick_empty;
      cbn -[pick accepted];
      repeat match goal with A : _ = true |- _ => rewrite A; clear A end;
      reflexivity.
Qed.

Lemma From_overrides_one_field_witness :
  ModelPoolConfiguration.From bundled
    (VObj [("idle", VInt 250); ("max", VInt 9)])
  = Ok (ModelPoolConfiguration.new (VInt 9) (VInt 0) (VInt 250) (VInt 60000)
          (VInt 1000)).
Proof.
  destruct From_overrides_one_field as (_ & Hp & _).
  apply (Hp bundled [("max", VInt 9)]
           (ModelPoolConfiguration.new (VInt 9) (VInt 0) (VInt 10000)
              (VInt 60000) (VInt 1000)) "idle" (VInt 250));
    [reflexivity | cbn; tauto | reflexivity].
Defined.

(** *** The aggregate loader's errors *)

(** X13. With loadable defaults [d], what the aggregate [From] throws is
    either the error of its own [try] block, exactly when a top-level value
    does not pass ([model_valid] is false), or, when they all pass, the error
    of a nested [From] on the raw group, handed on unwrapped. *)
Theorem Model_From_errors :
  forall file d raw e,
    ModelConfiguration.Default file = Ok d ->
    ModelConfiguration.From file raw = Err e ->
    (model_valid d raw = false /\
     exists cause,
       e = ModelConfigurationError (Some "Load model configuration error.")
             cause) \/
    (model_valid d raw = true /\
     (ModelSyncConfiguration.From file (pick "sync" (VObj []) raw) = Err e \/
      ModelTransactionConfiguration.From file
        (pick "transaction" (VObj []) raw) = Err e \/
      ModelPoolConfiguration.From file (pick "pool" (VObj []) raw) = Err e \/
      ModelRetryConfiguration.From file (pick "retry" (VObj []) raw) = Err e)).
Proof.
  intros file d raw e HD. unfold ModelConfiguration.From.
  rewrite HD; cbn [bind]. pose proof (From_locals_settles d raw) as S.
  destruct (ModelConfiguration.From_locals d raw) as [l|cause];
    cbn [settles] in S; cbn [try_catch bind];
    [| intros [= <-]; left; split; [exact S | eauto]].
  destruct S as [V ->]. cbn [model_locals ModelConfiguration.sync
    ModelConfiguration.pool ModelConfiguration.transaction
    ModelConfiguration.retry].
  intros H; right; split; [exact V |].
  destruct (ModelSyncConfiguration.From _ _); cbn [bind] in H;
    [| injection H as ->; auto 6].
  destruct (ModelTransactionConfiguration.From _ _); cbn [bind] in H;
    [| injection H as ->; auto 6].
  destruct (ModelPoolConfiguration.From _ _); cbn [bind] in H;
    [| injection H as ->; auto 6].
  destruct (ModelRetryConfiguration.From _ _); cbn [bind] in H;
    [discriminate | injection H as ->; auto 6].
Qed.

Lemma Model_From_errors_witness :
  ModelPoolConfiguration.From bundled
    (pick "pool" (VObj []) (VObj [("pool", VObj [("max", VStr "5")])]))
  = Err (ModelConfigurationError (Some "Load model pool configuration error.")
           (TypeError ["max"] KInteger)).
Proof.
  destruct (Model_From_errors bundled default_configuration
              (VObj [("pool", VObj [("max", VStr "5")])])
              (ModelConfigurationError
                 (Some "Load model pool configuration error.")
                 (TypeError ["max"] KInteger)) eq_refl eq_refl)
    as [[V _] | [_ [H | [H | [H | H]]]]];
    [discriminate V | discriminate H | discriminate H | exact H
    | discriminate H].
Defined.

(** ** Further properties of the factory *)

(** X14. What [create] does with the client package.  The constructor is
    called only with the serialization of the configuration that [From]
    loaded; [authenticate] is called only when [waitForAuthenticate] is set,
    and only on a client that the constructor returned. *)
Theorem create_calls :
  forall (client : Type) (lib : SequelizeFactory.Sequelize client)
         (file : DefaultFile) (raw : value) (waitForAuthenticate : bool),
    (forall options,
       In (SequelizeFactory.NewSequelize options)
          (trace (SequelizeFactory.create lib file raw waitForAuthenticate)) ->
       exists c, ModelConfiguration.From file raw = Ok c /\
                 options = ModelConfiguration.toObject c) /\
    (In SequelizeFactory.Authenticate
        (trace (SequelizeFactory.create lib file raw waitForAuthenticate)) ->
     waitForAuthenticate = true /\
     exists c sequelize,
       ModelConfiguration.From file raw = Ok c /\
       SequelizeFactory.construct lib (ModelConfiguration.toObject c)
       = Ok sequelize).
Proof.
  intros client lib file raw w. unfold SequelizeFactory.create, trace.
  destruct (ModelConfiguration.From file raw) as [c|e];
    [| split; intros; cbn in *; tauto].
  destruct (SequelizeFactory.construct lib _) as [s|m] eqn:Hc.
  - destruct w; [destruct (SequelizeFactory.authenticate lib s) |];
      cbn [fst In]; split;
      try (intros options [[= <-] | [? | []]]; try discriminate; eauto);
      try (intros [? | [? | []]]; try discriminate; eauto 6);
      try (intros options [[= <-] | []]; eauto);
      try (intros [? | []]; discriminate).
  - cbn [fst In]; split;
      [intros options [[= <-] | []]; eauto | intros [? | []]; discriminate].
Qed.

Lemma create_calls_witness :
  exists c,
    ModelConfiguration.From bundled (VObj []) = Ok c /\
    ModelConfiguration.toObject default_configuration
    = ModelConfiguration.toObject c.
Proof.
  apply (proj1 (create_calls value accepting_client bundled (VObj []) true)).
  cbn; tauto.
Defined.

(** X15. With [waitForAuthenticate] unset, [create] never calls
    [authenticate], whatever the raw configuration, the default file and the
    client package. *)
Theorem create_without_authenticate :
  forall (client : Type) (lib : SequelizeFactory.Sequelize client)
         (file : DefaultFile) (raw : value),
    ~ In SequelizeFactory.Authenticate
        (trace (SequelizeFactory.create lib file raw false)).
Proof.
  intros client lib file raw. unfold SequelizeFactory.create, trace.
  destruct (ModelConfiguration.From file raw) as [c|e]; [| cbn; tauto].
  destruct (SequelizeFactory.construct lib _) as [s|m]; cbn;
    intros [H | []]; discriminate H.
Qed.

(** X16. When [create] resolves, it resolves with the client that the
    constructor returned for the serialization of the loaded configuration,
    and, when [waitForAuthenticate] is set, [authenticate] on that client did
    not throw. *)
Theorem create_resolves :
  forall (client : Type) (lib : SequelizeFactory.Sequelize client)
         (file : DefaultFile) (raw : value) (waitForAuthenticate : bool)
         (sequelize : client),
    settled (SequelizeFactory.create lib file raw waitForAuthenticate)
    = Ok sequelize ->
    exists c,
      ModelConfiguration.From file raw = Ok c /\
      SequelizeFactory.construct lib (ModelConfiguration.toObject c)
      = Ok sequelize /\
      (waitForAuthenticate = true ->
       SequelizeFactory.authenticate lib sequelize = Ok tt).
Proof.
  intros client lib file raw w s. unfold SequelizeFactory.create, settled.
  destruct (ModelConfiguration.From file raw) as [c|e]; [| discriminate].
  cbv zeta.
  destruct (SequelizeFactory.construct lib (ModelConfiguration.toObject c))
    as [s'|m] eqn:Hc; [| discriminate].
  destruct w.
  - destruct (SequelizeFactory.authenticate lib s') as [[]|m] eqn:Ha;
      cbn [snd]; [| discriminate].
    intros [= <-]; exists c; repeat split; intros; assumption || reflexivity.
  - cbn [snd]; intros [= <-]; exists c; repeat split; intros;
      reflexivity || congruence.
Qed.

Lemma create_resolves_witness :
  exists c,
    ModelConfiguration.From bundled (VObj [("port", VInt 5432)]) = Ok c /\
    SequelizeFactory.construct accepting_client (ModelConfiguration.toObject c)
    = Ok (ModelConfiguration.toObject
            (ModelConfiguration.new (VStr "localhost") (VInt 5432) VNull VNull
               VNull (VStr "mysql") (VStr "tcp")
               (ModelSyncConfiguration.new (VBool false) (VBool false))
               (VBool false) (VBool false)
               (ModelPoolConfiguration.new (VInt 5) (VInt 0) (VInt 10000)
                  (VInt 60000) (VInt 1000))
               (ModelTransactionConfiguration.new (VStr "DEFERRED")
                  (VStr "READ_COMMITTED"))
               (ModelRetryConfiguration.new (VInt 4)) VNull)).
Proof.
  destruct (create_resolves value accepting_client bundled
              (VObj [("port", VInt 5432)]) true _ eq_refl) as (c & Hf & Hc & _).
  exists c; split; assumption.
Defined.

(** X17. How [create] rejects.  A rejection is a
    [SequelizeFactoryConfigurationError] exactly when [From] threw, and it
    wraps what [From] threw; it is a [SequelizeFactoryAuthenticateError] only
    when the configuration loaded, the client was constructed and
    [authenticate] threw, and it carries the message of that error; what the
    constructor throws is not wrapped. *)
Theorem create_rejects :
  forall (client : Type) (lib : SequelizeFactory.Sequelize client)
         (file : DefaultFile) (raw : value) (waitForAuthenticate : bool)
         (r : SequelizeFactory.rejection),
    settled (SequelizeFactory.create lib file raw waitForAuthenticate) = Err r ->
    (exists e,
       r = SequelizeFactory.Factory
             (SequelizeFactory.SequelizeFactoryConfigurationError e) /\
       ModelConfiguration.From file raw = Err e) \/
    (exists c message,
       r = SequelizeFactory.Uncaught message /\
       ModelConfiguration.From file raw = Ok c /\
       SequelizeFactory.construct lib (ModelConfiguration.toObject c)
       = Err message) \/
    (exists c sequelize message,
       r = SequelizeFactory.Factory
             (SequelizeFactory.SequelizeFactoryAuthenticateError message) /\
       waitForAuthenticate = true /\
       ModelConfiguration.From file raw = Ok c /\
       SequelizeFactory.construct lib (ModelConfiguration.toObject c)
       = Ok sequelize /\
       SequelizeFactory.authenticate lib sequelize = Err message).
Proof.
  intros client lib file raw w r. unfold SequelizeFactory.create, settled.
  destruct (ModelConfiguration.From file raw) as [c|e];
    [| cbn [snd]; intros [= <-]; left; eauto].
  destruct (SequelizeFactory.construct lib _) as [s|m] eqn:Hc;
    [| cbn [snd]; intros [= <-]; right; left; eauto].
  destruct w; [| discriminate].
  destruct (SequelizeFactory.authenticate lib s) as [[]|m] eqn:Ha;
    cbn [snd]; [discriminate |].
  intros [= <-]; right; right; exists c, s, m; repeat split; assumption.
Qed.

Lemma create_rejects_witness :
  exists c sequelize,
    ModelConfiguration.From bundled (VObj []) = Ok c /\
    SequelizeFactory.construct (refusing_client "Access denied.")
      (ModelConfiguration.toObject c) = Ok sequelize /\
    SequelizeFactory.authenticate (refusing_client "Access denied.") sequelize
    = Err "Access denied.".
Proof.
  destruct (create_rejects value (refusing_client "Access denied.") bundled
              (VObj []) true
              (SequelizeFactory.Factory
                 (SequelizeFactory.SequelizeFactoryAuthenticateError
                    "Access denied.")) eq_refl)
    as [(e & _ & H) | [(c & m & H & _) | (c & s & m & Hr & _ & Hf & Hc & Ha)]].
  - discriminate H.
  - discriminate H.
  - injection Hr as <-. exists c, s; repeat split; assumption.
Defined.

(** X18. When the default file cannot be read or parsed, [create] rejects
    every raw configuration with a [SequelizeFactoryConfigurationError] that
    wraps the plain [Error] of [ReadDefaultRawConfiguration], and calls
    nothing of the client package. *)
Theorem create_without_default_file :
  forall (client : Type) (lib : SequelizeFactory.Sequelize client)
         (file : DefaultFile) (raw : value) (waitForAuthenticate : bool),
    file = Unreadable \/ file = Malformed ->
    exists message,
      ModelConfiguration.From file raw = Err (Error message) /\
      SequelizeFactory.create lib file raw waitForAuthenticate
      = ([], Err (SequelizeFactory.Factory
                    (SequelizeFactory.SequelizeFactoryConfigurationError
                       (Error message)))).
Proof. intros client lib file raw w [-> | ->]; eexists; split; reflexivity. Qed.

Lemma create_without_default_file_witness :
  exists message,
    ModelConfiguration.From Unreadable (VObj []) = Err (Error message) /\
    SequelizeFactory.create accepting_client Unreadable (VObj []) false
    = ([], Err (SequelizeFactory.Factory
                  (SequelizeFactory.SequelizeFactoryConfigurationError
                     (Error message)))).
Proof.
  exact (create_without_default_file value accepting_client Unreadable (VObj [])
           false (or_introl eq_refl)).
Defined.

(** ** The aggregate default against the specification *)

Lemma has_type_kind expected v : has_type expected v = has_kind (kind_of expected) v.
Proof. destruct expected, v; reflexivity. Qed.

Lemma check_field_eq fields key nullable expected :
  check_field (VObj fields) (Field key nullable expected)
  = match assoc key fields with
    | None => Err (MissingField key)
    | Some x =>
        if (if nullable then allowed (kind_of expected) x
            else accepted (kind_of expected) x)
        then Ok x
        else Err (match x with
                  | VNull => MissingField key
                  | _ => TypeMismatch key expected
                  end)
    end.
Proof.
  unfold check_field, requireField, assertType, allowed, accepted;
    cbn [field_key field_nullable field_expected].
  destruct (assoc key fields) as [x|]; [| reflexivity].
  destruct x, nullable; cbn [bind]; rewrite ?has_type_kind; reflexivity.
Qed.

(** The top-level pass of the code and the pass of the specification over the
    schema accept the same documents and read the same fourteen values. *)
Lemma top_level_pass doc :
  match ModelConfiguration.Default_locals doc,
        check_fields doc model_schema with
  | Ok l, Ok vs =>
      vs = [("host", ModelConfiguration.host l);
            ("port", ModelConfiguration.port l);
            ("username", ModelConfiguration.username l);
            ("password", ModelConfiguration.password l);
            ("database", ModelConfiguration.database l);
            ("dialect", ModelConfiguration.dialect l);
            ("protocol", ModelConfiguration.protocol l);
            ("sync", ModelConfiguration.sync l);
            ("logging", ModelConfiguration.logging l);
            ("omit-null", ModelConfiguration.omitNull l);
            ("pool", ModelConfiguration.pool l);
            ("transaction", ModelConfiguration.transaction l);
            ("retry", ModelConfiguration.retry l);
            ("operators-aliases", ModelConfiguration.operatorsAliases l)]
  | Err _, Err _ => True
  | _, _ => False
  end.
Proof.
  destruct doc as [| b | q | s | items | fields]; try exact I.
  unfold ModelConfiguration.Default_locals. chain_names. rewrite root_eq.
  cbn [instanceOfObject bind].
  rewrite !required_eq, !required_nullable_eq by reflexivity.
  cbn [property check_fields model_schema field_key].
  rewrite !check_field_eq. cbn [kind_of].
  repeat
    (match goal with
     | |- context [match assoc ?n fields with _ => _ end] =>
         destruct (assoc n fields); cbn [bind]; [| exact I]
     end;
     match goal with
     | |- context [if accepted ?k ?x then _ else _] =>
         destruct (accepted k x); cbn [bind]; [| exact I]
     | |- context [if allowed ?k ?x then _ else _] =>
         destruct (allowed k x); cbn [bind]; [| exact I]
     end).
  reflexivity.
Qed.

(** C3. [ModelConfiguration.Default] does what the specification says of it:
    the pass of [requireField] and [assertType] over the fourteen top-level
    fields of the default document, whose failure is wrapped, and then the
    four nested loaders' [Default()].  On every default file the two return
    the same configuration or fail alike: both in the top-level pass, or both
    with the same error of the document's loader or of a nested loader. *)
Theorem Default_follows_the_specification :
  forall file, agree (Default_by_spec file) (ModelConfiguration.Default file).
Proof.
  intros [| | doc]; try reflexivity.
  unfold Default_by_spec, ModelConfiguration.Default.
  cbn [ReadDefaultRawConfiguration raised bind].
  pose proof (top_level_pass doc) as T.
  pose proof (Default_locals_document doc) as L.
  destruct (ModelConfiguration.Default_locals doc) as [l|cause];
    destruct (check_fields doc model_schema) as [vs|fault];
    try contradiction; cbn [wrapped try_catch bind agree]; [| exact I].
  subst vs.
  destruct L as (_ & _ & _ & _ & _ & _ & _ & _ & (P8 & A8) & _ & _
    & (P11 & A11) & (P12 & A12) & (P13 & A13) & _).
  rewrite accepted_object in A8, A11, A12, A13.
  rewrite (Sync_From_subtree _ _ P8 A8), (Pool_From_subtree _ _ P11 A11),
    (Transaction_From_subtree _ _ P12 A12), (Retry_From_subtree _ _ P13 A13).
  destruct (ModelSyncConfiguration.Default (Document doc));
    cbn [raised bind agree]; [| reflexivity].
  destruct (ModelPoolConfiguration.Default (Document doc));
    cbn [raised bind agree]; [| reflexivity].
  destruct (ModelTransactionConfiguration.Default (Document doc));
    cbn [raised bind agree]; [| reflexivity].
  destruct (ModelRetryConfiguration.Default (Document doc));
    cbn [raised bind agree]; reflexivity.
Qed.

(** ** The default document and the loaders *)

Ltac unpack_valid H :=
  repeat match goal with
    | A : _ && _ = true |- _ => apply andb_true_iff in A; destruct A as [? ?]
    end;
  repeat match goal with
    | A : match property ?n ?s with _ => _ end = true |- _ =>
        let x := fresh "x" in
        destruct (property n s) as [x|] eqn:?; [| discriminate A]
    end.

Lemma group_valid_inv group members doc :
  group_valid group members doc = true ->
  instanceOfObject doc = true /\
  exists s, property group doc = Some s /\ instanceOfObject s = true /\
    forallb (fun m => holds false (snd m) (fst m) s) members = true.
Proof.
  unfold group_valid; intros H.
  apply andb_true_iff in H; destruct H as [Hdoc H]. split; [exact Hdoc |].
  destruct (property group doc) as [s|]; [| discriminate].
  apply andb_true_iff in H; destruct H as [Hs H].
  rewrite accepted_object in Hs. eauto.
Qed.

Ltac default_of_valid H :=
  destruct (group_valid_inv _ _ _ H) as (Hdoc & s & Hs & Hobj & Hm);
  cbn [forallb fst snd] in Hm; unfold holds in Hm;
  cbn [ReadDefaultRawConfiguration bind]; chain_names;
  rewrite descend_eq, Hdoc, Hs, accepted_object, Hobj; cbn [bind];
  rewrite !required_eq by assumption;
  unpack_valid Hm;
  repeat match goal with A : accepted _ _ = true |- _ => rewrite A; clear A end;
  cbn [bind try_catch]; eexists; reflexivity.

Lemma Sync_Default_of_valid doc :
  group_valid "sync" sync_members doc = true ->
  exists d, ModelSyncConfiguration.Default (Document doc) = Ok d.
Proof.
  intros H; unfold ModelSyncConfiguration.Default, sync_members in *.
  default_of_valid H.
Qed.

Lemma Pool_Default_of_valid doc :
  group_valid "pool" pool_members doc = true ->
  exists d, ModelPoolConfiguration.Default (Document doc) = Ok d.
Proof.
  intros H; unfold ModelPoolConfiguration.Default, pool_members in *.
  default_of_valid H.
Qed.

Lemma Transaction_Default_of_valid doc :
  group_valid "transaction" transaction_members doc = true ->
  exists d, ModelTransactionConfiguration.Default (Document doc) = Ok d.
Proof.
  intros H;
    unfold ModelTransactionConfiguration.Default, transaction_members in *.
  default_of_valid H.
Qed.

Lemma Retry_Default_of_valid doc :
  group_valid "retry" retry_members doc = true ->
  exists d, ModelRetryConfiguration.Default (Document doc) = Ok d.
Proof.
  intros H; unfold ModelRetryConfiguration.Default, retry_members in *.
  default_of_valid H.
Qed.

Ltac valid_of_default S :=
  unfold group_valid, holds; cbn [forallb fst snd];
  repeat match goal with
    | A : property _ _ = Some _ |- _ => rewrite A; clear A
    end;
  rewrite ?accepted_object;
  repeat match goal with A : _ = true |- _ => rewrite A; clear A end;
  reflexivity.

Lemma Sync_Default_valid doc d :
  ModelSyncConfiguration.Default (Document doc) = Ok d ->
  group_valid "sync" sync_members doc = true.
Proof.
  intros H. pose proof (Sync_Default_document doc) as S; rewrite H in S.
  destruct S as (Hdoc & s & Hs & Hobj & P1 & A1 & P2 & A2).
  unfold sync_members. valid_of_default S.
Qed.

Lemma Pool_Default_valid doc d :
  ModelPoolConfiguration.Default (Document doc) = Ok d ->
  group_valid "pool" pool_members doc = true.
Proof.
  intros H. pose proof (Pool_Default_document doc) as S; rewrite H in S.
  destruct S as (Hdoc & s & Hs & Hobj & P1 & A1 & P2 & A2 & P3 & A3 & P4 & A4
    & P5 & A5).
  unfold pool_members. valid_of_default S.
Qed.

Lemma Transaction_Default_valid doc d :
  ModelTransactionConfiguration.Default (Document doc) = Ok d ->
  group_valid "transaction" transaction_members doc = true.
Proof.
  intros H. pose proof (Transaction_Default_document doc) as S; rewrite H in S.
  destruct S as (Hdoc & s & Hs & Hobj & P1 & A1 & P2 & A2).
  unfold transaction_members. valid_of_default S.
Qed.

Lemma Retry_Default_valid doc d :
  ModelRetryConfiguration.Default (Document doc) = Ok d ->
  group_valid "retry" retry_members doc = true.
Proof.
  intros H. pose proof (Retry_Default_document doc) as S; rewrite H in S.
  destruct S as (Hdoc & s & Hs & Hobj & P1 & A1).
  unfold retry_members. valid_of_default S.
Qed.

Lemma Model_Default_valid doc d :
  ModelConfiguration.Default (Document doc) = Ok d ->
  document_valid doc = true.
Proof.
  intros H. destruct (Model_Default_parts _ _ H) as (Ds & Dp & Dt & Dr).
  destruct (Model_Default_inv _ _ H)
    as (doc' & l & sc & pc & tc & rc & [= <-] & Hl & _).
  pose proof (Default_locals_document doc) as L; rewrite Hl in L.
  destruct L as (Hdoc & (P1 & A1) & (P2 & A2) & (P3 & A3) & (P4 & A4)
    & (P5 & A5) & (P6 & A6) & (P7 & A7) & (P8 & A8) & (P9 & A9) & (P10 & A10)
    & (P11 & A11) & (P12 & A12) & (P13 & A13) & (P14 & A14)).
  unfold document_valid.
  rewrite (Sync_Default_valid _ _ Ds), (Pool_Default_valid _ _ Dp),
    (Transaction_Default_valid _ _ Dt), (Retry_Default_valid _ _ Dr).
  unfold top_level_valid, holds.
  rewrite Hdoc, P1, P2, P3, P4, P5, P6, P7, P8, P9, P10, P11, P12, P13, P14,
    A1, A2, A3, A4, A5, A6, A7, A8, A9, A10, A11, A12, A13, A14.
  reflexivity.
Qed.

(** A valid document loads: the converse of [Model_Default_valid]. *)
Lemma Model_Default_of_valid doc :
  document_valid doc = true ->
  exists d, ModelConfiguration.Default (Document doc) = Ok d.
Proof.
  unfold document_valid; intros H.
  repeat (apply andb_true_iff in H; destruct H as [H ?]).
  destruct (Sync_Default_of_valid doc) as [sc Ds]; [assumption |].
  destruct (Pool_Default_of_valid doc) as [pc Dp]; [assumption |].
  destruct (Transaction_Default_of_valid doc) as [tc Dt]; [assumption |].
  destruct (Retry_Default_of_valid doc) as [rc Dr]; [assumption |].
  unfold holds in *. unpack_valid H.
  unfold ModelConfiguration.Default, ModelConfiguration.Default_locals.
  cbn [ReadDefaultRawConfiguration bind]. chain_names. rewrite root_eq.
  match goal with A : instanceOfObject doc = true |- _ => rewrite A end.
  cbn [bind]. rewrite !required_eq, !required_nullable_eq by assumption.
  repeat match goal with
    | A : property _ doc = Some _ |- _ => rewrite A
    end.
  repeat match goal with
    | A : accepted _ _ = true |- _ => rewrite A
    | A : allowed _ _ = true |- _ => rewrite A
    end.
  cbn [bind try_catch ModelConfiguration.sync ModelConfiguration.pool
       ModelConfiguration.transaction ModelConfiguration.retry].
  match goal with
  | P : property "sync" doc = Some ?x, A : accepted KObject ?x = true |- _ =>
      rewrite (Sync_From_subtree doc x P); [| rewrite <- accepted_object; exact A]
  end.
  match goal with
  | P : property "pool" doc = Some ?x, A : accepted KObject ?x = true |- _ =>
      rewrite (Pool_From_subtree doc x P); [| rewrite <- accepted_object; exact A]
  end.
  match goal with
  | P : property "transaction" doc = Some ?x, A : accepted KObject ?x = true
    |- _ =>
      rewrite (Transaction_From_subtree doc x P);
        [| rewrite <- accepted_object; exact A]
  end.
  match goal with
  | P : property "retry" doc = Some ?x, A : accepted KObject ?x = true |- _ =>
      rewrite (Retry_From_subtree doc x P); [| rewrite <- accepted_object; exact A]
  end.
  rewrite Ds, Dp, Dt, Dr. cbn [bind]. eexists; reflexivity.
Qed.

Lemma settle_pick field raw group doc x :
  member group field doc = Some x ->
  Some (pick field x raw) = settle field raw group doc.
Proof.
  unfold pick, settle; intros ->; destruct (property field raw); reflexivity.
Qed.

(** C5. For a default document whose group is valid and a valid raw object of
    a nested loader (an object every given field of which is non-null and of
    its kind), [From] returns, and every field of the configuration it
    returns is the raw value when the raw object gives the field, and the
    value of the default document when it omits it. *)
Theorem From_round_trips_document :
  (forall doc raw,
     group_valid "sync" sync_members doc = true ->
     sync_raw_valid raw = true ->
     exists c,
       ModelSyncConfiguration.From (Document doc) raw = Ok c /\
       Some (ModelSyncConfiguration.getForce c) = settle "force" raw "sync" doc /\
       Some (ModelSyncConfiguration.getAlter c) = settle "alter" raw "sync" doc) /\
  (forall doc raw,
     group_valid "pool" pool_members doc = true ->
     pool_raw_valid raw = true ->
     exists c,
       ModelPoolConfiguration.From (Document doc) raw = Ok c /\
       Some (ModelPoolConfiguration.getMax c) = settle "max" raw "pool" doc /\
       Some (ModelPoolConfiguration.getMin c) = settle "min" raw "pool" doc /\
       Some (ModelPoolConfiguration.getIdle c) = settle "idle" raw "pool" doc /\
       Some (ModelPoolConfiguration.getAcquire c)
         = settle "acquire" raw "pool" doc /\
       Some (ModelPoolConfiguration.getEvict c)
         = settle "evict" raw "pool" doc) /\
  (forall doc raw,
     group_valid "transaction" transaction_members doc = true ->
     transaction_raw_valid raw = true ->
     exists c,
       ModelTransactionConfiguration.From (Document doc) raw = Ok c /\
       Some (ModelTransactionConfiguration.getType c)
         = settle "type" raw "transaction" doc /\
       Some (ModelTransactionConfiguration.getIsolationLevel c)
         = settle "isolation-level" raw "transaction" doc) /\
  (forall doc raw,
     group_valid "retry" retry_members doc = true ->
     retry_raw_valid raw = true ->
     exists c,
       ModelRetryConfiguration.From (Document doc) raw = Ok c /\
       Some (ModelRetryConfiguration.getMax c) = settle "max" raw "retry" doc).
Proof.
  destruct From_of_valid_raw as (Fs & Fp & Ft & Fr).
  repeat split; intros doc raw Hdoc Hraw.
  - destruct (Sync_Default_of_valid _ Hdoc) as [d HD].
    destruct (Sync_Default_members _ _ HD) as (M1 & M2).
    exists (sync_merge d raw); split; [exact (Fs _ _ _ HD Hraw) |].
    split; apply settle_pick; assumption.
  - destruct (Pool_Default_of_valid _ Hdoc) as [d HD].
    destruct (Pool_Default_members _ _ HD) as (M1 & M2 & M3 & M4 & M5).
    exists (pool_merge d raw); split; [exact (Fp _ _ _ HD Hraw) |].
    repeat split; apply settle_pick; assumption.
  - destruct (Transaction_Default_of_valid _ Hdoc) as [d HD].
    destruct (Transaction_Default_members _ _ HD) as (M1 & M2).
    exists (transaction_merge d raw); split; [exact (Ft _ _ _ HD Hraw) |].
    split; apply settle_pick; assumption.
  - destruct (Retry_Default_of_valid _ Hdoc) as [d HD].
    pose proof (Retry_Default_members _ _ HD) as M1.
    exists (retry_merge d raw); split; [exact (Fr _ _ _ HD Hraw) |].
    apply settle_pick; assumption.
Qed.

Lemma From_round_trips_document_witness :
  exists c,
    ModelPoolConfiguration.From bundled
      (VObj [("max", VInt 9); ("idle", VInt 250)]) = Ok c /\
    Some (ModelPoolConfiguration.getMax c) = Some (VInt 9) /\
    Some (ModelPoolConfiguration.getMin c) = Some (VInt 0) /\
    Some (ModelPoolConfiguration.getIdle c) = Some (VInt 250) /\
    Some (ModelPoolConfiguration.getAcquire c) = Some (VInt 60000) /\
    Some (ModelPoolConfiguration.getEvict c) = Some (VInt 1000).
Proof.
  destruct From_round_trips_document as (_ & Hp & _).
  exact (Hp model_default_json (VObj [("max", VInt 9); ("idle", VInt 250)])
           eq_refl eq_refl).
Defined.

(** C7. Every [From] begins with the [Default()] of its level, so a default
    document that lacks a required field or holds one of the wrong type makes
    [From] throw whatever the raw input supplies: a nested [From] throws the
    [ModelConfigurationError] of its [Default], and the aggregate [From] the
    [ModelConfigurationError] that the aggregate [Default] throws. *)
Theorem From_validates_the_document :
  (forall doc raw,
     group_valid "sync" sync_members doc = false ->
     exists cause,
       ModelSyncConfiguration.From (Document doc) raw
       = Err (ModelConfigurationError
                (Some "Load default model sync configuration error.") cause)) /\
  (forall doc raw,
     group_valid "pool" pool_members doc = false ->
     exists cause,
       ModelPoolConfiguration.From (Document doc) raw
       = Err (ModelConfigurationError
                (Some "Load default model pool configuration error.") cause)) /\
  (forall doc raw,
     group_valid "transaction" transaction_members doc = false ->
     exists cause,
       ModelTransactionConfiguration.From (Document doc) raw
       = Err (ModelConfigurationError
                (Some "Load default model transaction configuration.") cause)) /\
  (forall doc raw,
     group_valid "retry" retry_members doc = false ->
     exists cause,
       ModelRetryConfiguration.From (Document doc) raw
       = Err (ModelConfigurationError
                (Some "Load model retry configuration error.") cause)) /\
  (forall doc raw,
     document_valid doc = false ->
     exists e,
       ModelConfiguration.From (Document doc) raw = Err e /\
       ModelConfiguration.Default (Document doc) = Err e /\
       isModelConfigurationError e = true).
Proof.
  split; [| split; [| split; [| split]]]; intros doc raw H.
  - destruct (ModelSyncConfiguration.Default (Document doc)) as [d|e] eqn:HD.
    + rewrite (Sync_Default_valid _ _ HD) in H; discriminate.
    + destruct (Sync_Default_context _ _ HD) as [cause ->].
      exists cause; apply Sync_From_default_error; exact HD.
  - destruct (ModelPoolConfiguration.Default (Document doc)) as [d|e] eqn:HD.
    + rewrite (Pool_Default_valid _ _ HD) in H; discriminate.
    + destruct (Pool_Default_context _ _ HD) as [cause ->].
      exists cause; apply Pool_From_default_error; exact HD.
  - destruct (ModelTransactionConfiguration.Default (Document doc))
      as [d|e] eqn:HD.
    + rewrite (Transaction_Default_valid _ _ HD) in H; discriminate.
    + destruct (Transaction_Default_context _ _ HD) as [cause ->].
      exists cause; apply Transaction_From_default_error; exact HD.
  - destruct (ModelRetryConfiguration.Default (Document doc)) as [d|e] eqn:HD.
    + rewrite (Retry_Default_valid _ _ HD) in H; discriminate.
    + destruct (Retry_Default_context _ _ HD) as [cause ->].
      exists cause; apply Retry_From_default_error; exact HD.
  - destruct (ModelConfiguration.Default (Document doc)) as [d|e] eqn:HD.
    + rewrite (Model_Default_valid _ _ HD) in H; discriminate.
    + exists e; split; [apply Model_From_default_error; exact HD |].
      split; [reflexivity |].
      eapply outcome_error; [apply Model_Default_document | exact HD].
Qed.

Lemma From_validates_the_document_witness :
  (exists cause,
     ModelPoolConfiguration.From (Document document_without_pool_max) full_pool
     = Err (ModelConfigurationError
              (Some "Load default model pool configuration error.") cause)) /\
  (exists e,
     ModelConfiguration.From (Document document_with_string_port)
       model_default_json = Err e /\
     ModelConfiguration.Default (Document document_with_string_port) = Err e /\
     isModelConfigurationError e = true).
Proof.
  destruct From_validates_the_document as (_ & Hp & _ & _ & Hm). split.
  - exact (Hp document_without_pool_max full_pool eq_refl).
  - exact (Hm document_with_string_port model_default_json eq_refl).
Defined.

(** *** The lookup with a default in the loaders *)

Lemma Model_From_invalid file d raw :
  ModelConfiguration.Default file = Ok d ->
  model_valid d raw = false ->
  exists cause,
    ModelConfiguration.From file raw
    = Err (ModelConfigurationError (Some "Load model configuration error.")
             cause).
Proof.
  intros HD Hv. unfold ModelConfiguration.From. rewrite HD; cbn [bind].
  pose proof (From_locals_settles d raw) as S.
  destruct (ModelConfiguration.From_locals d raw) as [l|cause];
    cbn [settles] in S; [destruct S; congruence |].
  exists cause; reflexivity.
Qed.

(** C4 (amended). In the loaders the lookup with a default gives the default
    when the raw object lacks the field, and the present value unchanged when
    it has it, as the pool fields and [logging], [omit-null] and [username]
    of the aggregate show; a field that is present with the value [null] is
    not replaced by the default: [null] is the value of the nullable
    [username], and for the other fields the [.notNull()] that follows the
    lookup makes [From] throw. *)
Theorem optional_fields_in_the_loaders :
  (forall file d fields c,
     ModelPoolConfiguration.Default file = Ok d ->
     ModelPoolConfiguration.From file (VObj fields) = Ok c ->
     ModelPoolConfiguration.getMax c
       = match assoc "max" fields with
         | Some x => x | None => ModelPoolConfiguration.getMax d end /\
     ModelPoolConfiguration.getMin c
       = match assoc "min" fields with
         | Some x => x | None => ModelPoolConfiguration.getMin d end /\
     ModelPoolConfiguration.getIdle c
       = match assoc "idle" fields with
         | Some x => x | None => ModelPoolConfiguration.getIdle d end /\
     ModelPoolConfiguration.getAcquire c
       = match assoc "acquire" fields with
         | Some x => x | None => ModelPoolConfiguration.getAcquire d end /\
     ModelPoolConfiguration.getEvict c
       = match assoc "evict" fields with
         | Some x => x | None => ModelPoolConfiguration.getEvict d end) /\
  (forall file d fields k,
     ModelPoolConfiguration.Default file = Ok d ->
     In k pool_keys -> assoc k fields = Some VNull ->
     exists cause,
       ModelPoolConfiguration.From file (VObj fields)
       = Err (ModelConfigurationError
                (Some "Load model pool configuration error.") cause)) /\
  (forall file d fields c,
     ModelConfiguration.Default file = Ok d ->
     ModelConfiguration.From file (VObj fields) = Ok c ->
     ModelConfiguration.getLogging c
       = match assoc "logging" fields with
         | Some x => x | None => ModelConfiguration.getLogging d end /\
     ModelConfiguration.getOmitNull c
       = match assoc "omit-null" fields with
         | Some x => x | None => ModelConfiguration.getOmitNull d end /\
     ModelConfiguration.getUsername c
       = match assoc "username" fields with
         | Some x => x | None => ModelConfiguration.getUsername d end) /\
  (forall file d fields k,
     ModelConfiguration.Default file = Ok d ->
     In k ["logging"; "omit-null"] -> assoc k fields = Some VNull ->
     exists cause,
       ModelConfiguration.From file (VObj fields)
       = Err (ModelConfigurationError
                (Some "Load model configuration error.") cause)).
Proof.
  split; [| split; [| split]].
  - intros file d fields c HD H.
    destruct (merges_Ok _ _ _ _ (Pool_From_merges file d _ HD) H) as [_ ->].
    repeat split.
  - intros file d fields k HD Hk Hnull.
    destruct (ModelPoolConfiguration.From file (VObj fields)) as [c|e] eqn:H.
    + destruct (merges_Ok _ _ _ _ (Pool_From_merges file d _ HD) H) as [V _].
      unfold pool_valid in V.
      repeat (apply andb_true_iff in V; destruct V as [V ?]).
      cbn in Hk; repeat destruct Hk as [<- | Hk]; try destruct Hk;
        match goal with
        | A : accepted _ (pick ?n _ _) = true, N : assoc ?n _ = Some VNull |- _ =>
            unfold pick in A; cbn [property] in A; rewrite N in A; discriminate A
        end.
    + destruct (Pool_From_context _ _ _ _ HD H) as [cause ->]; eauto.
  - intros file d fields c HD H.
    destruct (Model_From_inv _ _ _ H)
      as (d' & sc & pc & tc & rc & HD' & _ & _ & _ & _ & _ & ->).
    rewrite HD in HD'; injection HD' as <-. repeat split.
  - intros file d fields k HD Hk Hnull.
    apply (Model_From_invalid _ _ _ HD).
    unfold model_valid.
    cbn in Hk; repeat destruct Hk as [<- | Hk]; try destruct Hk.
    + rewrite (pick_present "logging" _ (VObj fields) VNull Hnull).
      cbn [accepted]. rewrite ?andb_false_r; reflexivity.
    + rewrite (pick_present "omit-null" _ (VObj fields) VNull Hnull).
      cbn [accepted]. rewrite ?andb_false_r; reflexivity.
Qed.

Lemma optional_fields_in_the_loaders_witness :
  (ModelPoolConfiguration.getMax
     (ModelPoolConfiguration.new (VInt 7) (VInt 0) (VInt 10000) (VInt 60000)
        (VInt 1000)) = VInt 7 /\
   ModelPoolConfiguration.getMin
     (ModelPoolConfiguration.new (VInt 7) (VInt 0) (VInt 10000) (VInt 60000)
        (VInt 1000)) = VInt 0) /\
  (exists cause,
     ModelPoolConfiguration.From bundled (VObj [("max", VNull)])
     = Err (ModelConfigurationError
              (Some "Load model pool configuration error.") cause)) /\
  (exists cause,
     ModelConfiguration.From bundled (VObj [("logging", VNull)])
     = Err (ModelConfigurationError
              (Some "Load model configuration error.") cause)).
Proof.
  destruct optional_fields_in_the_loaders as (Hp & Hpn & _ & Hmn).
  split; [| split].
  - destruct (Hp bundled
                (ModelPoolConfiguration.new (VInt 5) (VInt 0) (VInt 10000)
                   (VInt 60000) (VInt 1000))
                [("max", VInt 7)]
                (ModelPoolConfiguration.new (VInt 7) (VInt 0) (VInt 10000)
                   (VInt 60000) (VInt 1000)) eq_refl eq_refl)
      as (H1 & H2 & _).
    split; assumption.
  - apply (Hpn bundled
             (ModelPoolConfiguration.new (VInt 5) (VInt 0) (VInt 10000)
                (VInt 60000) (VInt 1000)) [("max", VNull)] "max");
      [reflexivity | cbn; tauto | reflexivity].
  - apply (Hmn bundled default_configuration [("logging", VNull)] "logging");
      [reflexivity | cbn; tauto | reflexivity].
Defined.
